(** * Health-Report-Analyzer: extraction orchestration and OCR quality pipeline

    A shallow embedding of the server-side extraction services
    ([geminiService.js], [extractionService.js], [ocrService.js]), of the
    report model ([models/Report.js]) and of the routes that call them
    ([routes/upload.js], [routes/analysis.js]), and the properties of the
    orchestrator, of the OCR decision pipeline and of what is stored and
    answered.

    Modelling conventions.
    - A JavaScript string is a [string]: a sequence of 8-bit code units.  All
      comparisons the services make are against ASCII literals, so the case
      mapping only has to act on [A-Z].
    - A JavaScript number that is a count or a time stamp is a [nat] or a [Z];
      a score or an engine confidence is an exact rational [Q]: the rounding
      of IEEE doubles is not modelled.
    - A property that may be missing from an object is an [option] field,
      [None] standing for [undefined].
    - The collaborators (Gemini client, Tesseract, sharp, pdf-parse, the
      parameter parser, the clock, the process environment) are the fields of
      an environment record [Env]; each call may return or throw.
    - [async] code is sequenced in program order in a state-and-exception
      monad [M]; the state survives a [throw], as assignments do in
      JavaScript.
    - The routes run in a second monad of the same shape, [Web.R], whose
      state adds the calls to the database and the text prompts to the
      model; a request is the record of what a route reads of it, the
      response a status and a body. *)

From Stdlib Require Import List String Ascii Bool Arith ZArith QArith Lia Lqa.
From Stdlib Require Import DecimalString.
Import ListNotations.

Close Scope Q_scope.
Open Scope string_scope.
Open Scope list_scope.
Open Scope nat_scope.

(* ------------------------------------------------------------------ *)
(** ** Text primitives of the JavaScript runtime *)

Module Text.

Definition code (c : ascii) : nat := nat_of_ascii c.

Definition isDigit (c : ascii) : bool := (48 <=? code c) && (code c <=? 57).
Definition isUpper (c : ascii) : bool := (65 <=? code c) && (code c <=? 90).
Definition isLower (c : ascii) : bool := (97 <=? code c) && (code c <=? 122).

(** [\w] *)
Definition isWord (c : ascii) : bool :=
  isDigit c || isUpper c || isLower c || (code c =? 95).

(** [\s], which is also the set [String.prototype.trim] strips. *)
Definition isSpace (c : ascii) : bool :=
  ((9 <=? code c) && (code c <=? 13)) || (code c =? 32) || (code c =? 160).

Definition lowerChar (c : ascii) : ascii :=
  if isUpper c then ascii_of_nat (code c + 32) else c.

(** [s.toLowerCase()] *)
Fixpoint toLowerCase (s : string) : string :=
  match s with
  | EmptyString => EmptyString
  | String c s' => String (lowerChar c) (toLowerCase s')
  end.

Fixpoint dropSpaces (s : string) : string :=
  match s with
  | EmptyString => EmptyString
  | String c s' => if isSpace c then dropSpaces s' else s
  end.

(** Removes the white space at the end: the result of the tail is kept when
    it is not empty or when the head is not white space. *)
Fixpoint dropSpacesEnd (s : string) : string :=
  match s with
  | EmptyString => EmptyString
  | String c s' =>
      match dropSpacesEnd s' with
      | EmptyString => if isSpace c then EmptyString else String c EmptyString
      | t => String c t
      end
  end.

(** [s.trim()] *)
Definition trim (s : string) : string := dropSpacesEnd (dropSpaces s).

(** [s.startsWith(p)] *)
Fixpoint startsWith (s p : string) : bool :=
  match p, s with
  | EmptyString, _ => true
  | String _ _, EmptyString => false
  | String a p', String b s' => Ascii.eqb a b && startsWith s' p'
  end.

(** [s.includes(p)] *)
Fixpoint includes (s p : string) : bool :=
  startsWith s p ||
  match s with
  | EmptyString => false
  | String _ s' => includes s' p
  end.

(** [a || b] on strings: the empty string is falsy. *)
Definition orElse (a : option string) (b : string) : string :=
  match a with
  | Some (String c s) => String c s
  | _ => b
  end.

Definition truthy (a : option string) : bool :=
  match a with
  | Some (String _ _) => true
  | _ => false
  end.

End Text.

(* ------------------------------------------------------------------ *)
(** ** The regular expressions of the quality scorer

    The two patterns only repeat character classes, so a pattern is a
    sequence of atoms.  Matching is the backtracking search of the runtime:
    greedy repetition first, alternatives left to right. *)

Module Regex.

Import Text.

Inductive atom : Type :=
| Plus (cls : ascii -> bool)          (* [c+] *)
| Star (cls : ascii -> bool)          (* [c*] *)
| Opt (cls : ascii -> bool)           (* [c?] *)
| One (cls : ascii -> bool)           (* [c]  *)
| Alt (lits : list string).           (* [(a|b|...)] of literals *)

Definition pattern : Type := list atom.

Section Matcher.

(** The [i] flag. *)
Variable ignoreCase : bool.

Definition sameChar (a b : ascii) : bool :=
  if ignoreCase then Ascii.eqb (lowerChar a) (lowerChar b) else Ascii.eqb a b.

(** Consume the literal [p] at the head of [s]. *)
Fixpoint literal (p s : string) : option string :=
  match p, s with
  | EmptyString, _ => Some s
  | String _ _, EmptyString => None
  | String a p', String b s' => if sameChar a b then literal p' s' else None
  end.

(** Greedy repetition with backtracking into the continuation [k]. *)
Fixpoint star (cls : ascii -> bool) (s : string)
         (k : string -> option string) : option string :=
  match s with
  | String c s' =>
      if cls c then
        match star cls s' k with
        | Some r => Some r
        | None => k s
        end
      else k s
  | EmptyString => k s
  end.

Fixpoint alternatives (lits : list string) (s : string)
         (k : string -> option string) : option string :=
  match lits with
  | [] => None
  | p :: rest =>
      match literal p s with
      | Some s' =>
          match k s' with
          | Some r => Some r
          | None => alternatives rest s k
          end
      | None => alternatives rest s k
      end
  end.

Definition matchAtom (a : atom) (s : string)
           (k : string -> option string) : option string :=
  match a with
  | Plus cls =>
      match s with
      | String c s' => if cls c then star cls s' k else None
      | EmptyString => None
      end
  | Star cls => star cls s k
  | Opt cls =>
      match s with
      | String c s' =>
          if cls c then
            match k s' with
            | Some r => Some r
            | None => k s
            end
          else k s
      | EmptyString => k s
      end
  | One cls =>
      match s with
      | String c s' => if cls c then k s' else None
      | EmptyString => None
      end
  | Alt lits => alternatives lits s k
  end.

(** A match of the pattern at the head of [s]; the result is what follows
    the match. *)
Fixpoint matchHere (r : pattern) (s : string) : option string :=
  match r with
  | [] => Some s
  | a :: r' => matchAtom a s (matchHere r')
  end.

(** [(s.match(/r/g) || []).length]: scan from the left, and after a match
    resume at its end (one further when the match is empty).  [skip] counts
    the code units of the current match still to step over. *)
Fixpoint countFrom (r : pattern) (s : string) (skip : nat) : nat :=
  match s with
  | EmptyString =>
      match skip, matchHere r EmptyString with
      | O, Some _ => 1
      | _, _ => 0
      end
  | String _ s' =>
      match skip with
      | S n => countFrom r s' n
      | O =>
          match matchHere r s with
          | Some rest =>
              S (countFrom r s' (String.length s - String.length rest - 1))
          | None => countFrom r s' 0
          end
      end
  end.

Definition matchCount (r : pattern) (s : string) : nat := countFrom r s 0.

End Matcher.

End Regex.

(* ------------------------------------------------------------------ *)
(** ** Quality scoring ([calculateQualityScore], ocrService.js) *)

Module Quality.

Import Text.

Definition medicalTerms : list string :=
  ["glucose"; "cholesterol"; "hemoglobin"; "triglyceride"; "creatinine"].

(** [/\d+\.?\d*\s*(mg\/dl|mmol\/l|g\/dl|%)/gi] *)
Definition unitRegex : Regex.pattern :=
  [Regex.Plus isDigit; Regex.Opt (Ascii.eqb "."); Regex.Star isDigit;
   Regex.Star isSpace; Regex.Alt ["mg/dl"; "mmol/l"; "g/dl"; "%"]].

(** [/\w+\s*[:\-]\s*\d+/g] *)
Definition tableRegex : Regex.pattern :=
  [Regex.Plus isWord; Regex.Star isSpace;
   Regex.One (fun c => Ascii.eqb c ":" || Ascii.eqb c "-");
   Regex.Star isSpace; Regex.Plus isDigit].

Record Metrics : Type := {
  charCount : nat;
  medicalTermCount : nat;
  unitPatterns : nat;
  tablePatterns : nat
}.

Record Breakdown : Type := {
  content : Q;
  structure : Q;
  medicalContent : Q;
  units : Q;
  confidence : Q
}.

Record Score : Type := {
  total : Q;
  breakdown : option Breakdown;
  metrics : option Metrics
}.

Definition ofNat (n : nat) : Q := inject_Z (Z.of_nat n).

Definition measure (text : string) : Metrics :=
  {| charCount := String.length text;
     medicalTermCount :=
       List.length (filter (fun term => includes (toLowerCase text) term)
                           medicalTerms);
     unitPatterns := Regex.matchCount true unitRegex text;
     tablePatterns := Regex.matchCount false tableRegex text |}.

Definition weigh (m : Metrics) (conf : Q) : Breakdown :=
  {| content :=
       if 100 <? charCount m then 50%Q else (ofNat (charCount m) * (3 # 10))%Q;
     structure := (ofNat (tablePatterns m) * 8)%Q;
     medicalContent := (ofNat (medicalTermCount m) * 15)%Q;
     units := (ofNat (unitPatterns m) * 12)%Q;
     confidence := (conf * (4 # 10))%Q |}.

(** [Object.values(score)], in insertion order. *)
Definition values (b : Breakdown) : list Q :=
  [content b; structure b; medicalContent b; units b; confidence b].

Definition calculateQualityScore (text : string) (conf : Q) : Score :=
  let m := measure text in
  let score := weigh m conf in
  {| total := fold_left Qplus (values score) 0%Q;
     breakdown := Some score;
     metrics := Some m |}.

(** [a > b] on numbers. *)
Definition gtb (a b : Q) : bool := negb (Qle_bool a b).

End Quality.

(* ------------------------------------------------------------------ *)
(** ** Data model *)

Definition Buffer : Type := list Byte.byte.

(** One entry of [healthParameters]. *)
Record HealthParameter : Type := {
  name : string;
  value : Q;
  unit_ : string;
  normalRange : string;
  status : string;
  category : string;
  parameterType : string;
  textValue : option string
}.

Record Outlier : Type := {
  outlierParameter : string;
  outlierValue : Q;
  outlierRange : string;
  severity : string;
  concern : string;
  recommendation : option string
}.

Record Lifestyle : Type := {
  diet : option (list string);
  exercise : option (list string);
  habits : option (list string)
}.

Record Insights : Type := {
  summary : string;
  outliers : list Outlier;
  recommendations : list string;
  riskLevel : string;
  positiveFindings : list string;
  trendsToMonitor : option (list string);
  lifestyle : option Lifestyle
}.

Record PatientInfo : Type := {
  patientName : option string;
  age : option string;
  gender : option string;
  testDate : option string;
  hospital : option string
}.

Record Metadata : Type := {
  model : option string;
  metaProcessingTime : Z;
  metaConfidence : option Q;
  textLength : option nat;
  parameterCount : nat
}.

(** What [extractWithGemini] and [extractWithOCR] return, and the own
    properties of the object the orchestrator returns besides
    [extractionLog]. *)
Record MethodResult : Type := {
  success : bool;
  method : string;
  extractedText : option string;
  patientInfo : option PatientInfo;
  healthParameters : option (list HealthParameter);
  aiInsights : option (option Insights);        (* [Some None] is [null] *)
  isScannedDocument : option bool;
  requiresManualEntry : option bool;
  metadata : option Metadata;
  error : option string;
  processingTime : option Z
}.

Record Attempt : Type := {
  attemptMethod : string;
  attemptSuccess : bool;
  attemptProcessingTime : option Z
}.

Record ExtractionLog : Type := {
  attempts : list Attempt;
  finalMethod : option string;
  totalTime : Z;
  logError : option string
}.

(** [{ ...result, extractionLog }] *)
Record ExtractionResult : Type := {
  result : MethodResult;
  extractionLog : ExtractionLog
}.

Record Options : Type := {
  forceMethod : option string;
  preferGemini : option bool;
  includeInsights : option bool
}.

(** *** Collaborator interfaces *)

Module Tesseract.

Inductive PSM : Type := AUTO_ONLY | AUTO.
Inductive OEM : Type := DEFAULT | LSTM_ONLY.

Record RecognizeOptions : Type := {
  tessedit_pageseg_mode : option PSM;
  tessedit_ocr_engine_mode : option OEM;
  preserve_interword_spaces : option string;
  tessedit_char_whitelist : option string
}.

End Tesseract.

Module Sharp.

(** The operations chained on [sharp(buffer)] before [toBuffer()]. *)
Inductive Op : Type :=
| rotate (angle : Z)
| resize (width height : Z) (fit : string) (withoutEnlargement : option bool)
| grayscale
| normalize
| linear (a b : Q)
| sharpen (sigma : Q)
| threshold (level : Z)
| clahe (width height maxSlope : Z)
| gamma (g : Q)
| png (compressionLevel : Z).

End Sharp.

(** A value as it comes out of [JSON.parse]. *)
Inductive JsValue : Type :=
| JUndefined
| JNull
| JNumber (q : Q)
| JString (s : string).

Record RawParameter : Type := {
  rawName : option string;
  rawValue : JsValue;
  rawUnit : option string;
  rawNormalRange : option string;
  rawStatus : option string;
  rawCategory : option string;
  rawParameterType : option string;
  rawTextValue : option string
}.

Record RawOutlier : Type := {
  rawOutlierParameter : option string;
  rawOutlierValue : JsValue;
  rawOutlierRange : option string;
  rawSeverity : option string;
  rawConcern : option string;
  rawRecommendation : option string
}.

Record RawInsights : Type := {
  rawSummary : option string;
  rawOutliers : option (list RawOutlier);
  rawRecommendations : option (list string);
  rawRiskLevel : option string;
  rawPositiveFindings : option (list string);
  rawTrendsToMonitor : option (list string);
  rawLifestyle : option Lifestyle
}.

(** The parsed reply of the model; [parameters] is [None] when the property
    is missing or is not an array. *)
Record ParsedData : Type := {
  parameters : option (list RawParameter);
  insights : option RawInsights;
  parsedText : option string;
  parsedPatientInfo : option PatientInfo;
  parsedConfidence : option Q
}.

(** A call returns a value or throws an error, of which only [message] is
    ever read. *)
Inductive Outcome (A : Type) : Type :=
| Return (a : A)
| Throw (message : string).

Arguments Return {A} a.
Arguments Throw {A} message.

Record Env : Type := {
  (** [process.env.GEMINI_API_KEY] *)
  GEMINI_API_KEY : option string;
  (** the value of the n-th [Date.now()] of a run *)
  clock : nat -> Z;
  (** [model.generateContent([prompt, inlineData])] and [response.text()] *)
  generateContent : Buffer -> string -> Outcome string;
  (** [JSON.parse] *)
  JSON_parse : string -> Outcome ParsedData;
  (** [parseFloat] on a string; [None] is [NaN] *)
  parseFloat : string -> option Q;
  (** [String] on a number *)
  numberToString : Q -> string;
  (** [Tesseract.recognize(buffer, lang, options)]: text and confidence *)
  recognize : Buffer -> string -> Tesseract.RecognizeOptions -> Outcome (string * Q);
  (** [sharp(buffer). ... .toBuffer()] *)
  toBuffer : Buffer -> list Sharp.Op -> Outcome Buffer;
  (** [pdfParse(buffer)]: the text layer *)
  pdfParse : Buffer -> Outcome string;
  (** [extractHealthParameters] of [utils/parameterExtractor] *)
  extractHealthParameters : string -> Outcome (list HealthParameter)
}.

(** The calls that leave the process, in the order they are made. *)
Inductive Event : Type :=
| CallGemini (buffer : Buffer) (mimeType : string)
| CallRecognize (buffer : Buffer) (lang : string) (options : Tesseract.RecognizeOptions)
| CallSharp (buffer : Buffer) (ops : list Sharp.Op)
| CallPdfParse (buffer : Buffer)
| CallParser (text : string).

(* ------------------------------------------------------------------ *)
(** ** The monad of the services *)

Record World : Type := {
  ticks : nat;                 (* how many times the clock was read *)
  trace : list Event;          (* collaborator calls so far, oldest first *)
  log : ExtractionLog          (* the [extractionLog] object of the run *)
}.

Definition M (A : Type) : Type := World -> Outcome A * World.

Definition ret {A} (a : A) : M A := fun w => (Return a, w).

Definition throw {A} (message : string) : M A := fun w => (Throw message, w).

Definition bind {A B} (m : M A) (f : A -> M B) : M B :=
  fun w =>
    match m w with
    | (Return a, w') => f a w'
    | (Throw e, w') => (Throw e, w')
    end.

(** [try { m } catch (error) { h(error.message) }] *)
Definition tryCatch {A} (m : M A) (h : string -> M A) : M A :=
  fun w =>
    match m w with
    | (Return a, w') => (Return a, w')
    | (Throw e, w') => h e w'
    end.

Declare Scope js_scope.
Delimit Scope js_scope with js.
Notation "x <- m ;; k" := (bind m (fun x => k))
  (at level 61, m at next level, right associativity) : js_scope.
Notation "' p <- m ;; k" := (bind m (fun x => let p := x in k))
  (at level 61, p pattern, m at next level, right associativity) : js_scope.
Notation "m ;;; k" := (bind m (fun _ => k))
  (at level 61, right associativity) : js_scope.

Definition record (e : Event) (w : World) : World :=
  {| ticks := ticks w; trace := trace w ++ [e]; log := log w |}.

(** A collaborator call: the event is recorded, the environment answers. *)
Definition call {A} (e : Event) (answer : Outcome A) : M A :=
  fun w => (answer, record e w).

Definition getLog : M ExtractionLog := fun w => (Return (log w), w).

Definition modifyLog (f : ExtractionLog -> ExtractionLog) : M unit :=
  fun w => (Return tt, {| ticks := ticks w; trace := trace w; log := f (log w) |}).

(** [for (const x of xs) { acc = body(acc, x) }] *)
Fixpoint forOf {A S} (body : S -> A -> M S) (xs : list A) (acc : S) : M S :=
  match xs with
  | [] => ret acc
  | x :: xs' => bind (body acc x) (forOf body xs')
  end.

(** [await Promise.all(xs.map(f))], the promises settled in list order. *)
Fixpoint mapAll {A B} (f : A -> M B) (xs : list A) : M (list B) :=
  match xs with
  | [] => ret []
  | x :: xs' => bind (f x) (fun y => bind (mapAll f xs') (fun ys => ret (y :: ys)))
  end.

(* ------------------------------------------------------------------ *)
(** ** geminiService.js *)

Section Services.

Variable env : Env.

Local Open Scope js_scope.

(** [Date.now()] *)
Definition now : M Z :=
  fun w => (Return (clock env (ticks w)),
            {| ticks := S (ticks w); trace := trace w; log := log w |}).

(** A pure runtime call that may throw. *)
Definition lift {A} (o : Outcome A) : M A := fun w => (o, w).

Definition orEmpty {A} (o : option (list A)) : list A :=
  match o with
  | Some l => l
  | None => []
  end.

(** [s.replace(/fence\n?/g, '')] for a literal [fence]. *)
Fixpoint removeFence (fence : string) (s : string) (skip : nat) : string :=
  match s with
  | EmptyString => EmptyString
  | String c s' =>
      match skip with
      | S n => removeFence fence s' n
      | O =>
          if Text.startsWith s fence then
            match String.get (String.length fence) s with
            | Some "010"%char => removeFence fence s' (String.length fence)
            | _ => removeFence fence s' (String.length fence - 1)
            end
          else String c (removeFence fence s' 0)
      end
  end.

(** The removal of markdown code fences around the reply. *)
Definition stripFences (jsonText : string) : string :=
  if Text.startsWith jsonText "```json" then
    removeFence "```" (removeFence "```json" jsonText 0) 0
  else if Text.startsWith jsonText "```" then
    removeFence "```" jsonText 0
  else jsonText.

Definition sanitizeStatus (status : option string) : string :=
  if negb (Text.truthy status) then "Unknown"
  else
    let normalized := Text.trim (Text.toLowerCase (Text.orElse status "")) in
    if Text.includes normalized "normal" || String.eqb normalized "within range"
    then "Normal"
    else if Text.includes normalized "high" || Text.includes normalized "elevated"
    then "High"
    else if Text.includes normalized "low" || Text.includes normalized "decreased"
    then "Low"
    else if Text.includes normalized "abnormal" || Text.includes normalized "diagnosed"
    then "Abnormal"
    else if Text.includes normalized "present" then "Present"
    else if Text.includes normalized "absent" || Text.includes normalized "none"
    then "Absent"
    else "Unknown".

Definition sanitizeSeverity (severity : option string) : string :=
  if negb (Text.truthy severity) then "Unknown"
  else
    let normalized := Text.trim (Text.toLowerCase (Text.orElse severity "")) in
    if String.eqb normalized "mild" || String.eqb normalized "low" then "Mild"
    else if String.eqb normalized "moderate" then "Moderate"
    else if String.eqb normalized "severe" || String.eqb normalized "high"
            || String.eqb normalized "critical"
    then "Severe"
    else "Unknown".

Definition sanitizeRiskLevel (riskLevel : option string) : string :=
  if negb (Text.truthy riskLevel) then "Unknown"
  else
    let normalized := Text.trim (Text.toLowerCase (Text.orElse riskLevel "")) in
    if String.eqb normalized "low" then "Low"
    else if String.eqb normalized "moderate" || String.eqb normalized "medium"
    then "Moderate"
    else if String.eqb normalized "high" || String.eqb normalized "severe"
    then "High"
    else "Unknown".

(** [parseFloat(v)]; [None] is [NaN]. *)
Definition parseFloatValue (v : JsValue) : option Q :=
  match v with
  | JNumber q => Some q
  | JString s => parseFloat env s
  | JUndefined | JNull => None
  end.

(** [String(v)] *)
Definition stringOf (v : JsValue) : string :=
  match v with
  | JUndefined => "undefined"
  | JNull => "null"
  | JNumber q => numberToString env q
  | JString s => s
  end.

Definition isTextual (parameterType : option string) : bool :=
  match parameterType with
  | Some t => String.eqb t "categorical" || String.eqb t "text" || String.eqb t "boolean"
  | None => false
  end.

(** The body of [parsedData.parameters.map(p => ...)]. *)
Definition sanitizeParameter (p : RawParameter) : HealthParameter :=
  {| name := Text.orElse (rawName p) "Unknown";
     unit_ := Text.orElse (rawUnit p) "";
     normalRange := Text.orElse (rawNormalRange p) "N/A";
     category := Text.orElse (rawCategory p) "General";
     parameterType := Text.orElse (rawParameterType p) "numeric";
     value :=
       if isTextual (rawParameterType p) then 0%Q
       else match parseFloatValue (rawValue p) with
            | Some numValue => numValue
            | None => 0%Q
            end;
     textValue :=
       if isTextual (rawParameterType p) then
         Some (Text.orElse (rawTextValue p)
                 (Text.orElse (Some (stringOf (rawValue p))) "N/A"))
       else if Text.truthy (rawTextValue p) then rawTextValue p else None;
     status := sanitizeStatus (rawStatus p) |}.

Definition sanitizeOutlier (o : RawOutlier) : Outlier :=
  {| outlierParameter := Text.orElse (rawOutlierParameter o) "";
     outlierValue :=
       match parseFloatValue (rawOutlierValue o) with
       | Some q => q
       | None => 0%Q
       end;
     outlierRange := Text.orElse (rawOutlierRange o) "";
     severity := sanitizeSeverity (rawSeverity o);
     concern := Text.orElse (rawConcern o) "";
     recommendation := Some (Text.orElse (rawRecommendation o) "") |}.

Definition noInsights : RawInsights :=
  {| rawSummary := None; rawOutliers := None; rawRecommendations := None;
     rawRiskLevel := None; rawPositiveFindings := None;
     rawTrendsToMonitor := None; rawLifestyle := None |}.

Definition noLifestyle : Lifestyle :=
  {| diet := None; exercise := None; habits := None |}.

Definition sanitizeInsights (parsed : option RawInsights) : Insights :=
  let insights := match parsed with Some i => i | None => noInsights end in
  {| summary := Text.orElse (rawSummary insights) "";
     outliers := map sanitizeOutlier (orEmpty (rawOutliers insights));
     recommendations := orEmpty (rawRecommendations insights);
     riskLevel := sanitizeRiskLevel (rawRiskLevel insights);
     positiveFindings := orEmpty (rawPositiveFindings insights);
     trendsToMonitor := Some (orEmpty (rawTrendsToMonitor insights));
     lifestyle :=
       Some match rawLifestyle insights with Some l => l | None => noLifestyle end |}.

Definition noPatientInfo : PatientInfo :=
  {| patientName := None; age := None; gender := None; testDate := None;
     hospital := None |}.

(** The object returned from a [catch] of an extraction method. *)
Definition methodFailure (m message : string) (elapsed : Z) : MethodResult :=
  {| success := false; method := m; extractedText := None; patientInfo := None;
     healthParameters := None; aiInsights := None; isScannedDocument := None;
     requiresManualEntry := None; metadata := None; error := Some message;
     processingTime := Some elapsed |}.

Definition extractWithGemini (fileBuffer : Buffer) (mimeType : string)
  : M MethodResult :=
  startTime <- now ;;
  tryCatch
    (text <- call (CallGemini fileBuffer mimeType)
                  (generateContent env fileBuffer mimeType) ;;
     let jsonText := stripFences (Text.trim text) in
     parsedData <- lift (JSON_parse env jsonText) ;;
     match parameters parsedData with
     | None => throw "Invalid response structure from Gemini"
     | Some rawParameters =>
         t <- now ;;
         let processingTime := (t - startTime)%Z in
         let healthParameters := map sanitizeParameter rawParameters in
         let aiInsights := sanitizeInsights (insights parsedData) in
         ret {| success := true;
                method := "gemini";
                extractedText := Some (Text.orElse (parsedText parsedData) "");
                patientInfo :=
                  Some match parsedPatientInfo parsedData with
                       | Some i => i
                       | None => noPatientInfo
                       end;
                healthParameters := Some healthParameters;
                aiInsights := Some (Some aiInsights);
                isScannedDocument := None;
                requiresManualEntry := None;
                metadata :=
                  Some {| model := Some "gemini-2.5-flash";
                          metaProcessingTime := processingTime;
                          metaConfidence :=
                            Some match parsedConfidence parsedData with
                                 | Some q => if Qeq_bool q 0 then (8 # 10)%Q else q
                                 | None => (8 # 10)%Q
                                 end;
                          textLength := None;
                          parameterCount := List.length healthParameters |};
                error := None;
                processingTime := None |}
     end)
    (fun message =>
       t <- now ;;
       ret (methodFailure "gemini" message (t - startTime)%Z)).

(* ------------------------------------------------------------------ *)
(** ** ocrService.js *)

Definition sharp (buffer : Buffer) (ops : list Sharp.Op) : M Buffer :=
  call (CallSharp buffer ops) (toBuffer env buffer ops).

Definition Tesseract_recognize (buffer : Buffer) (lang : string)
           (options : Tesseract.RecognizeOptions) : M (string * Q) :=
  call (CallRecognize buffer lang options) (recognize env buffer lang options).

(** The options of the first pass of [deskewImage]. *)
Definition firstPassOptions : Tesseract.RecognizeOptions :=
  {| Tesseract.tessedit_pageseg_mode := Some Tesseract.AUTO_ONLY;
     Tesseract.tessedit_ocr_engine_mode := Some Tesseract.DEFAULT;
     Tesseract.preserve_interword_spaces := None;
     Tesseract.tessedit_char_whitelist := None |}.

(** The options of the rotation probes and of the quick scan. *)
Definition scanOptions : Tesseract.RecognizeOptions :=
  {| Tesseract.tessedit_pageseg_mode := Some Tesseract.AUTO_ONLY;
     Tesseract.tessedit_ocr_engine_mode := None;
     Tesseract.preserve_interword_spaces := None;
     Tesseract.tessedit_char_whitelist := None |}.

(** The options of the preprocessing variants. *)
Definition variantOptions : Tesseract.RecognizeOptions :=
  {| Tesseract.tessedit_pageseg_mode := Some Tesseract.AUTO;
     Tesseract.tessedit_ocr_engine_mode := Some Tesseract.LSTM_ONLY;
     Tesseract.preserve_interword_spaces := Some "1";
     Tesseract.tessedit_char_whitelist :=
       Some "0123456789ABCDEFGHIJKLMNOPQRSTUVWXYZabcdefghijklmnopqrstuvwxyz.,()-/:% <>=±μ" |}.

Definition rotations : list Z := [90; 180; 270]%Z.

(** The body of the loop over [rotations]; the accumulator is
    [(bestRotation, bestLength)]. *)
Definition tryRotation (buffer : Buffer) (best : Z * nat) (angle : Z)
  : M (Z * nat) :=
  rotatedBuffer <- sharp buffer [Sharp.rotate angle] ;;
  recognized <- Tesseract_recognize rotatedBuffer "eng" scanOptions ;;
  let rotatedText := fst recognized in
  if snd best <? String.length rotatedText
  then ret (angle, String.length rotatedText)
  else ret best.

(** What the [try] block of [deskewImage] decides: the rotation to apply,
    if any.  A failure anywhere in the detection keeps the buffer. *)
Definition detectRotation (buffer : Buffer) : M (option Z) :=
  tryCatch
    (recognized <- Tesseract_recognize buffer "eng" firstPassOptions ;;
     let text := fst recognized in
     if String.length text <? 50 then
       best <- forOf (tryRotation buffer) rotations (0%Z, String.length text) ;;
       let bestRotation := fst best in
       if (0 <? bestRotation)%Z then ret (Some bestRotation) else ret None
     else ret None)
    (fun _ => ret None).

(** Auto-rotate detection.  The final rotation is returned as a promise that
    is not awaited inside the [try], so its rejection is not handled by the
    [catch] of [deskewImage]. *)
Definition deskewImage (buffer : Buffer) : M Buffer :=
  decision <- detectRotation buffer ;;
  match decision with
  | Some bestRotation => sharp buffer [Sharp.rotate bestRotation]
  | None => ret buffer
  end.

Record PreprocessingMethod : Type := {
  methodName : string;
  process : list Sharp.Op
}.

Definition highQualityMedical : PreprocessingMethod :=
  {| methodName := "High-Quality Medical";
     process :=
       [Sharp.resize 3000 3000 "inside" (Some false); Sharp.grayscale;
        Sharp.normalize; Sharp.linear (14 # 10) (-40); Sharp.sharpen (15 # 10);
        Sharp.threshold 120; Sharp.png 6] |}.

Definition adaptiveCLAHE : PreprocessingMethod :=
  {| methodName := "Adaptive CLAHE";
     process :=
       [Sharp.resize 3000 3000 "inside" None; Sharp.grayscale;
        Sharp.clahe 64 64 3; Sharp.gamma (13 # 10); Sharp.sharpen 1;
        Sharp.png 6] |}.

Definition PREPROCESSING_METHODS : list PreprocessingMethod :=
  [highQualityMedical; adaptiveCLAHE].

(** The transform of the quick scan. *)
Definition quickScan : list Sharp.Op :=
  [Sharp.resize 1500 1500 "inside" None; Sharp.grayscale; Sharp.normalize].

(** What one preprocessing variant yields. *)
Record Candidate : Type := {
  text : string;
  score : Quality.Score;
  candidateMethod : string
}.

(** The body of [PREPROCESSING_METHODS.slice(0, 2).map(async (method) => ...)]. *)
Definition runMethod (deskewedBuffer : Buffer) (m : PreprocessingMethod)
  : M Candidate :=
  tryCatch
    (processedBuffer <- sharp deskewedBuffer (process m) ;;
     recognized <- Tesseract_recognize processedBuffer "eng" variantOptions ;;
     let score := Quality.calculateQualityScore (fst recognized) (snd recognized) in
     ret {| text := fst recognized; score := score; candidateMethod := methodName m |})
    (fun _ =>
       ret {| text := "";
              score := {| Quality.total := 0%Q; Quality.breakdown := None;
                          Quality.metrics := None |};
              candidateMethod := methodName m |}).

(** The callback of [results.reduce]. *)
Definition better (best current : Candidate) : Candidate :=
  if Quality.gtb (Quality.total (score current)) (Quality.total (score best))
  then current else best.

(** [results.reduce(better)], without an initial value. *)
Definition reduceBest (results : list Candidate) : M Candidate :=
  match results with
  | [] => throw "Reduce of empty array with no initial value"
  | first :: rest => ret (fold_left better rest first)
  end.

(** [quickScore.total > 150 && quickScore.metrics.medicalTermCount > 3] *)
Definition quickScanAccepted (quickScore : Quality.Score) : bool :=
  Quality.gtb (Quality.total quickScore) 150%Q &&
  match Quality.metrics quickScore with
  | Some m => 3 <? Quality.medicalTermCount m
  | None => false
  end.

(** Main OCR extraction function.  The variants are awaited together; they
    share no state, and the model settles them in list order. *)
Definition extractTextFromImageBuffer (buffer : Buffer) : M string :=
  startTime <- now ;;
  tryCatch
    (deskewedBuffer <- deskewImage buffer ;;
     quickBuffer <- sharp deskewedBuffer quickScan ;;
     quick <- Tesseract_recognize quickBuffer "eng" scanOptions ;;
     let quickText := fst quick in
     let quickScore := Quality.calculateQualityScore quickText (snd quick) in
     if quickScanAccepted quickScore then
       now ;;; ret quickText
     else
       results <- mapAll (runMethod deskewedBuffer)
                         (firstn 2 PREPROCESSING_METHODS) ;;
       bestResult <- reduceBest results ;;
       now ;;;
       ret (if 10 <? String.length (text bestResult)
            then text bestResult else " "))
    (fun _ => ret " ").

(** PDF text extraction with OCR fallback. *)
Definition extractTextFromPDFBuffer (buffer : Buffer) : M string :=
  tryCatch
    (dataText <- call (CallPdfParse buffer) (pdfParse env buffer) ;;
     if 100 <? String.length (Text.trim dataText) then ret dataText
     else extractTextFromImageBuffer buffer)
    (fun _ => ret " ").

(** Main OCR extraction with parameter extraction. *)
Definition extractWithOCR (fileBuffer : Buffer) (mimeType : string)
  : M MethodResult :=
  startTime <- now ;;
  tryCatch
    (recognizedText <-
       (if String.eqb mimeType "application/pdf"
        then extractTextFromPDFBuffer fileBuffer
        else extractTextFromImageBuffer fileBuffer) ;;
     let trimmed := String.length (Text.trim recognizedText) in
     let hasMinimalText := (0 <? trimmed) && (trimmed <? 50) in
     let hasNoText := trimmed =? 0 in
     let isScannedDocument := hasMinimalText || hasNoText in
     let extractedText := if hasNoText then " " else recognizedText in
     healthParameters <-
       (if 50 <? String.length extractedText
        then call (CallParser extractedText)
                  (extractHealthParameters env extractedText)
        else ret []) ;;
     t <- now ;;
     let processingTime := (t - startTime)%Z in
     ret {| success := (0 <? List.length healthParameters) || isScannedDocument;
            method := "ocr";
            extractedText := Some extractedText;
            patientInfo := None;
            healthParameters := Some healthParameters;
            aiInsights := None;
            isScannedDocument := Some isScannedDocument;
            requiresManualEntry := Some (List.length healthParameters =? 0);
            metadata :=
              Some {| model := None;
                      metaProcessingTime := processingTime;
                      metaConfidence := None;
                      textLength := Some (String.length extractedText);
                      parameterCount := List.length healthParameters |};
            error := None;
            processingTime := None |})
    (fun message =>
       t <- now ;;
       ret (methodFailure "ocr" message (t - startTime)%Z)).

(* ------------------------------------------------------------------ *)
(** ** extractionService.js *)

(** A number in a template literal. *)
Definition decimal (n : nat) : string := NilZero.string_of_uint (Nat.to_uint n).

Definition isOutlier (p : HealthParameter) : bool :=
  String.eqb (status p) "High" || String.eqb (status p) "Low".

(** Basic insights when OCR is used (no AI). *)
Definition generateBasicInsights (healthParameters : list HealthParameter)
  : Insights :=
  let found := filter isOutlier healthParameters in
  let recommendations :=
    if 0 <? List.length found then
      ["Some parameters are outside normal range - consult your healthcare provider"]
    else if 0 <? List.length healthParameters then
      ["All measured parameters appear to be within normal ranges"]
    else [] in
  {| summary :=
       if 0 <? List.length found
       then (decimal (List.length found)
               ++ " parameter(s) outside normal range detected")%string
       else "All parameters within normal ranges";
     outliers :=
       map (fun p =>
              {| outlierParameter := name p;
                 outlierValue := value p;
                 outlierRange := normalRange p;
                 severity := "Unknown";
                 concern := (name p ++ " is " ++ Text.toLowerCase (status p))%string;
                 recommendation := None |})
           found;
     recommendations := recommendations;
     riskLevel :=
       if 2 <? List.length found then "Moderate"
       else if 0 <? List.length found then "Low" else "Low";
     positiveFindings :=
       map (fun p => (name p ++ " is within normal range")%string)
           (filter (fun p => String.eqb (status p) "Normal") healthParameters);
     trendsToMonitor := None;
     lifestyle := None |}.

Definition emptyLog : ExtractionLog :=
  {| attempts := []; finalMethod := None; totalTime := 0; logError := None |}.

(** [extractionLog.attempts.push(a)] *)
Definition pushAttempt (a : Attempt) : M unit :=
  modifyLog (fun l =>
    {| attempts := attempts l ++ [a]; finalMethod := finalMethod l;
       totalTime := totalTime l; logError := logError l |}).

(** [extractionLog.finalMethod = m] *)
Definition setFinalMethod (m : string) : M unit :=
  modifyLog (fun l =>
    {| attempts := attempts l; finalMethod := Some m;
       totalTime := totalTime l; logError := logError l |}).

(** [extractionLog.totalTime = Date.now() - startTime] *)
Definition setTotalTime (startTime : Z) : M unit :=
  t <- now ;;
  modifyLog (fun l =>
    {| attempts := attempts l; finalMethod := finalMethod l;
       totalTime := (t - startTime)%Z; logError := logError l |}).

(** [extractionLog.error = message] *)
Definition setLogError (message : string) : M unit :=
  modifyLog (fun l =>
    {| attempts := attempts l; finalMethod := finalMethod l;
       totalTime := totalTime l; logError := Some message |}).

(** [return { ...r, extractionLog }] *)
Definition withLog (r : MethodResult) : M ExtractionResult :=
  l <- getLog ;;
  ret {| result := r; extractionLog := l |}.

(** [{ ...r, aiInsights: i }] *)
Definition withInsights (r : MethodResult) (i : option Insights) : MethodResult :=
  {| success := success r; method := method r; extractedText := extractedText r;
     patientInfo := patientInfo r; healthParameters := healthParameters r;
     aiInsights := Some i; isScannedDocument := isScannedDocument r;
     requiresManualEntry := requiresManualEntry r; metadata := metadata r;
     error := error r; processingTime := processingTime r |}.

(** The failure result that allows manual entry. *)
Definition failureResult (message : string) : MethodResult :=
  {| success := false; method := "failed"; extractedText := Some " ";
     patientInfo := None; healthParameters := Some [];
     aiInsights := None; isScannedDocument := Some true;
     requiresManualEntry := Some true; metadata := None;
     error := Some message; processingTime := None |}.

(** [forceMethod === m] *)
Definition forced (options : Options) (m : string) : bool :=
  match forceMethod options with
  | Some f => String.eqb f m
  | None => false
  end.

(** [x.length] of a property that may be missing. *)
Definition lengthOf {A} (o : option (list A)) : M nat :=
  match o with
  | Some l => ret (List.length l)
  | None => throw "Cannot read properties of undefined (reading 'length')"
  end.

(** The primary attempt of the auto mode: [Some r] when the function returns
    from inside the [if], [None] when control falls through to the OCR
    fallback. *)
Definition attemptGemini (fileBuffer : Buffer) (mimeType : string)
           (startTime : Z) : M (option ExtractionResult) :=
  geminiResult <- extractWithGemini fileBuffer mimeType ;;
  pushAttempt {| attemptMethod := "gemini";
                 attemptSuccess := success geminiResult;
                 attemptProcessingTime :=
                   option_map metaProcessingTime (metadata geminiResult) |} ;;;
  found <- (if success geminiResult
            then lengthOf (healthParameters geminiResult)
            else ret 0) ;;
  if success geminiResult && (0 <? found) then
    setFinalMethod "gemini" ;;;
    setTotalTime startTime ;;;
    r <- withLog geminiResult ;;
    ret (Some r)
  else ret None.

(** The OCR fallback of the auto mode. *)
Definition fallbackToOCR (fileBuffer : Buffer) (mimeType : string)
           (includeInsights : bool) (startTime : Z) : M ExtractionResult :=
  ocrResult <- extractWithOCR fileBuffer mimeType ;;
  pushAttempt {| attemptMethod := "ocr";
                 attemptSuccess := success ocrResult;
                 attemptProcessingTime :=
                   option_map metaProcessingTime (metadata ocrResult) |} ;;;
  if negb (success ocrResult) then
    throw "Both Gemini and OCR extraction failed"
  else
    setFinalMethod "ocr" ;;;
    setTotalTime startTime ;;;
    basic <- (if includeInsights then
                match healthParameters ocrResult with
                | Some ps => ret (Some (generateBasicInsights ps))
                | None =>
                    throw "Cannot read properties of undefined (reading 'filter')"
                end
              else ret None) ;;
    withLog (withInsights ocrResult basic).

(** Extract health data from an uploaded file: the main entry point. *)
Definition extractHealthData (fileBuffer : Buffer) (mimeType : string)
           (options : Options) : M ExtractionResult :=
  let preferGemini :=
    match preferGemini options with Some b => b | None => true end in
  let includeInsights :=
    match includeInsights options with Some b => b | None => true end in
  modifyLog (fun _ => emptyLog) ;;;
  startTime <- now ;;
  tryCatch
    (if forced options "ocr" then
       r <- extractWithOCR fileBuffer mimeType ;;
       pushAttempt {| attemptMethod := "ocr"; attemptSuccess := success r;
                      attemptProcessingTime := None |} ;;;
       setFinalMethod "ocr" ;;;
       setTotalTime startTime ;;;
       withLog r
     else if forced options "gemini" then
       r <- extractWithGemini fileBuffer mimeType ;;
       pushAttempt {| attemptMethod := "gemini"; attemptSuccess := success r;
                      attemptProcessingTime := None |} ;;;
       if negb (success r) then
         throw "Gemini extraction failed (forced mode)"
       else
         setFinalMethod "gemini" ;;;
         setTotalTime startTime ;;;
         withLog r
     else
       early <- (if preferGemini && Text.truthy (GEMINI_API_KEY env)
                 then attemptGemini fileBuffer mimeType startTime
                 else ret None) ;;
       match early with
       | Some r => ret r
       | None => fallbackToOCR fileBuffer mimeType includeInsights startTime
       end)
    (fun message =>
       setTotalTime startTime ;;;
       setLogError message ;;;
       withLog (failureResult message)).

Record Validation : Type := {
  isValid : bool;
  issues : list string
}.

(** The checks of [healthParameters.forEach((param, index) => ...)].  A
    [value] of the model is a number, so the check for a missing or
    not-a-number value never fires. *)
Fixpoint parameterIssues (index : nat) (ps : list HealthParameter)
  : list string :=
  match ps with
  | [] => []
  | param :: rest =>
      (if String.eqb (name param) "" || String.eqb (Text.trim (name param)) ""
       then [("Parameter " ++ decimal index ++ ": Missing name")%string]
       else [])
      ++ parameterIssues (S index) rest
  end.

(** Validate extraction results before saving to the database. *)
Definition validateExtractionResults (results : ExtractionResult) : Validation :=
  let found :=
    (if negb (success (result results)) then ["Extraction not successful"]
     else [])
    ++ (if match healthParameters (result results) with
           | Some (_ :: _) => false
           | _ => true
           end
        then
          match requiresManualEntry (result results) with
          | Some true => []
          | _ => ["No parameters extracted but manual entry not flagged"]
          end
        else [])
    ++ parameterIssues 0 (orEmpty (healthParameters (result results))) in
  {| isValid := List.length found =? 0; issues := found |}.

End Services.

(* ------------------------------------------------------------------ *)
(** ** extractionService.js: statistics for monitoring *)

Module Stats.

Record t : Type := {
  method : string;
  success : bool;
  parameterCount : nat;
  processingTime : Z;
  hasInsights : bool;
  requiresManualEntry : option bool;
  attemptedMethods : list string
}.

End Stats.

(** [a || b] on numbers: zero is falsy. *)
Definition orElseZ (a : option Z) (b : Z) : Z :=
  match a with
  | Some t => if (t =? 0)%Z then b else t
  | None => b
  end.

(** Get extraction statistics for monitoring.  The argument is a result of
    the orchestrator, so [extractionLog] and its [attempts] are there. *)
Definition getExtractionStats (results : ExtractionResult) : Stats.t :=
  {| Stats.method := method (result results);
     Stats.success := success (result results);
     Stats.parameterCount :=
       List.length (orEmpty (healthParameters (result results)));
     Stats.processingTime :=
       orElseZ (option_map metaProcessingTime (metadata (result results)))
               (totalTime (extractionLog results));
     Stats.hasInsights :=
       match aiInsights (result results) with
       | Some (Some _) => true
       | _ => false
       end;
     Stats.requiresManualEntry := requiresManualEntry (result results);
     Stats.attemptedMethods :=
       map attemptMethod (attempts (extractionLog results)) |}.

(* ------------------------------------------------------------------ *)
(** ** models/Report.js *)

(** The [enum] lists of the schemas. *)
Module Schema.

Definition status : list string :=
  ["Normal"; "High"; "Low"; "Abnormal"; "Unknown"; "Present"; "Absent"; "N/A"].

Definition parameterType : list string :=
  ["numeric"; "categorical"; "boolean"; "text"].

Definition severity : list string :=
  ["Mild"; "Moderate"; "Severe"; "Unknown"; "Low"; "High"].

Definition riskLevel : list string := ["Low"; "Moderate"; "High"; "Unknown"].

Definition extractionMethod : list string := ["gemini"; "ocr"; "manual"; "failed"].

Definition processingStatus : list string :=
  ["processing"; "completed"; "failed"; "manual_entry_needed";
   "manual_entry_completed"].

(** The [enum] validator on a string. *)
Definition allows (enum : list string) (v : string) : bool :=
  existsb (String.eqb v) enum.

End Schema.

Module Report.

(** An entry of [aiInsights.outliers] of a stored report; [value] is
    [Mixed]. *)
Record Outlier : Type := {
  parameter : string;
  value : JsValue;
  normalRange : string;
  severity : string;
  concern : string;
  recommendation : string
}.

Record Insights : Type := {
  summary : string;
  outliers : list Outlier;
  recommendations : list string;
  riskLevel : string;
  positiveFindings : list string;
  trendsToMonitor : list string;
  lifestyle : Lifestyle;
  generatedAt : option Z
}.

(** A report document.  [previousReportCount] is read by [reanalyzeReport]
    and is no path of the schema. *)
Record t : Type := {
  _id : string;
  userId : string;
  filename : string;
  extractedText : string;
  healthParameters : list HealthParameter;
  fileSize : nat;
  fileType : string;
  extractionMethod : string;
  aiInsights : option Insights;
  patientInfo : option PatientInfo;
  geminiMetadata : option Metadata;
  extractionLog : option ExtractionLog;
  isScannedDocument : bool;
  requiresManualEntry : bool;
  processingStatus : string;
  insightsRegeneratedAt : option Z;
  createdAt : Z;
  previousReportCount : option nat
}.

(** *** Virtuals *)

Definition parameterCount (this : t) : nat := List.length (healthParameters this).

Definition abnormalCount (this : t) : nat :=
  List.length
    (filter (fun p => existsb (String.eqb (status p)) ["High"; "Low"; "Abnormal"])
            (healthParameters this)).

Definition hasAiInsights (this : t) : bool :=
  match aiInsights this with
  | Some i => negb (String.eqb (summary i) "")
  | None => false
  end.

Definition outlierCount (this : t) : nat :=
  match aiInsights this with
  | Some i => List.length (outliers i)
  | None => 0
  end.

(** *** Methods *)

(** Whether the insights are missing or older than 30 days; [now] is the
    value of [Date.now()], and a date is its time value in milliseconds. *)
Definition needsInsightsUpdate (this : t) (now : Z) : bool :=
  match aiInsights this with
  | None => true
  | Some i =>
      match generatedAt i with
      | None => true
      | Some generated =>
          Quality.gtb (inject_Z (now - generated) / inject_Z (1000 * 60 * 60 * 24))%Q
                      30%Q
      end
  end.

Record ExtractionQuality : Type := {
  method : string;
  hasParameters : bool;
  hasInsights : bool;
  parametersComplete : bool;
  processingTime : option Z;
  score : nat;
  grade : string
}.

(** [a || b] on numbers that may be missing. *)
Definition orTime (a b : option Z) : option Z :=
  match a with
  | Some t => if (t =? 0)%Z then b else Some t
  | None => b
  end.

(** A [value] of the model is a number, so only the name decides whether a
    parameter is complete. *)
Definition getExtractionQuality (this : t) : ExtractionQuality :=
  let method := extractionMethod this in
  let hasParameters := 0 <? List.length (healthParameters this) in
  let hasInsights := hasAiInsights this in
  let parametersComplete :=
    forallb (fun p => negb (String.eqb (name p) "")) (healthParameters this) in
  let score :=
    (if String.eqb method "gemini" then 40
     else if String.eqb method "ocr" then 20 else 0)
    + (if hasParameters then 30 else 0)
    + (if hasInsights then 20 else 0)
    + (if parametersComplete then 10 else 0) in
  {| method := method;
     hasParameters := hasParameters;
     hasInsights := hasInsights;
     parametersComplete := parametersComplete;
     processingTime :=
       orTime (option_map totalTime (extractionLog this))
              (option_map metaProcessingTime (geminiMetadata this));
     score := score;
     grade :=
       if 80 <=? score then "Excellent"
       else if 60 <=? score then "Good"
       else if 40 <=? score then "Fair" else "Poor" |}.

(** *** Statics *)

Record MethodBreakdown : Type := {
  gemini : nat;
  ocr : nat;
  manual : nat
}.

Record Analytics : Type := {
  totalReports : nat;
  methodBreakdown : MethodBreakdown;
  withInsights : nat;
  averageParameters : Q;
  highRiskReports : nat
}.

Definition count (test : t -> bool) (reports : list t) : nat :=
  List.length (filter test reports).

Definition usedMethod (m : string) (r : t) : bool :=
  String.eqb (extractionMethod r) m.

Definition isHighRisk (r : t) : bool :=
  match aiInsights r with
  | Some i => String.eqb (riskLevel i) "High"
  | None => false
  end.

(** The body of [getAnalytics], on the reports found for the user.  The
    quotient of [0 / 0] is not a number, which [|| 0] turns into 0. *)
Definition analyticsOf (reports : list t) : Analytics :=
  {| totalReports := List.length reports;
     methodBreakdown :=
       {| gemini := count (usedMethod "gemini") reports;
          ocr := count (usedMethod "ocr") reports;
          manual := count (usedMethod "manual") reports |};
     withInsights :=
       count (fun r => match aiInsights r with Some _ => true | None => false end)
             reports;
     averageParameters :=
       match reports with
       | [] => 0%Q
       | _ =>
           let sum :=
             fold_left (fun sum r => sum + List.length (healthParameters r))
                       reports 0 in
           (Quality.ofNat sum / Quality.ofNat (List.length reports))%Q
       end;
     highRiskReports := count isHighRisk reports |}.

End Report.

(* ------------------------------------------------------------------ *)
(** ** The web layer: requests, responses and their collaborators *)

Module Upload.

(** [req.file], as multer leaves it. *)
Record File : Type := {
  originalname : string;
  mimetype : string;
  size : nat;
  buffer : Buffer
}.

(** What the upload route reads of a request: [req.file], [req.user.id],
    [req.query.method], [req.query.preferGemini], [req.query.insights] and
    [req.body.method]. *)
Record Request : Type := {
  file : option File;
  user_id : string;
  query_method : option string;
  query_preferGemini : option string;
  query_insights : option string;
  body_method : option string
}.

(** The [extractionLog] handed to the model. *)
Record Log : Type := {
  attempts : option (list Attempt);
  finalMethod : option string;
  totalTime : Z;
  error : option string
}.

(** The object handed to [new Report]. *)
Record ReportData : Type := {
  userId : string;
  filename : string;
  fileType : string;
  fileSize : nat;
  extractedText : string;
  healthParameters : list HealthParameter;
  extractionMethod : string;
  isScannedDocument : bool;
  requiresManualEntry : bool;
  processingStatus : string;
  extractionLog : Log;
  createdAt : Z;
  aiInsights : option Insights;
  patientInfo : option PatientInfo;
  geminiMetadata : option Metadata
}.

End Upload.

(** The body of a response of the upload route to a processed file. *)
Module Uploaded.

Record Digest : Type := {
  summary : string;
  riskLevel : string;
  outlierCount : nat;
  recommendationCount : nat
}.

Record t : Type := {
  success : bool;
  reportId : string;
  filename : string;
  extractionMethod : option string;
  healthParameters : option (list HealthParameter);
  extractedParameterCount : nat;
  processingTime : option Z;
  aiInsights : option Digest;
  requiresManualEntry : option bool;
  isScannedDocument : option bool;
  message : string;
  extractionLog : option ExtractionLog;
  error : option string
}.

End Uploaded.

(** What [reanalyzeReport] returns. *)
Module Reanalysis.

Record t : Type := {
  success : bool;
  insights : option Report.Insights;
  analyzedAt : option Z;
  error : option string
}.

End Reanalysis.

(** The reply to the trend prompt once parsed: it is handed on unread. *)
Definition Json : Type := string.

(** What [generateTrendAnalysis] returns. *)
Module Trend.

Record t : Type := {
  success : bool;
  analysis : option Json;
  reportCount : option nat;
  dateRange : option (Z * Z);          (* [from], [to] *)
  error : option string
}.

End Trend.

(** [res.status(code).json(body)]; [res.json(body)] has the status 200. *)
Module Http.

Record Response (Body : Type) : Type := {
  status : nat;
  body : Body
}.

Arguments status {Body} r.
Arguments body {Body} r.

End Http.

Inductive UploadBody : Type :=
| UploadError (error : string) (details : option string)
| UploadDone (response : Uploaded.t).

Inductive RegenerateBody : Type :=
| RegenerateError (error : string) (suggestion details : option string)
| Regenerated (reportId : string) (insights : option Report.Insights)
              (regeneratedAt : Z).

Inductive TrendsBody : Type :=
| TrendsError (error : string) (reportCount : option nat) (details : option string)
| Trends (reportCount : nat) (dateRange : option (Z * Z)) (analysis : option Json).

(** The collaborators of the web layer.  A prompt is a fixed text around
    the data of the reports, so a call of the model is told by that data. *)
Record Backend : Type := {
  (** [process.env.NODE_ENV] *)
  NODE_ENV : option string;
  (** [new Report(data).save()]: the [_id] of the saved document *)
  create : Upload.ReportData -> Outcome string;
  (** [Report.findOne({ _id, userId })] *)
  findOne : string -> string -> Outcome (option Report.t);
  (** [report.save()] on a document that was found *)
  save : Report.t -> Outcome unit;
  (** [Report.find(...).sort({ createdAt: 1 }).lean()], for the given ids
      or for all reports of the user *)
  find : option (list string) -> string -> Outcome (list Report.t);
  (** the reply to the re-analysis prompt, which quotes the parameters, the
      number of previous reports and the test date *)
  askInsights : list HealthParameter -> nat -> Z -> Outcome string;
  (** the reply to the trend prompt, which quotes date and parameters of
      every report *)
  askTrends : list (Z * list HealthParameter) -> Outcome string;
  (** [JSON.parse] on the reply to the re-analysis prompt *)
  parseInsights : string -> Outcome RawInsights;
  (** [JSON.parse] on the reply to the trend prompt *)
  parseAnalysis : string -> Outcome Json
}.

(** The monad of the web layer: the world of the services and the calls to
    the database and to the model, oldest first. *)
Module Web.

Inductive Call : Type :=
| Create (data : Upload.ReportData)
| FindOne (reportId userId : string)
| Save (document : Report.t)
| Find (reportIds : option (list string)) (userId : string)
| AskInsights (healthParameters : list HealthParameter)
              (previousReportCount : nat) (createdAt : Z)
| AskTrends (reportData : list (Z * list HealthParameter)).

Record Site : Type := {
  world : World;
  calls : list Call
}.

Definition R (A : Type) : Type := Site -> Outcome A * Site.

Definition ret {A} (a : A) : R A := fun s => (Return a, s).

Definition throw {A} (message : string) : R A := fun s => (Throw message, s).

Definition bind {A B} (m : R A) (f : A -> R B) : R B :=
  fun s =>
    match m s with
    | (Return a, s') => f a s'
    | (Throw e, s') => (Throw e, s')
    end.

Definition tryCatch {A} (m : R A) (h : string -> R A) : R A :=
  fun s =>
    match m s with
    | (Return a, s') => (Return a, s')
    | (Throw e, s') => h e s'
    end.

(** A call of a collaborator of the web layer. *)
Definition call {A} (c : Call) (answer : Outcome A) : R A :=
  fun s => (answer, {| world := world s; calls := calls s ++ [c] |}).

(** A computation of the services, run in the world of the site. *)
Definition run {A} (m : M A) : R A :=
  fun s =>
    let (o, w') := m (world s) in
    (o, {| world := w'; calls := calls s |}).

(** A pure runtime call that may throw. *)
Definition lift {A} (o : Outcome A) : R A := fun s => (o, s).

End Web.

Declare Scope web_scope.
Delimit Scope web_scope with web.
Notation "x <- m ;; k" := (Web.bind m (fun x => k))
  (at level 61, m at next level, right associativity) : web_scope.
Notation "m ;;; k" := (Web.bind m (fun _ => k))
  (at level 61, right associativity) : web_scope.

Section WebLayer.

Variable env : Env.
Variable backend : Backend.

Local Open Scope web_scope.

(** [new Date()]: the clock is read, as by [Date.now()]; a date is its time
    value. *)
Definition newDate : Web.R Z := Web.run (now env).

(* ------------------------------------------------------------------ *)
(** ** geminiService.js: re-analysis and trends *)

(** [v || 0] on a value of any type. *)
Definition orZero (v : JsValue) : JsValue :=
  match v with
  | JUndefined | JNull => JNumber 0%Q
  | JNumber q => if Qeq_bool q 0 then JNumber 0%Q else JNumber q
  | JString EmptyString => JNumber 0%Q
  | JString s => JString s
  end.

(** The body of [(insights.outliers || []).map(o => ...)] of
    [reanalyzeReport]: the value is kept as it is, not parsed. *)
Definition resanitizeOutlier (o : RawOutlier) : Report.Outlier :=
  {| Report.parameter := Text.orElse (rawOutlierParameter o) "";
     Report.value := orZero (rawOutlierValue o);
     Report.normalRange := Text.orElse (rawOutlierRange o) "";
     Report.severity := sanitizeSeverity (rawSeverity o);
     Report.concern := Text.orElse (rawConcern o) "";
     Report.recommendation := Text.orElse (rawRecommendation o) "" |}.

Definition resanitizeInsights (insights : RawInsights) : Report.Insights :=
  {| Report.summary := Text.orElse (rawSummary insights) "";
     Report.outliers := map resanitizeOutlier (orEmpty (rawOutliers insights));
     Report.recommendations := orEmpty (rawRecommendations insights);
     Report.riskLevel := sanitizeRiskLevel (rawRiskLevel insights);
     Report.positiveFindings := orEmpty (rawPositiveFindings insights);
     Report.trendsToMonitor := orEmpty (rawTrendsToMonitor insights);
     Report.lifestyle :=
       match rawLifestyle insights with Some l => l | None => noLifestyle end;
     Report.generatedAt := None |}.

(** Re-analyze an existing report to generate new insights. *)
Definition reanalyzeReport (report : Report.t) : Web.R Reanalysis.t :=
  Web.tryCatch
    (let previous :=
       match Report.previousReportCount report with
       | Some n => n
       | None => 0
       end in
     reply <- Web.call (Web.AskInsights (Report.healthParameters report) previous
                                        (Report.createdAt report))
                       (askInsights backend (Report.healthParameters report)
                                    previous (Report.createdAt report)) ;;
     let text := stripFences (Text.trim reply) in
     insights <- Web.lift (parseInsights backend text) ;;
     let sanitizedInsights := resanitizeInsights insights in
     analyzedAt <- newDate ;;
     Web.ret {| Reanalysis.success := true;
                Reanalysis.insights := Some sanitizedInsights;
                Reanalysis.analyzedAt := Some analyzedAt;
                Reanalysis.error := None |})
    (fun message =>
       Web.ret {| Reanalysis.success := false;
                  Reanalysis.insights := None;
                  Reanalysis.analyzedAt := None;
                  Reanalysis.error := Some message |}).

Definition trendFailure (message : string) : Trend.t :=
  {| Trend.success := false; Trend.analysis := None; Trend.reportCount := None;
     Trend.dateRange := None; Trend.error := Some message |}.

(** [reports[i].createdAt] *)
Definition createdAtIndex (reports : list Report.t) (i : nat) : Web.R Z :=
  match nth_error reports i with
  | Some r => Web.ret (Report.createdAt r)
  | None => Web.throw "Cannot read properties of undefined (reading 'createdAt')"
  end.

(** Generate comparative analysis between multiple reports. *)
Definition generateTrendAnalysis (reports : list Report.t) : Web.R Trend.t :=
  Web.tryCatch
    (if List.length reports <? 2 then
       Web.ret (trendFailure "Need at least 2 reports for trend analysis")
     else
       let reportData :=
         map (fun r => (Report.createdAt r, Report.healthParameters r)) reports in
       reply <- Web.call (Web.AskTrends reportData) (askTrends backend reportData) ;;
       let text := stripFences (Text.trim reply) in
       analysis <- Web.lift (parseAnalysis backend text) ;;
       from <- createdAtIndex reports 0 ;;
       to <- createdAtIndex reports (List.length reports - 1) ;;
       Web.ret {| Trend.success := true;
                  Trend.analysis := Some analysis;
                  Trend.reportCount := Some (List.length reports);
                  Trend.dateRange := Some (from, to);
                  Trend.error := None |})
    (fun message => Web.ret (trendFailure message)).

(* ------------------------------------------------------------------ *)
(** ** routes/analysis.js *)

(** [process.env.NODE_ENV === 'development' ? message : undefined] *)
Definition inDevelopment (message : string) : option string :=
  match NODE_ENV backend with
  | Some mode => if String.eqb mode "development" then Some message else None
  | None => None
  end.

(** [report.aiInsights = insights; report.insightsRegeneratedAt = date] *)
Definition withNewInsights (report : Report.t) (insights : option Report.Insights)
           (date : Z) : Report.t :=
  {| Report._id := Report._id report;
     Report.userId := Report.userId report;
     Report.filename := Report.filename report;
     Report.extractedText := Report.extractedText report;
     Report.healthParameters := Report.healthParameters report;
     Report.fileSize := Report.fileSize report;
     Report.fileType := Report.fileType report;
     Report.extractionMethod := Report.extractionMethod report;
     Report.aiInsights := insights;
     Report.patientInfo := Report.patientInfo report;
     Report.geminiMetadata := Report.geminiMetadata report;
     Report.extractionLog := Report.extractionLog report;
     Report.isScannedDocument := Report.isScannedDocument report;
     Report.requiresManualEntry := Report.requiresManualEntry report;
     Report.processingStatus := Report.processingStatus report;
     Report.insightsRegeneratedAt := Some date;
     Report.createdAt := Report.createdAt report;
     Report.previousReportCount := Report.previousReportCount report |}.

(** POST /api/analysis/:reportId/regenerate *)
Definition regenerate (reportId userId : string)
  : Web.R (Http.Response RegenerateBody) :=
  Web.tryCatch
    (found <- Web.call (Web.FindOne reportId userId)
                       (findOne backend reportId userId) ;;
     match found with
     | None =>
         Web.ret {| Http.status := 404;
                    Http.body := RegenerateError "Report not found" None None |}
     | Some report =>
         if List.length (Report.healthParameters report) =? 0 then
           Web.ret {| Http.status := 400;
                      Http.body := RegenerateError
                                "Cannot analyze report with no health parameters"
                                (Some "Please add parameters manually first")
                                None |}
         else
           analysisResult <- reanalyzeReport report ;;
           if negb (Reanalysis.success analysisResult) then
             Web.ret {| Http.status := 500;
                        Http.body := RegenerateError "Failed to regenerate insights"
                                                None
                                                (Reanalysis.error analysisResult) |}
           else
             date <- newDate ;;
             let updated :=
               withNewInsights report (Reanalysis.insights analysisResult) date in
             Web.call (Web.Save updated) (save backend updated) ;;;
             Web.ret {| Http.status := 200;
                        Http.body := Regenerated (Report._id updated)
                                            (Reanalysis.insights analysisResult)
                                            date |}
     end)
    (fun message =>
       Web.ret {| Http.status := 500;
                  Http.body := RegenerateError "Failed to regenerate insights" None
                                          (inDevelopment message) |}).

(** The reports the trends route looks up: those named in
    [req.body.reportIds] if there are any, every report of the user
    otherwise. *)
Definition chosenReports (reportIds : option (list string))
  : option (list string) :=
  match reportIds with
  | Some (id :: ids) => Some (id :: ids)
  | _ => None
  end.

(** POST /api/analysis/trends; [reportIds] is [req.body.reportIds]. *)
Definition trends (reportIds : option (list string)) (userId : string)
  : Web.R (Http.Response TrendsBody) :=
  Web.tryCatch
    (let chosen := chosenReports reportIds in
     reports <- Web.call (Web.Find chosen userId) (find backend chosen userId) ;;
     if List.length reports <? 2 then
       Web.ret {| Http.status := 400;
                  Http.body := TrendsError "Need at least 2 reports for trend analysis"
                                      (Some (List.length reports)) None |}
     else
       trendResult <- generateTrendAnalysis reports ;;
       if negb (Trend.success trendResult) then
         Web.ret {| Http.status := 500;
                    Http.body := TrendsError "Failed to generate trend analysis" None
                                        (Trend.error trendResult) |}
       else
         Web.ret {| Http.status := 200;
                    Http.body := Trends (List.length reports)
                                   (Trend.dateRange trendResult)
                                   (Trend.analysis trendResult) |})
    (fun message =>
       Web.ret {| Http.status := 500;
                  Http.body := TrendsError "Failed to generate trend analysis" None
                                      (inDevelopment message) |}).

(* ------------------------------------------------------------------ *)
(** ** routes/upload.js *)

(** The options of the extraction, from the query and the body. *)
Definition optionsOf (req : Upload.Request) : Options :=
  {| forceMethod :=
       if Text.truthy (Upload.query_method req) then Upload.query_method req
       else if Text.truthy (Upload.body_method req) then Upload.body_method req
       else None;
     preferGemini :=
       Some match Upload.query_preferGemini req with
            | Some v => negb (String.eqb v "false")
            | None => true
            end;
     includeInsights :=
       Some match Upload.query_insights req with
            | Some v => negb (String.eqb v "false")
            | None => true
            end |}.

Definition isTrue (flag : option bool) : bool :=
  match flag with
  | Some true => true
  | _ => false
  end.

(** [extractionResult.aiInsights], when truthy. *)
Definition insightsOf (r : MethodResult) : option Insights :=
  match aiInsights r with
  | Some (Some i) => Some i
  | _ => None
  end.

Definition logData (l : ExtractionLog) : Upload.Log :=
  {| Upload.attempts := Some (attempts l);
     Upload.finalMethod := finalMethod l;
     Upload.totalTime := totalTime l;
     Upload.error := logError l |}.

(** The report data of a processed file. *)
Definition reportDataOf (req : Upload.Request) (f : Upload.File)
           (extractionResult : ExtractionResult) (createdAt : Z)
  : Upload.ReportData :=
  let r := result extractionResult in
  let isGemini := String.eqb (method r) "gemini" in
  {| Upload.userId := Upload.user_id req;
     Upload.filename := Upload.originalname f;
     Upload.fileType := Upload.mimetype f;
     Upload.fileSize := Upload.size f;
     Upload.extractedText := Text.orElse (extractedText r) " ";
     Upload.healthParameters := orEmpty (healthParameters r);
     Upload.extractionMethod := method r;
     Upload.isScannedDocument := isTrue (isScannedDocument r);
     Upload.requiresManualEntry := isTrue (requiresManualEntry r);
     Upload.processingStatus :=
       if isTrue (requiresManualEntry r) then "manual_entry_needed"
       else "completed";
     Upload.extractionLog := logData (extractionLog extractionResult);
     Upload.createdAt := createdAt;
     Upload.aiInsights := insightsOf r;
     Upload.patientInfo := if isGemini then patientInfo r else None;
     Upload.geminiMetadata := if isGemini then metadata r else None |}.

(** The report saved for tracking when the processing failed. *)
Definition failedReportData (req : Upload.Request) (f : Upload.File)
           (message : string) (createdAt : Z) : Upload.ReportData :=
  {| Upload.userId := Upload.user_id req;
     Upload.filename := Upload.originalname f;
     Upload.fileType := Upload.mimetype f;
     Upload.fileSize := Upload.size f;
     Upload.extractedText := " ";
     Upload.healthParameters := [];
     Upload.extractionMethod := "failed";
     Upload.isScannedDocument := true;
     Upload.requiresManualEntry := true;
     Upload.processingStatus := "failed";
     Upload.extractionLog :=
       {| Upload.attempts := None; Upload.finalMethod := None;
          Upload.totalTime := 0; Upload.error := Some message |};
     Upload.createdAt := createdAt;
     Upload.aiInsights := None;
     Upload.patientInfo := None;
     Upload.geminiMetadata := None |}.

(** The message of the response to a processed file. *)
Definition messageOf (r : MethodResult) (extractedParameterCount : nat) : string :=
  if isTrue (requiresManualEntry r) then
    if String.eqb (method r) "failed"
    then "Could not automatically extract data. Please enter data manually."
    else "Limited data extracted. You may need to verify and complete manually."
  else if isTrue (isScannedDocument r) then
    ("Extracted " ++ decimal extractedParameterCount
       ++ " parameters from scanned document. Please verify accuracy.")%string
  else if String.eqb (method r) "gemini" then
    ("Successfully processed with AI. Found " ++ decimal extractedParameterCount
       ++ " parameters with insights.")%string
  else
    ("Successfully processed with OCR. Found " ++ decimal extractedParameterCount
       ++ " parameters.")%string.

(** The response to a processed file. *)
Definition responseOf (f : Upload.File) (extractionResult : ExtractionResult)
           (stats : Stats.t) (reportId : string) : Uploaded.t :=
  let r := result extractionResult in
  let extractedParameterCount := List.length (orEmpty (healthParameters r)) in
  {| Uploaded.success := true;
     Uploaded.reportId := reportId;
     Uploaded.filename := Upload.originalname f;
     Uploaded.extractionMethod := Some (method r);
     Uploaded.healthParameters := healthParameters r;
     Uploaded.extractedParameterCount := extractedParameterCount;
     Uploaded.processingTime := Some (Stats.processingTime stats);
     Uploaded.aiInsights :=
       match insightsOf r with
       | Some i =>
           Some {| Uploaded.summary := summary i;
                   Uploaded.riskLevel := riskLevel i;
                   Uploaded.outlierCount := List.length (outliers i);
                   Uploaded.recommendationCount :=
                     List.length (recommendations i) |}
       | None => None
       end;
     Uploaded.requiresManualEntry :=
       if isTrue (requiresManualEntry r) then Some true else None;
     Uploaded.isScannedDocument :=
       if isTrue (requiresManualEntry r) then None
       else if isTrue (isScannedDocument r) then Some true else None;
     Uploaded.message := messageOf r extractedParameterCount;
     Uploaded.extractionLog :=
       match NODE_ENV backend with
       | Some mode =>
           if String.eqb mode "development"
           then Some (extractionLog extractionResult) else None
       | None => None
       end;
     Uploaded.error := None |}.

(** The response once the failed report is saved. *)
Definition failedResponse (f : Upload.File) (message reportId : string)
  : Uploaded.t :=
  {| Uploaded.success := true;
     Uploaded.reportId := reportId;
     Uploaded.filename := Upload.originalname f;
     Uploaded.extractionMethod := None;
     Uploaded.healthParameters := Some [];
     Uploaded.extractedParameterCount := 0;
     Uploaded.processingTime := None;
     Uploaded.aiInsights := None;
     Uploaded.requiresManualEntry := Some true;
     Uploaded.isScannedDocument := None;
     Uploaded.message := "Processing failed. Please enter data manually.";
     Uploaded.extractionLog := None;
     Uploaded.error := inDevelopment message |}.

(** The [try] inside the [catch] of the upload route: [Some] response when
    the failed report could be saved. *)
Definition trackFailure (req : Upload.Request) (message : string)
  : Web.R (option (Http.Response UploadBody)) :=
  Web.tryCatch
    (match Upload.file req with
     | None =>
         Web.throw "Cannot read properties of undefined (reading 'originalname')"
     | Some f =>
         createdAt <- newDate ;;
         let data := failedReportData req f message createdAt in
         reportId <- Web.call (Web.Create data) (create backend data) ;;
         Web.ret (Some {| Http.status := 200;
                          Http.body := UploadDone (failedResponse f message reportId) |})
     end)
    (fun _ => Web.ret None).

(** POST /api/upload: upload and process a medical report.  The validation
    and the statistics are computed for the console only. *)
Definition upload (req : Upload.Request) : Web.R (Http.Response UploadBody) :=
  Web.tryCatch
    (match Upload.file req with
     | None =>
         Web.ret {| Http.status := 400;
                    Http.body := UploadError "No file uploaded" None |}
     | Some f =>
         extractionResult <-
           Web.run (extractHealthData env (Upload.buffer f) (Upload.mimetype f)
                                      (optionsOf req)) ;;
         let validation := validateExtractionResults extractionResult in
         let stats := getExtractionStats extractionResult in
         createdAt <- newDate ;;
         let reportData := reportDataOf req f extractionResult createdAt in
         reportId <- Web.call (Web.Create reportData) (create backend reportData) ;;
         Web.ret {| Http.status := 200;
                    Http.body := UploadDone
                              (responseOf f extractionResult stats reportId) |}
     end)
    (fun message =>
       tracked <- trackFailure req message ;;
       match tracked with
       | Some response => Web.ret response
       | None =>
           Web.ret {| Http.status := 500;
                      Http.body := UploadError "Failed to process uploaded file"
                                          (inDevelopment message) |}
       end).

End WebLayer.

(* ------------------------------------------------------------------ *)
(** * Specification vocabulary

    The notions the statements below are written in: what a run may do to
    the world, what the two extraction methods return, how a run of the
    orchestrator ends, and test doubles for the collaborators. *)

(** ** Runs *)

Definition isGemini (e : Event) : bool :=
  match e with
  | CallGemini _ _ => true
  | _ => false
  end.

(** From [w] to [w'] the log is untouched and the AI collaborator was not
    called. *)
Definition ocrOnly (w w' : World) : Prop :=
  log w' = log w /\
  exists evs, trace w' = trace w ++ evs /\ Forall (fun e => isGemini e = false) evs.

(** A computation that leaves the log alone and never calls the AI. *)
Definition quiet {A} (m : M A) : Prop := forall w, ocrOnly w (snd (m w)).

(** A computation that never throws. *)
Definition total {A} (m : M A) : Prop := forall w, exists a, fst (m w) = Return a.

(** A computation whose outcome does not depend on the clock, the trace or
    the log. *)
Definition stateless {A} (m : M A) : Prop := forall w w', fst (m w) = fst (m w').

(** The world after the clock was read once. *)
Definition tick (w : World) : World :=
  {| ticks := S (ticks w); trace := trace w; log := log w |}.

(** The world after the collaborator calls [evs]. *)
Definition extend (w : World) (evs : list Event) : World :=
  {| ticks := ticks w; trace := trace w ++ evs; log := log w |}.

Definition withTicksLog (w : World) (n : nat) (l : ExtractionLog) : World :=
  {| ticks := n; trace := trace w; log := l |}.

(** The world in which the [try] block of [extractHealthData] starts: a
    fresh log, the clock read once for [startTime]. *)
Definition start (w : World) : World :=
  {| ticks := S (ticks w); trace := trace w; log := emptyLog |}.

(** ** The extraction log *)

Definition pushed (l : ExtractionLog) (a : Attempt) : ExtractionLog :=
  {| attempts := attempts l ++ [a]; finalMethod := finalMethod l;
     totalTime := totalTime l; logError := logError l |}.

Definition finished (l : ExtractionLog) (m : string) (elapsed : Z)
  : ExtractionLog :=
  {| attempts := attempts l; finalMethod := Some m;
     totalTime := elapsed; logError := logError l |}.

Definition aborted (l : ExtractionLog) (elapsed : Z) (message : string)
  : ExtractionLog :=
  {| attempts := attempts l; finalMethod := finalMethod l;
     totalTime := elapsed; logError := Some message |}.

(** The attempt recorded by the auto mode. *)
Definition autoAttempt (m : string) (r : MethodResult) : Attempt :=
  {| attemptMethod := m; attemptSuccess := success r;
     attemptProcessingTime := option_map metaProcessingTime (metadata r) |}.

(** The attempt recorded by a forced mode. *)
Definition forcedAttempt (m : string) (r : MethodResult) : Attempt :=
  {| attemptMethod := m; attemptSuccess := success r;
     attemptProcessingTime := None |}.

(** ** What the extraction methods return *)

(** The shape of a result of [extractWithGemini]. *)
Definition geminiShaped (r : MethodResult) : Prop :=
  method r = "gemini" /\
  requiresManualEntry r = None /\
  if success r
  then (exists ps, healthParameters r = Some ps) /\
       (exists md, metadata r = Some md) /\ error r = None
  else healthParameters r = None /\ metadata r = None /\
       (exists e, error r = Some e) /\ (exists t, processingTime r = Some t).

(** Whether the result of the AI is used: the call succeeded and returned
    at least one health parameter. *)
Definition sufficient (g : MethodResult) : bool :=
  success g &&
  match healthParameters g with
  | Some (_ :: _) => true
  | _ => false
  end.

Definition trimmedLength (recognizedText : string) : nat :=
  String.length (Text.trim recognizedText).

(** [extractedText] after the replacement of an empty text by a space. *)
Definition workingText (recognizedText : string) : string :=
  if trimmedLength recognizedText =? 0 then " " else recognizedText.

Section MethodVocabulary.

Variable env : Env.

(** The text the OCR method works on: the branch on the mime type at the
    head of [extractWithOCR]. *)
Definition documentText (fileBuffer : Buffer) (mimeType : string) : M string :=
  if String.eqb mimeType "application/pdf"
  then extractTextFromPDFBuffer env fileBuffer
  else extractTextFromImageBuffer env fileBuffer.

(** The parameters of a recognized text: the parser is only asked about a
    text of more than 50 code units. *)
Definition parsedParameters (recognizedText : string)
  : Outcome (list HealthParameter) :=
  if 50 <? String.length (workingText recognizedText)
  then extractHealthParameters env (workingText recognizedText)
  else Return [].

(** The shape of a result of [extractWithOCR] on a recognized text. *)
Definition ocrShaped (recognizedText : string) (r : MethodResult) : Prop :=
  method r = "ocr" /\
  match parsedParameters recognizedText with
  | Return ps =>
      success r = (0 <? List.length ps) || (trimmedLength recognizedText <? 50) /\
      healthParameters r = Some ps /\
      requiresManualEntry r = Some (List.length ps =? 0) /\
      isScannedDocument r = Some (trimmedLength recognizedText <? 50) /\
      extractedText r = Some (workingText recognizedText) /\
      (exists md, metadata r = Some md) /\ error r = None /\
      aiInsights r = None
  | Throw e =>
      success r = false /\ healthParameters r = None /\
      requiresManualEntry r = None /\ metadata r = None /\
      error r = Some e /\ aiInsights r = None
  end.

(** ** How a run of the orchestrator ends *)

(** The [catch] block of [extractHealthData], entered in the world [w]. *)
Definition failed (w : World) (st : Z) (message : string)
  : Outcome ExtractionResult * World :=
  let l := aborted (log w) (clock env (ticks w) - st) message in
  (Return {| result := failureResult message; extractionLog := l |},
   withTicksLog w (S (ticks w)) l).

(** Whether the auto mode starts with the AI. *)
Definition triesGemini (options : Options) : bool :=
  match preferGemini options with
  | Some b => b
  | None => true
  end && Text.truthy (GEMINI_API_KEY env).

Definition wantsInsights (options : Options) : bool :=
  match includeInsights options with
  | Some b => b
  | None => true
  end.

Section Classification.

Variables (buffer : Buffer) (mime : string) (options : Options) (w : World).

(** The AI was tried first and did not suffice; [pre] is the world in
    which the OCR fallback then starts. *)
Definition afterGemini (g : MethodResult) (w1 pre : World) : Prop :=
  extractWithGemini env buffer mime (start w) = (Return g, w1) /\
  log w1 = emptyLog /\
  trace w1 = trace w ++ [CallGemini buffer mime] /\
  geminiShaped g /\
  (success g = false \/ healthParameters g = Some []) /\
  pre = withTicksLog w1 (ticks w1) (pushed emptyLog (autoAttempt "gemini" g)).

(** The world in which the OCR method of the auto mode starts. *)
Definition beforeOCR (pre : World) : Prop :=
  (triesGemini options = false /\ pre = start w) \/
  (triesGemini options = true /\ exists g w1, afterGemini g w1 pre).

(** A run of the OCR method from [pre]. *)
Definition ocrRun (pre : World) (text : string) (o : MethodResult)
           (w1 : World) : Prop :=
  extractWithOCR env buffer mime pre = (Return o, w1) /\
  fst (documentText buffer mime (tick pre)) = Return text /\
  ocrOnly pre w1 /\
  ocrShaped text o.

(** [Finalized r w'] describes a run of [extractHealthData] from the world
    [w] that returns [r] in the world [w']: one rule per way through the
    function. *)
Inductive Finalized : ExtractionResult -> World -> Prop :=
| ForcedOCR text o w1 :
    forced options "ocr" = true ->
    ocrRun (start w) text o w1 ->
    let l := finished (pushed emptyLog (forcedAttempt "ocr" o)) "ocr"
               (clock env (ticks w1) - clock env (ticks w)) in
    Finalized {| result := o; extractionLog := l |}
              (withTicksLog w1 (S (ticks w1)) l)
| ForcedGemini g w1 :
    forced options "ocr" = false ->
    forced options "gemini" = true ->
    extractWithGemini env buffer mime (start w) = (Return g, w1) ->
    log w1 = emptyLog ->
    trace w1 = trace w ++ [CallGemini buffer mime] ->
    geminiShaped g ->
    success g = true ->
    let l := finished (pushed emptyLog (forcedAttempt "gemini" g)) "gemini"
               (clock env (ticks w1) - clock env (ticks w)) in
    Finalized {| result := g; extractionLog := l |}
              (withTicksLog w1 (S (ticks w1)) l)
| ForcedGeminiFailed g w1 :
    forced options "ocr" = false ->
    forced options "gemini" = true ->
    extractWithGemini env buffer mime (start w) = (Return g, w1) ->
    log w1 = emptyLog ->
    trace w1 = trace w ++ [CallGemini buffer mime] ->
    geminiShaped g ->
    success g = false ->
    let message := "Gemini extraction failed (forced mode)" in
    let l := aborted (pushed emptyLog (forcedAttempt "gemini" g))
               (clock env (ticks w1) - clock env (ticks w)) message in
    Finalized {| result := failureResult message; extractionLog := l |}
              (withTicksLog w1 (S (ticks w1)) l)
| AutoGemini g w1 ps :
    forced options "ocr" = false ->
    forced options "gemini" = false ->
    triesGemini options = true ->
    extractWithGemini env buffer mime (start w) = (Return g, w1) ->
    log w1 = emptyLog ->
    trace w1 = trace w ++ [CallGemini buffer mime] ->
    geminiShaped g ->
    success g = true ->
    healthParameters g = Some ps ->
    0 < List.length ps ->
    let l := finished (pushed emptyLog (autoAttempt "gemini" g)) "gemini"
               (clock env (ticks w1) - clock env (ticks w)) in
    Finalized {| result := g; extractionLog := l |}
              (withTicksLog w1 (S (ticks w1)) l)
| AutoOCR pre text o w1 ps :
    forced options "ocr" = false ->
    forced options "gemini" = false ->
    beforeOCR pre ->
    ocrRun pre text o w1 ->
    success o = true ->
    healthParameters o = Some ps ->
    let l := finished (pushed (log pre) (autoAttempt "ocr" o)) "ocr"
               (clock env (ticks w1) - clock env (ticks w)) in
    Finalized {| result :=
                   withInsights o
                     (if wantsInsights options
                      then Some (generateBasicInsights ps) else None);
                 extractionLog := l |}
              (withTicksLog w1 (S (ticks w1)) l)
| AutoFailed pre text o w1 :
    forced options "ocr" = false ->
    forced options "gemini" = false ->
    beforeOCR pre ->
    ocrRun pre text o w1 ->
    success o = false ->
    let message := "Both Gemini and OCR extraction failed" in
    let l := aborted (pushed (log pre) (autoAttempt "ocr" o))
               (clock env (ticks w1) - clock env (ticks w)) message in
    Finalized {| result := failureResult message; extractionLog := l |}
              (withTicksLog w1 (S (ticks w1)) l).

End Classification.

End MethodVocabulary.

(** ** Rotation candidates *)







(** ** Sanitized parameters *)

(** A sanitized parameter: the name is not empty, the status passes the
    schema, [textValue] is never the empty string, and a parameter of a
    textual type carries the placeholder value 0 and a text. *)
Definition sanitized (p : HealthParameter) : Prop :=
  name p <> "" /\
  Schema.allows Schema.status (status p) = true /\
  textValue p <> Some "" /\
  (parameterType p = "categorical" \/ parameterType p = "text" \/
   parameterType p = "boolean" ->
   value p = 0%Q /\ exists t, textValue p = Some t).

(** ** Re-analysis *)

(** The insights of a re-analysis pass the [enum] validators of the
    schema. *)
Definition fitsSchema (i : Report.Insights) : Prop :=
  Schema.allows Schema.riskLevel (Report.riskLevel i) = true /\
  Forall (fun o => Schema.allows Schema.severity (Report.severity o) = true)
         (Report.outliers i).

(** The prompt data of a re-analysis. *)
Definition insightsCall (report : Report.t) : Web.Call :=
  Web.AskInsights (Report.healthParameters report)
                  (match Report.previousReportCount report with
                   | Some n => n
                   | None => 0
                   end)
                  (Report.createdAt report).

(** ** Uploads *)

(** Data of an upload that can be stored: the extraction method and the
    processing status pass the [enum] validators of the schema, and the
    text is not empty (the route puts a space for a missing text).  The
    status tells of a manual entry only when the flag is set, and a failed
    extraction stores no parameter. *)
Definition storable (data : Upload.ReportData) : Prop :=
  Schema.allows Schema.extractionMethod (Upload.extractionMethod data) = true /\
  Schema.allows Schema.processingStatus (Upload.processingStatus data) = true /\
  Upload.extractedText data <> "" /\
  (Upload.processingStatus data = "manual_entry_needed" ->
   Upload.requiresManualEntry data = true) /\
  (Upload.processingStatus data = "completed" ->
   Upload.requiresManualEntry data = false) /\
  (Upload.extractionMethod data = "failed" ->
   Upload.healthParameters data = [] /\ Upload.requiresManualEntry data = true).

(** ** Budgets *)

(** How many calls of each kind a run makes: to the AI, to the OCR engine,
    to sharp, to pdf-parse and to the parameter parser. *)
Module Budget.

Record t : Type := {
  prompts : nat;
  passes : nat;
  transforms : nat;
  pdfParses : nat;
  parses : nat
}.

Definition zero : t :=
  {| prompts := 0; passes := 0; transforms := 0; pdfParses := 0; parses := 0 |}.

Definition plus (a b : t) : t :=
  {| prompts := prompts a + prompts b;
     passes := passes a + passes b;
     transforms := transforms a + transforms b;
     pdfParses := pdfParses a + pdfParses b;
     parses := parses a + parses b |}.

(** The larger of two budgets, field by field. *)
Definition join (a b : t) : t :=
  {| prompts := Nat.max (prompts a) (prompts b);
     passes := Nat.max (passes a) (passes b);
     transforms := Nat.max (transforms a) (transforms b);
     pdfParses := Nat.max (pdfParses a) (pdfParses b);
     parses := Nat.max (parses a) (parses b) |}.

Definition leb (a b : t) : bool :=
  (prompts a <=? prompts b) && (passes a <=? passes b)
  && (transforms a <=? transforms b) && (pdfParses a <=? pdfParses b)
  && (parses a <=? parses b).

Definition cost (e : Event) : t :=
  match e with
  | CallGemini _ _ =>
      {| prompts := 1; passes := 0; transforms := 0; pdfParses := 0; parses := 0 |}
  | CallRecognize _ _ _ =>
      {| prompts := 0; passes := 1; transforms := 0; pdfParses := 0; parses := 0 |}
  | CallSharp _ _ =>
      {| prompts := 0; passes := 0; transforms := 1; pdfParses := 0; parses := 0 |}
  | CallPdfParse _ =>
      {| prompts := 0; passes := 0; transforms := 0; pdfParses := 1; parses := 0 |}
  | CallParser _ =>
      {| prompts := 0; passes := 0; transforms := 0; pdfParses := 0; parses := 1 |}
  end.

(** What the calls [evs] add up to. *)
Definition spent (evs : list Event) : t :=
  fold_right (fun e b => plus (cost e) b) zero evs.

End Budget.

(** A computation that makes no more calls than the budget [b] allows,
    whatever the collaborators answer. *)
Definition within (b : Budget.t) {A} (m : M A) : Prop :=
  forall w, exists evs,
    trace (snd (m w)) = trace w ++ evs /\
    Budget.leb (Budget.spent evs) b = true.

(** The budget of one extraction: one call of the AI, seven OCR passes
    (the first pass, three rotation probes, the quick scan, two variants),
    seven image transforms (three probes, the final rotation, the quick
    scan, two variants), one PDF parse and one call of the parser. *)
Definition extractionBudget : Budget.t :=
  {| Budget.prompts := 1; Budget.passes := 7; Budget.transforms := 7;
     Budget.pdfParses := 1; Budget.parses := 1 |}.

(** ** Time *)

(** A computation after which the clock has been read at least as often as
    before. *)
Definition advancing {A} (m : M A) : Prop :=
  forall w, ticks w <= ticks (snd (m w)).

(** A clock that never runs backwards. *)
Definition monotone (clock : nat -> Z) : Prop :=
  forall n m, n <= m -> (clock n <= clock m)%Z.

(** The time that the method result [r] reports fits the window from the
    reading number [first] of the clock to the next reading in [w1]. *)
Definition fits (env : Env) (first : nat) (w1 : World) (r : MethodResult) : Prop :=
  first <= ticks w1 /\
  forall md, metadata r = Some md ->
             (0 <= metaProcessingTime md
              <= clock env (ticks w1) - clock env first)%Z.

(* ------------------------------------------------------------------ *)
(** ** Test doubles for the collaborators *)

Module Demo.

Import Byte.

(** [sharp] prefixes the buffer with a byte that tells the transform. *)
Definition transform (buffer : Buffer) (ops : list Sharp.Op) : Outcome Buffer :=
  match ops with
  | [Sharp.rotate 90] => Return (x01 :: buffer)
  | [Sharp.rotate 180] => Return (x02 :: buffer)
  | [Sharp.rotate 270] => Return (x03 :: buffer)
  | Sharp.resize 1500 _ _ _ :: _ => Return (x10 :: buffer)
  | Sharp.resize _ _ _ (Some _) :: _ => Return (x11 :: buffer)
  | _ => Return (x12 :: buffer)
  end.

(** An environment from the answers of the AI, of pdf-parse, of the OCR
    engine and of the parameter parser. *)
Definition environment (key : option string) (reply : Outcome ParsedData)
           (pdf : Outcome string) (ocr : Buffer -> Outcome (string * Q))
           (parser : string -> Outcome (list HealthParameter)) : Env :=
  {| GEMINI_API_KEY := key;
     clock := fun n => Z.of_nat (10 * n);
     generateContent := fun _ _ => Return "{}";
     JSON_parse := fun _ => reply;
     parseFloat := fun _ => None;
     numberToString := fun _ => "0";
     recognize := fun buffer _ _ => ocr buffer;
     toBuffer := transform;
     pdfParse := fun _ => pdf;
     extractHealthParameters := parser |}.

Definition world : World := {| ticks := 0; trace := []; log := emptyLog |}.

Definition auto : Options :=
  {| forceMethod := None; preferGemini := None; includeInsights := None |}.

Definition force (m : string) : Options :=
  {| forceMethod := Some m; preferGemini := None; includeInsights := None |}.

Definition glucose : HealthParameter :=
  {| name := "Glucose"; value := 100%Q; unit_ := "mg/dL";
     normalRange := "70-100"; status := "Normal"; category := "General";
     parameterType := "numeric"; textValue := None |}.

Definition rawGlucose : RawParameter :=
  {| rawName := Some "Glucose"; rawValue := JNumber 100%Q;
     rawUnit := Some "mg/dL"; rawNormalRange := Some "70-100";
     rawStatus := Some "normal"; rawCategory := None;
     rawParameterType := None; rawTextValue := None |}.

Definition reply (ps : list RawParameter) : Outcome ParsedData :=
  Return {| parameters := Some ps; insights := None; parsedText := None;
            parsedPatientInfo := None; parsedConfidence := None |}.


(** A text layer of 110 characters in which the parser finds nothing. *)
Definition prose : string :=
  "This page holds no laboratory values at all, only a covering letter " ++
  "from the clinic to the patient, 110 chars.".

Definition image : Buffer := [x89; x50; x4e; x47].

Definition noOCR : Buffer -> Outcome (string * Q) := fun _ => Return ("", 0%Q).

Definition report : string :=
  "Glucose: 100 mg/dL  Hemoglobin: 13.5 g/dL  Creatinine: 1.0 mg/dL".


(** A report on which the quick scan is enough: every keyword, each with
    a value and a unit. *)
Definition fullReport : string :=
  "glucose: 95 mg/dl cholesterol: 180 mg/dl hemoglobin: 14 g/dl " ++
  "triglyceride: 120 mg/dl creatinine: 1 mg/dl".



(** An engine that reads the same text on every buffer. *)
Definition reads (text : string) (conf : Q) (buffer : Buffer)
  : Outcome (string * Q) :=
  Return (text, conf).
Definition noParameters : string -> Outcome (list HealthParameter) :=
  fun _ => Return [].

End Demo.

(** Further test doubles: replies of the AI, stored reports, a database. *)
Module Fixtures.

(** The line feed. *)
Definition newline : string := String "010"%char "".

(** A reply of the AI that names one parameter of a categorical type. *)
Definition rawBloodGroup : RawParameter :=
  {| rawName := Some "Blood Group"; rawValue := JString "O+";
     rawUnit := None; rawNormalRange := None;
     rawStatus := Some "Present"; rawCategory := None;
     rawParameterType := Some "categorical"; rawTextValue := None |}.

(** An environment in which only the AI answers. *)
Definition aiOnly (ps : list RawParameter) : Env :=
  Demo.environment (Some "key") (Demo.reply ps) (Throw "not a PDF")
                   Demo.noOCR Demo.noParameters.

(** An environment without an API key, in which the OCR engine reads [text]
    on every buffer and the parser finds [ps]. *)
Definition ocrOnlyEnv (text : string) (ps : list HealthParameter) : Env :=
  Demo.environment None (Demo.reply []) (Throw "not a PDF")
                   (Demo.reads text 90) (fun _ => Return ps).

(** A stored report of the method [m] with the parameters [ps] and the
    insights [i]. *)
Definition stored (m : string) (ps : list HealthParameter)
           (i : option Report.Insights) : Report.t :=
  {| Report._id := "r1"; Report.userId := "u1";
     Report.filename := "report.png"; Report.extractedText := " ";
     Report.healthParameters := ps; Report.fileSize := 4;
     Report.fileType := "image/png"; Report.extractionMethod := m;
     Report.aiInsights := i; Report.patientInfo := None;
     Report.geminiMetadata := None; Report.extractionLog := None;
     Report.isScannedDocument := false; Report.requiresManualEntry := false;
     Report.processingStatus := "completed";
     Report.insightsRegeneratedAt := None; Report.createdAt := 0;
     Report.previousReportCount := None |}.

(** Insights generated at the time [t]. *)
Definition insightsAt (t : Z) : Report.Insights :=
  {| Report.summary := "All parameters within normal ranges";
     Report.outliers := []; Report.recommendations := [];
     Report.riskLevel := "Low"; Report.positiveFindings := [];
     Report.trendsToMonitor := []; Report.lifestyle := noLifestyle;
     Report.generatedAt := Some t |}.

(** A database that stores every report under the same id and holds no
    report; a model that does not answer. *)
Definition database : Backend :=
  {| NODE_ENV := None;
     create := fun _ => Return "r1";
     findOne := fun _ _ => Return None;
     save := fun _ => Return tt;
     find := fun _ _ => Return [];
     askInsights := fun _ _ _ => Throw "no model";
     askTrends := fun _ => Throw "no model";
     parseInsights := fun _ => Throw "Unexpected end of JSON input";
     parseAnalysis := fun _ => Throw "Unexpected end of JSON input" |}.

Definition png : Upload.File :=
  {| Upload.originalname := "report.png"; Upload.mimetype := "image/png";
     Upload.size := 4; Upload.buffer := Demo.image |}.

(** An upload of [png] that asks for the method [m]. *)
Definition request (m : option string) : Upload.Request :=
  {| Upload.file := Some png; Upload.user_id := "u1";
     Upload.query_method := m; Upload.query_preferGemini := None;
     Upload.query_insights := None; Upload.body_method := None |}.

Definition site : Web.Site := {| Web.world := Demo.world; Web.calls := [] |}.

(** An environment without an API key in which the OCR engine reads
    [Demo.prose] and the parameter parser throws. *)
Definition brokenParser : Env :=
  Demo.environment None (Demo.reply []) (Throw "not a PDF")
                   (Demo.reads Demo.prose 90)
                   (fun _ => Throw "parser failed").

End Fixtures.

(* ------------------------------------------------------------------ *)
(** * Properties *)

(* ------------------------------------------------------------------ *)
(** ** The definitions on small inputs *)

Module Examples.

Import Quality.

Example trim_both_ends : Text.trim "  a b  " = "a b".
Proof. reflexivity. Qed.

Example trim_blank : Text.trim "   " = "".
Proof. reflexivity. Qed.

Example includes_inside : Text.includes "total cholesterol" "cholesterol" = true.
Proof. reflexivity. Qed.

Example unit_matches :
  Regex.matchCount true unitRegex "Glucose: 100 mg/dL, HbA1c 5.6 %, x 7mmol/L" = 3.
Proof. reflexivity. Qed.

Example unit_needs_digits : Regex.matchCount true unitRegex "mg/dL and %" = 0.
Proof. reflexivity. Qed.

Example table_matches :
  Regex.matchCount false tableRegex "Glucose: 100 mg/dL, HbA1c - 5.6 %, ab:1:2" = 3.
Proof. reflexivity. Qed.

Example keywords_counted_once :
  medicalTermCount (measure "GLUCOSE and Hemoglobin, glucose again") = 2.
Proof. reflexivity. Qed.

(** 18 characters, one table pattern, one keyword, one unit, confidence 90:
    5.4 + 8 + 15 + 12 + 36. *)
Example score_of_one_line :
  (total (calculateQualityScore "Glucose: 100 mg/dL" 90) == 764 # 10)%Q.
Proof. reflexivity. Qed.

Example fences_removed : stripFences "```json{}```" = "{}".
Proof. reflexivity. Qed.

(** "abnormal" contains "normal", which is tested first. *)
Example status_abnormal : sanitizeStatus (Some " Abnormal ") = "Normal".
Proof. reflexivity. Qed.

Example status_elevated : sanitizeStatus (Some "Elevated") = "High".
Proof. reflexivity. Qed.

Example status_missing : sanitizeStatus None = "Unknown".
Proof. reflexivity. Qed.

Example basic_insights_of_nothing :
  summary (generateBasicInsights []) = "All parameters within normal ranges" /\
  recommendations (generateBasicInsights []) = [].
Proof. split; reflexivity. Qed.

Example blank_name_is_reported :
  parameterIssues 0
    [{| name := " "; value := 1%Q; unit_ := ""; normalRange := "N/A";
        status := "Unknown"; category := "General"; parameterType := "numeric";
        textValue := None |}]
  = ["Parameter 0: Missing name"].
Proof. reflexivity. Qed.

End Examples.

(* ------------------------------------------------------------------ *)
(** ** Properties of the quality scorer *)

Module QualityFacts.

Import Quality.

Local Open Scope Q_scope.







End QualityFacts.

(* ------------------------------------------------------------------ *)
(** ** Reasoning about runs *)

Lemma ocrOnly_refl (w : World) : ocrOnly w w.
Proof.
  split; [reflexivity |]. exists []. rewrite app_nil_r. split; constructor.
Qed.

Lemma ocrOnly_trans (w1 w2 w3 : World) :
  ocrOnly w1 w2 -> ocrOnly w2 w3 -> ocrOnly w1 w3.
Proof.
  intros [L1 [e1 [T1 F1]]] [L2 [e2 [T2 F2]]]. split.
  - congruence.
  - exists (e1 ++ e2). split.
    + rewrite T2, T1, app_assoc. reflexivity.
    + apply Forall_app. split; assumption.
Qed.

Section Rules.

Context {A B : Type}.

Lemma bind_Return (m : M A) (f : A -> M B) w a w' :
  m w = (Return a, w') -> bind m f w = f a w'.
Proof. intros H. unfold bind. rewrite H. reflexivity. Qed.

Lemma bind_Throw (m : M A) (f : A -> M B) w e w' :
  m w = (Throw e, w') -> bind m f w = (Throw e, w').
Proof. intros H. unfold bind. rewrite H. reflexivity. Qed.

Lemma tryCatch_Return (m : M A) h w a w' :
  m w = (Return a, w') -> tryCatch m h w = (Return a, w').
Proof. intros H. unfold tryCatch. rewrite H. reflexivity. Qed.

Lemma tryCatch_Throw (m : M A) h w e w' :
  m w = (Throw e, w') -> tryCatch m h w = h e w'.
Proof. intros H. unfold tryCatch. rewrite H. reflexivity. Qed.

Lemma quiet_ret (a : A) : quiet (ret a).
Proof. intros w. apply ocrOnly_refl. Qed.

Lemma quiet_throw (e : string) : quiet (@throw A e).
Proof. intros w. apply ocrOnly_refl. Qed.

Lemma quiet_bind (m : M A) (f : A -> M B) :
  quiet m -> (forall a, quiet (f a)) -> quiet (bind m f).
Proof.
  intros Hm Hf w. specialize (Hm w). unfold bind.
  destruct (m w) as [[a | e] w1]; simpl in *.
  - eapply ocrOnly_trans; [exact Hm | apply Hf].
  - exact Hm.
Qed.

Lemma quiet_tryCatch (m : M A) (h : string -> M A) :
  quiet m -> (forall e, quiet (h e)) -> quiet (tryCatch m h).
Proof.
  intros Hm Hh w. specialize (Hm w). unfold tryCatch.
  destruct (m w) as [[a | e] w1]; simpl in *.
  - exact Hm.
  - eapply ocrOnly_trans; [exact Hm | apply Hh].
Qed.

Lemma quiet_call (e : Event) (o : Outcome A) :
  isGemini e = false -> quiet (call e o).
Proof.
  intros H w. split; [reflexivity |]. exists [e]. split; [reflexivity |].
  constructor; [exact H | constructor].
Qed.

Lemma total_ret (a : A) : total (ret a).
Proof. intros w. exists a. reflexivity. Qed.

Lemma total_bind (m : M A) (f : A -> M B) :
  total m -> (forall a, total (f a)) -> total (bind m f).
Proof.
  intros Hm Hf w. destruct (Hm w) as [a Ha]. unfold bind.
  destruct (m w) as [[a' | e] w1]; simpl in Ha; [| discriminate].
  apply Hf.
Qed.

Lemma total_tryCatch (m : M A) (h : string -> M A) :
  (forall e, total (h e)) -> total (tryCatch m h).
Proof.
  intros Hh w. unfold tryCatch. destruct (m w) as [[a | e] w1].
  - exists a. reflexivity.
  - apply Hh.
Qed.

Lemma stateless_ret (a : A) : stateless (ret a).
Proof. intros w w'. reflexivity. Qed.

Lemma stateless_throw (e : string) : stateless (@throw A e).
Proof. intros w w'. reflexivity. Qed.

Lemma stateless_call (e : Event) (o : Outcome A) : stateless (call e o).
Proof. intros w w'. reflexivity. Qed.

Lemma stateless_bind (m : M A) (f : A -> M B) :
  stateless m -> (forall a, stateless (f a)) -> stateless (bind m f).
Proof.
  intros Hm Hf w w'. specialize (Hm w w'). unfold bind.
  destruct (m w) as [[a | e] w1], (m w') as [[a' | e'] w1'];
    simpl in Hm; try discriminate.
  - injection Hm as ->. apply Hf.
  - injection Hm as ->. reflexivity.
Qed.

Lemma stateless_tryCatch (m : M A) (h : string -> M A) :
  stateless m -> (forall e, stateless (h e)) -> stateless (tryCatch m h).
Proof.
  intros Hm Hh w w'. specialize (Hm w w'). unfold tryCatch.
  destruct (m w) as [[a | e] w1], (m w') as [[a' | e'] w1'];
    simpl in Hm; try discriminate.
  - exact Hm.
  - injection Hm as ->. apply Hh.
Qed.

End Rules.

(** A total computation run for its effect only. *)
Lemma stateless_seq {A B} (m : M A) (k : M B) :
  total m -> stateless k -> stateless (bind m (fun _ => k)).
Proof.
  intros Hm Hk w w'. unfold bind.
  destruct (Hm w) as [a Ha], (Hm w') as [a' Ha'].
  destruct (m w) as [[x | e] w1]; simpl in Ha; [| discriminate].
  destruct (m w') as [[x' | e'] w1']; simpl in Ha'; [| discriminate].
  apply Hk.
Qed.

Lemma quiet_forOf {A S} (body : S -> A -> M S) (xs : list A) :
  (forall acc x, quiet (body acc x)) -> forall acc, quiet (forOf body xs acc).
Proof.
  intros Hb. induction xs as [| x xs IH]; intros acc; simpl.
  - apply quiet_ret.
  - apply quiet_bind; [apply Hb | exact IH].
Qed.

Lemma stateless_forOf {A S} (body : S -> A -> M S) (xs : list A) :
  (forall acc x, stateless (body acc x)) ->
  forall acc, stateless (forOf body xs acc).
Proof.
  intros Hb. induction xs as [| x xs IH]; intros acc; simpl.
  - apply stateless_ret.
  - apply stateless_bind; [apply Hb | exact IH].
Qed.

Lemma quiet_mapAll {A B} (f : A -> M B) (xs : list A) :
  (forall x, quiet (f x)) -> quiet (mapAll f xs).
Proof.
  intros Hf. induction xs as [| x xs IH]; simpl.
  - apply quiet_ret.
  - apply quiet_bind; [apply Hf |]. intros y.
    apply quiet_bind; [exact IH |]. intros ys. apply quiet_ret.
Qed.

Lemma stateless_mapAll {A B} (f : A -> M B) (xs : list A) :
  (forall x, stateless (f x)) -> stateless (mapAll f xs).
Proof.
  intros Hf. induction xs as [| x xs IH]; simpl.
  - apply stateless_ret.
  - apply stateless_bind; [apply Hf |]. intros y.
    apply stateless_bind; [exact IH |]. intros ys. apply stateless_ret.
Qed.

Lemma total_mapAll {A B} (f : A -> M B) (xs : list A) :
  (forall x, total (f x)) -> total (mapAll f xs).
Proof.
  intros Hf. induction xs as [| x xs IH]; simpl.
  - apply total_ret.
  - apply total_bind; [apply Hf |]. intros y.
    apply total_bind; [exact IH |]. intros ys. apply total_ret.
Qed.

(* ------------------------------------------------------------------ *)
(** ** The OCR service never throws, never calls the AI, and reads a text
       that depends on the collaborators only *)

Section ServiceFacts.

Variable env : Env.

Lemma quiet_now : quiet (now env).
Proof.
  intros w. split; [reflexivity |]. exists []. simpl.
  rewrite app_nil_r. split; constructor.
Qed.

Lemma total_now : total (now env).
Proof. intros w. eexists. reflexivity. Qed.

Lemma quiet_sharp buffer ops : quiet (sharp env buffer ops).
Proof. apply quiet_call. reflexivity. Qed.

Lemma quiet_recognize buffer lang options :
  quiet (Tesseract_recognize env buffer lang options).
Proof. apply quiet_call. reflexivity. Qed.

Create HintDb runs.

#[local] Hint Resolve quiet_now total_now quiet_sharp quiet_recognize
  quiet_ret quiet_throw total_ret stateless_ret stateless_throw
  stateless_call : runs.

(** Splits a goal about a computation along its binds and handlers. *)
Ltac along :=
  repeat (intros; cbv zeta;
          lazymatch goal with
          | |- quiet (bind _ _) => apply quiet_bind
          | |- quiet (tryCatch _ _) => apply quiet_tryCatch
          | |- stateless (tryCatch _ _) => apply stateless_tryCatch
          | |- stateless (bind _ _) =>
              first [ apply stateless_seq; [solve [auto with runs] |]
                    | apply stateless_bind ]
          | |- total (tryCatch _ _) => apply total_tryCatch
          | |- total (bind _ _) => apply total_bind
          | |- _ => progress auto with runs
          end).

Ltac branch :=
  intros; cbv zeta;
  match goal with
  | |- context [if ?b then _ else _] => destruct b
  end.

Lemma quiet_tryRotation buffer best angle :
  quiet (tryRotation env buffer best angle).
Proof. unfold tryRotation. along. branch; along. Qed.

Lemma stateless_tryRotation buffer best angle :
  stateless (tryRotation env buffer best angle).
Proof.
  unfold tryRotation, sharp, Tesseract_recognize. along. branch; along.
Qed.

Lemma quiet_detectRotation buffer : quiet (detectRotation env buffer).
Proof.
  unfold detectRotation. along. branch; along.
  - apply quiet_forOf. intros. apply quiet_tryRotation.
  - branch; along.
Qed.

Lemma stateless_detectRotation buffer : stateless (detectRotation env buffer).
Proof.
  unfold detectRotation, Tesseract_recognize. along. branch; along.
  - apply stateless_forOf. intros. apply stateless_tryRotation.
  - branch; along.
Qed.

Lemma total_detectRotation buffer : total (detectRotation env buffer).
Proof. unfold detectRotation. along. Qed.

Lemma quiet_deskewImage buffer : quiet (deskewImage env buffer).
Proof.
  unfold deskewImage. along; [apply quiet_detectRotation |].
  destruct a; along.
Qed.

Lemma stateless_deskewImage buffer : stateless (deskewImage env buffer).
Proof.
  unfold deskewImage. along; [apply stateless_detectRotation |].
  destruct a; unfold sharp; along.
Qed.

Lemma quiet_runMethod buffer m : quiet (runMethod env buffer m).
Proof. unfold runMethod. along. Qed.

Lemma total_runMethod buffer m : total (runMethod env buffer m).
Proof. unfold runMethod. along. Qed.

Lemma stateless_runMethod buffer m : stateless (runMethod env buffer m).
Proof. unfold runMethod, sharp, Tesseract_recognize. along. Qed.

Lemma quiet_reduceBest results : quiet (reduceBest results).
Proof. destruct results; simpl; along. Qed.

Lemma stateless_reduceBest results : stateless (reduceBest results).
Proof. destruct results; simpl; along. Qed.

Lemma quiet_extractTextFromImageBuffer buffer :
  quiet (extractTextFromImageBuffer env buffer).
Proof.
  unfold extractTextFromImageBuffer. along.
  - apply quiet_deskewImage.
  - branch; along.
    + apply quiet_mapAll. intros. apply quiet_runMethod.
    + apply quiet_reduceBest.
Qed.

Lemma total_extractTextFromImageBuffer buffer :
  total (extractTextFromImageBuffer env buffer).
Proof. unfold extractTextFromImageBuffer. along. Qed.

Lemma stateless_extractTextFromImageBuffer buffer :
  stateless (extractTextFromImageBuffer env buffer).
Proof.
  unfold extractTextFromImageBuffer. along.
  - apply stateless_deskewImage.
  - unfold sharp. along.
  - unfold Tesseract_recognize. along.
  - branch; along.
    + apply stateless_mapAll. intros. apply stateless_runMethod.
    + apply stateless_reduceBest.
Qed.

Lemma quiet_extractTextFromPDFBuffer buffer :
  quiet (extractTextFromPDFBuffer env buffer).
Proof.
  unfold extractTextFromPDFBuffer. along.
  - apply quiet_call. reflexivity.
  - branch; along. apply quiet_extractTextFromImageBuffer.
Qed.

Lemma total_extractTextFromPDFBuffer buffer :
  total (extractTextFromPDFBuffer env buffer).
Proof. unfold extractTextFromPDFBuffer. along. Qed.

Lemma stateless_extractTextFromPDFBuffer buffer :
  stateless (extractTextFromPDFBuffer env buffer).
Proof.
  unfold extractTextFromPDFBuffer. along.
  branch; along. apply stateless_extractTextFromImageBuffer.
Qed.

Lemma quiet_documentText buffer mime : quiet (documentText env buffer mime).
Proof.
  unfold documentText. destruct (String.eqb _ _).
  - apply quiet_extractTextFromPDFBuffer.
  - apply quiet_extractTextFromImageBuffer.
Qed.

Lemma total_documentText buffer mime : total (documentText env buffer mime).
Proof.
  unfold documentText. destruct (String.eqb _ _).
  - apply total_extractTextFromPDFBuffer.
  - apply total_extractTextFromImageBuffer.
Qed.

Lemma stateless_documentText buffer mime : stateless (documentText env buffer mime).
Proof.
  unfold documentText. destruct (String.eqb _ _).
  - apply stateless_extractTextFromPDFBuffer.
  - apply stateless_extractTextFromImageBuffer.
Qed.

Lemma quiet_extractWithOCR buffer mime : quiet (extractWithOCR env buffer mime).
Proof.
  unfold extractWithOCR. along.
  - apply (quiet_documentText buffer mime).
  - branch; along. apply quiet_call. reflexivity.
Qed.

Lemma total_extractWithOCR buffer mime : total (extractWithOCR env buffer mime).
Proof. unfold extractWithOCR. along. Qed.

(** *** What [extractWithGemini] returns *)

Lemma extractWithGemini_run buffer mime w :
  exists r w',
    extractWithGemini env buffer mime w = (Return r, w') /\
    log w' = log w /\
    trace w' = trace w ++ [CallGemini buffer mime] /\
    geminiShaped r.
Proof.
  unfold extractWithGemini, bind, tryCatch, now, call, lift, ret, throw, record.
  cbn [fst snd ticks trace log].
  destruct (generateContent env buffer mime) as [reply | e];
    [destruct (JSON_parse env _) as [parsed | e];
     [destruct (parameters parsed) as [ps |] |] |];
    (eexists _, _; split; [reflexivity |]; unfold geminiShaped; cbn;
     repeat split; try reflexivity; eexists; reflexivity).
Qed.

(** *** What [extractWithOCR] returns, from the text it read *)

Lemma scanned_iff (n : nat) :
  ((0 <? n) && (n <? 50)) || (n =? 0) = (n <? 50).
Proof.
  destruct (Nat.ltb_spec 0 n), (Nat.ltb_spec n 50), (Nat.eqb_spec n 0);
    simpl; try reflexivity; lia.
Qed.

Lemma extractWithOCR_run buffer mime w0 text :
  fst (documentText env buffer mime w0) = Return text ->
  forall w, exists r w',
    extractWithOCR env buffer mime w = (Return r, w') /\
    ocrOnly w w' /\ ocrShaped env text r.
Proof.
  intros Htext w.
  pose proof (quiet_extractWithOCR buffer mime w) as Hq.
  destruct (total_extractWithOCR buffer mime w) as [r Hr].
  destruct (extractWithOCR env buffer mime w) as [o w'] eqn:Hrun.
  simpl in Hr, Hq. subst o.
  exists r, w'. split; [reflexivity |]. split; [exact Hq |].
  (* the run, step by step *)
  revert Hrun. unfold extractWithOCR.
  unfold bind at 1. unfold now at 1. fold (tick w).
  unfold tryCatch. unfold bind at 1. fold (documentText env buffer mime).
  pose proof (stateless_documentText buffer mime w0 (tick w)) as Hs.
  rewrite Htext in Hs.
  destruct (documentText env buffer mime (tick w)) as [o w1]. simpl in Hs. subst o.
  fold (trimmedLength text). rewrite scanned_iff.
  unfold ocrShaped, parsedParameters. fold (workingText text).
  unfold bind, call, ret, now.
  destruct (50 <? String.length (workingText text)).
  - destruct (extractHealthParameters env (workingText text)) as [ps | e];
      intros H; injection H as <- _; cbn;
      repeat split; try reflexivity; eexists; reflexivity.
  - intros H; injection H as <- _; cbn;
      repeat split; try reflexivity; eexists; reflexivity.
Qed.

End ServiceFacts.

(* ------------------------------------------------------------------ *)
(** ** The runs of the orchestrator, branch by branch *)

Section OrchestratorRuns.

Variable env : Env.

Ltac run_orchestrator :=
  unfold extractHealthData, attemptGemini, fallbackToOCR, pushAttempt,
    setFinalMethod, setTotalTime, setLogError, withLog, lengthOf;
  unfold bind, tryCatch, modifyLog, now, getLog, ret, throw;
  cbn [fst snd ticks trace log].

Ltac step H :=
  rewrite ?H; cbv beta iota;
  cbn [fst snd ticks trace log attempts finalMethod totalTime logError].

Lemma attemptGemini_sufficient buffer mime st w g w1 ps :
  extractWithGemini env buffer mime w = (Return g, w1) ->
  log w1 = log w ->
  success g = true -> healthParameters g = Some ps -> 0 < List.length ps ->
  attemptGemini env buffer mime st w =
    let l := finished (pushed (log w) (autoAttempt "gemini" g)) "gemini"
               (clock env (ticks w1) - st) in
    (Return (Some {| result := g; extractionLog := l |}),
     withTicksLog w1 (S (ticks w1)) l).
Proof.
  intros Hrun Hlog Hs Hps Hlen. run_orchestrator.
  unfold autoAttempt, finished, pushed, withTicksLog.
  step Hrun. step Hs. step Hps. step Hlog.
  destruct ps; [simpl in Hlen; lia | reflexivity].
Qed.

Lemma attemptGemini_insufficient buffer mime st w g w1 :
  extractWithGemini env buffer mime w = (Return g, w1) ->
  log w1 = log w ->
  success g = false \/ healthParameters g = Some [] ->
  attemptGemini env buffer mime st w =
    (Return None,
     withTicksLog w1 (ticks w1) (pushed (log w) (autoAttempt "gemini" g))).
Proof.
  intros Hrun Hlog Hcase. run_orchestrator.
  unfold autoAttempt, pushed, withTicksLog. step Hrun.
  destruct Hcase as [Hs | Hps].
  - step Hs. step Hlog. reflexivity.
  - step Hps. step Hlog. destruct (success g); reflexivity.
Qed.

Lemma fallbackToOCR_success buffer mime inc st w o w1 ps :
  extractWithOCR env buffer mime w = (Return o, w1) ->
  log w1 = log w ->
  success o = true -> healthParameters o = Some ps ->
  fallbackToOCR env buffer mime inc st w =
    let l := finished (pushed (log w) (autoAttempt "ocr" o)) "ocr"
               (clock env (ticks w1) - st) in
    (Return {| result :=
                 withInsights o
                   (if inc then Some (generateBasicInsights ps) else None);
               extractionLog := l |},
     withTicksLog w1 (S (ticks w1)) l).
Proof.
  intros Hrun Hlog Hs Hps. run_orchestrator.
  unfold autoAttempt, finished, pushed, withTicksLog.
  step Hrun. step Hs. step Hps. step Hlog. destruct inc; reflexivity.
Qed.

Lemma fallbackToOCR_failure buffer mime inc st w o w1 :
  extractWithOCR env buffer mime w = (Return o, w1) ->
  log w1 = log w ->
  success o = false ->
  fallbackToOCR env buffer mime inc st w =
    (Throw "Both Gemini and OCR extraction failed",
     withTicksLog w1 (ticks w1) (pushed (log w) (autoAttempt "ocr" o))).
Proof.
  intros Hrun Hlog Hs. run_orchestrator.
  unfold autoAttempt, pushed, withTicksLog.
  step Hrun. step Hs. step Hlog. reflexivity.
Qed.

Lemma forced_ocr_run buffer mime options w r w1 :
  forced options "ocr" = true ->
  extractWithOCR env buffer mime (start w) = (Return r, w1) ->
  log w1 = emptyLog ->
  extractHealthData env buffer mime options w =
    let l := finished (pushed emptyLog (forcedAttempt "ocr" r)) "ocr"
               (clock env (ticks w1) - clock env (ticks w)) in
    (Return {| result := r; extractionLog := l |},
     withTicksLog w1 (S (ticks w1)) l).
Proof.
  intros Hf Hrun Hlog. run_orchestrator. fold (start w).
  step Hf. step Hrun. step Hlog. reflexivity.
Qed.

Lemma forced_gemini_run buffer mime options w r w1 :
  forced options "ocr" = false ->
  forced options "gemini" = true ->
  extractWithGemini env buffer mime (start w) = (Return r, w1) ->
  log w1 = emptyLog ->
  extractHealthData env buffer mime options w =
    if success r then
      let l := finished (pushed emptyLog (forcedAttempt "gemini" r)) "gemini"
                 (clock env (ticks w1) - clock env (ticks w)) in
      (Return {| result := r; extractionLog := l |},
       withTicksLog w1 (S (ticks w1)) l)
    else
      failed env (withTicksLog w1 (ticks w1)
                (pushed emptyLog (forcedAttempt "gemini" r)))
             (clock env (ticks w)) "Gemini extraction failed (forced mode)".
Proof.
  intros Hf Hg Hrun Hlog. run_orchestrator. fold (start w).
  unfold failed, forcedAttempt, finished, pushed, aborted, withTicksLog.
  step Hf. step Hg. step Hrun. step Hlog. destruct (success r); reflexivity.
Qed.

(** The auto mode, from the two steps it is made of. *)
Lemma auto_run buffer mime options w :
  forced options "ocr" = false ->
  forced options "gemini" = false ->
  extractHealthData env buffer mime options w =
    let st := clock env (ticks w) in
    match
      (if triesGemini env options
       then attemptGemini env buffer mime st (start w)
       else (Return None, start w))
    with
    | (Return (Some r), w1) => (Return r, w1)
    | (Return None, w1) =>
        match fallbackToOCR env buffer mime (wantsInsights options) st w1 with
        | (Return r, w2) => (Return r, w2)
        | (Throw e, w2) => failed env w2 st e
        end
    | (Throw e, w1) => failed env w1 st e
    end.
Proof.
  intros Hf Hg.
  unfold extractHealthData, triesGemini, wantsInsights.
  unfold bind at 1. unfold modifyLog at 1. unfold bind at 1. unfold now at 1.
  cbn [ticks trace log]. fold (start w).
  unfold tryCatch. rewrite Hf, Hg. unfold bind at 1.
  destruct (match preferGemini options with Some b => b | None => true end
            && Text.truthy (GEMINI_API_KEY env)).
  - destruct (attemptGemini env buffer mime (clock env (ticks w)) (start w))
      as [[[r |] | e] w1]; reflexivity.
  - reflexivity.
Qed.

(** *** Every run of [extractHealthData] is one of the six of [Finalized] *)

Section ClassifiedRuns.

Variables (buffer : Buffer) (mime : string) (options : Options) (w : World).

Lemma ocrRun_exists (pre : World) :
  exists text o w1, ocrRun env buffer mime pre text o w1.
Proof.
  destruct (total_documentText env buffer mime (tick pre)) as [text Htext].
  destruct (extractWithOCR_run env buffer mime _ text Htext pre)
    as [o [w1 [Hrun [Hq Hshape]]]].
  exists text, o, w1.
  split; [exact Hrun | split; [exact Htext | split; [exact Hq | exact Hshape]]].
Qed.

(** The OCR fallback of the auto mode, once the world it starts in is
    known. *)
Lemma auto_fallback (pre : World) :
  forced options "ocr" = false ->
  forced options "gemini" = false ->
  beforeOCR env buffer mime options w pre ->
  exists r w',
    match fallbackToOCR env buffer mime (wantsInsights options)
                        (clock env (ticks w)) pre with
    | (Return r0, w2) => (Return r0, w2)
    | (Throw e, w2) => failed env w2 (clock env (ticks w)) e
    end = (Return r, w') /\ Finalized env buffer mime options w r w'.
Proof.
  intros Hf Hg Hpre.
  destruct (ocrRun_exists pre) as [text [o [w1 Hocr]]].
  pose proof Hocr as [Hrun [Htext [[Hlog Htrace] Hshape]]].
  destruct (success o) eqn:Hs.
  - assert (exists ps, healthParameters o = Some ps) as [ps Hps].
    { destruct Hshape as [_ Hshape].
      destruct (parsedParameters env text) as [ps | e].
      - exists ps. apply Hshape.
      - destruct Hshape as [Hfalse _]. congruence. }
    rewrite (fallbackToOCR_success _ _ _ _ _ _ _ _ Hrun Hlog Hs Hps).
    eexists _, _. split; [reflexivity |].
    apply (AutoOCR env buffer mime options w pre text o w1 ps); assumption.
  - rewrite (fallbackToOCR_failure _ _ _ _ _ _ _ Hrun Hlog Hs).
    eexists _, _. split; [reflexivity |].
    apply (AutoFailed env buffer mime options w pre text o w1); assumption.
Qed.

(** [extractHealthData] always returns, and every run is one of the six. *)
Lemma extractHealthData_finalized :
  exists r w',
    extractHealthData env buffer mime options w = (Return r, w') /\
    Finalized env buffer mime options w r w'.
Proof.
  destruct (forced options "ocr") eqn:Hf.
  - destruct (ocrRun_exists (start w)) as [text [o [w1 Hocr]]].
    pose proof Hocr as [Hrun [_ [[Hlog _] _]]].
    rewrite (forced_ocr_run _ _ _ _ _ _ Hf Hrun Hlog).
    eexists _, _. split; [reflexivity |].
    apply (ForcedOCR env buffer mime options w text o w1); assumption.
  - destruct (extractWithGemini_run env buffer mime (start w))
      as [g [w1 [Hrun [Hlog [Htrace Hshape]]]]].
    destruct (forced options "gemini") eqn:Hg.
    + rewrite (forced_gemini_run _ _ _ _ _ _ Hf Hg Hrun Hlog).
      destruct (success g) eqn:Hs.
      * eexists _, _. split; [reflexivity |].
        apply (ForcedGemini env buffer mime options w g w1); assumption.
      * eexists _, _. split; [reflexivity |].
        apply (ForcedGeminiFailed env buffer mime options w g w1); assumption.
    + rewrite (auto_run _ _ _ _ Hf Hg). cbv zeta.
      destruct (triesGemini env options) eqn:Ht.
      * (* the AI first *)
        assert (success g = true /\
                (exists ps, healthParameters g = Some ps /\ 0 < List.length ps)
                \/ (success g = false \/ healthParameters g = Some []))
          as [[Hs [ps [Hps Hlen]]] | Hins].
        { destruct Hshape as [_ [_ Hshape]].
          destruct (success g); [| right; left; reflexivity].
          destruct Hshape as [[ps Hps] _]. destruct ps as [| p ps].
          - right. right. exact Hps.
          - left. split; [reflexivity |]. exists (p :: ps).
            split; [exact Hps | simpl; lia]. }
        -- rewrite (attemptGemini_sufficient _ _ _ _ _ _ _ Hrun Hlog Hs Hps Hlen).
           eexists _, _. split; [reflexivity |].
           apply (AutoGemini env buffer mime options w g w1 ps); assumption.
        -- rewrite (attemptGemini_insufficient _ _ _ _ _ _ Hrun Hlog Hins).
           apply auto_fallback; try assumption.
           right. split; [exact Ht |]. exists g, w1.
           split; [exact Hrun |]. split; [exact Hlog |].
           split; [exact Htrace |]. split; [exact Hshape |].
           split; [exact Hins | reflexivity].
      * apply auto_fallback; try assumption.
        left. split; [exact Ht | reflexivity].
Qed.

End ClassifiedRuns.

End OrchestratorRuns.

(* ------------------------------------------------------------------ *)
(** ** The orchestrator: terminal method, attempts, failures *)

Lemma beforeOCR_log env buffer mime options w pre :
  beforeOCR env buffer mime options w pre ->
  (attempts (log pre) = [] \/
   exists g, attempts (log pre) = [autoAttempt "gemini" g]) /\
  logError (log pre) = None /\
  exists evs, trace pre = trace w ++ evs.
Proof.
  intros [[_ ->] | [_ [g [w1 [_ [_ [Htrace [_ [_ ->]]]]]]]]].
  - split; [left; reflexivity |]. split; [reflexivity |].
    exists []. simpl. rewrite app_nil_r. reflexivity.
  - split; [right; exists g; reflexivity |]. split; [reflexivity |].
    exists [CallGemini buffer mime]. exact Htrace.
Qed.

Lemma ocrRun_method env buffer mime pre text o w1 :
  ocrRun env buffer mime pre text o w1 -> method o = "ocr".
Proof. intros [_ [_ [_ [H _]]]]. exact H. Qed.

Lemma ocrRun_trace env buffer mime pre text o w1 :
  ocrRun env buffer mime pre text o w1 ->
  exists evs, trace w1 = trace pre ++ evs /\
              Forall (fun e => isGemini e = false) evs.
Proof. intros [_ [_ [[_ H] _]]]. exact H. Qed.

Ltac each_attempt :=
  repeat first
    [ apply Forall_nil
    | apply Forall_cons; [first [left; reflexivity | right; reflexivity] |] ].

(** C4.  Every run of [extractHealthData] returns a result whose [method]
    is "gemini" (the AI), "ocr" or "failed".  A forced-OCR request logs
    exactly one attempt, of the OCR method, and makes no call to the AI; a
    forced-AI request logs exactly one attempt, of the AI method, and its
    only collaborator call is the one to the AI; the auto mode logs one or two
    attempts, each of the AI or of the OCR method. *)
Theorem extractHealthData_terminal_method env buffer mime options w :
  exists r w' evs,
    extractHealthData env buffer mime options w = (Return r, w') /\
    trace w' = trace w ++ evs /\
    (method (result r) = "gemini" \/ method (result r) = "ocr" \/
     method (result r) = "failed") /\
    if forced options "ocr" then
      (exists a, attempts (extractionLog r) = [a] /\ attemptMethod a = "ocr") /\
      Forall (fun e => isGemini e = false) evs
    else if forced options "gemini" then
      (exists a, attempts (extractionLog r) = [a] /\ attemptMethod a = "gemini") /\
      evs = [CallGemini buffer mime]
    else
      1 <= List.length (attempts (extractionLog r)) <= 2 /\
      Forall (fun a => attemptMethod a = "gemini" \/ attemptMethod a = "ocr")
             (attempts (extractionLog r)).
Proof.
  destruct (extractHealthData_finalized env buffer mime options w)
    as [r [w' [Hrun Hfin]]].
  exists r, w'.
  destruct Hfin as
    [ text o w1 Hf Hocr l
    | g w1 Hf Hg Hgem Hlog Htrace Hshape Hs l
    | g w1 Hf Hg Hgem Hlog Htrace Hshape Hs message l
    | g w1 ps Hf Hg Ht Hgem Hlog Htrace Hshape Hs Hps Hlen l
    | pre text o w1 ps Hf Hg Hpre Hocr Hs Hps l
    | pre text o w1 Hf Hg Hpre Hocr Hs message l ];
    rewrite ?Hf, ?Hg; cbn [result extractionLog trace withTicksLog].
  - destruct (ocrRun_trace _ _ _ _ _ _ _ Hocr) as [evs [Hevs Hall]].
    exists evs. split; [exact Hrun |]. split; [exact Hevs |].
    split; [right; left; exact (ocrRun_method _ _ _ _ _ _ _ Hocr) |].
    split; [| exact Hall]. eexists. split; reflexivity.
  - exists [CallGemini buffer mime]. split; [exact Hrun |].
    split; [exact Htrace |]. split; [left; apply Hshape |].
    split; [| reflexivity]. eexists. split; reflexivity.
  - exists [CallGemini buffer mime]. split; [exact Hrun |].
    split; [exact Htrace |]. split; [right; right; reflexivity |].
    split; [| reflexivity]. eexists. split; reflexivity.
  - exists [CallGemini buffer mime]. split; [exact Hrun |].
    split; [exact Htrace |]. split; [left; apply Hshape |].
    split; [simpl; lia |]. each_attempt.
  - destruct (ocrRun_trace _ _ _ _ _ _ _ Hocr) as [evs [Hevs _]].
    destruct (beforeOCR_log _ _ _ _ _ _ Hpre) as [Hatt [_ [evs0 Hpretrace]]].
    exists (evs0 ++ evs). split; [exact Hrun |].
    split; [rewrite Hevs, Hpretrace, app_assoc; reflexivity |].
    split; [right; left; exact (ocrRun_method _ _ _ _ _ _ _ Hocr) |].
    subst l. cbn [attempts finished pushed].
    destruct Hatt as [-> | [g ->]]; simpl;
      (split; [lia | each_attempt]).
  - destruct (ocrRun_trace _ _ _ _ _ _ _ Hocr) as [evs [Hevs _]].
    destruct (beforeOCR_log _ _ _ _ _ _ Hpre) as [Hatt [_ [evs0 Hpretrace]]].
    exists (evs0 ++ evs). split; [exact Hrun |].
    split; [rewrite Hevs, Hpretrace, app_assoc; reflexivity |].
    split; [right; right; reflexivity |].
    subst l. cbn [attempts aborted pushed].
    destruct Hatt as [-> | [g ->]]; simpl;
      (split; [lia | each_attempt]).
Qed.



(** C8: the attempt a forced mode records has no processing time, and in
    any mode the attempt of an AI call that failed has none either (the
    failure object of a method carries its time outside [metadata], where
    the orchestrator does not look). *)
Theorem forced_attempts_record_no_time env buffer mime prefer insights w :
  (exists r w' a,
     extractHealthData env buffer mime
       {| forceMethod := Some "ocr"; preferGemini := prefer;
          includeInsights := insights |} w = (Return r, w') /\
     attempts (extractionLog r) = [a] /\ attemptProcessingTime a = None) /\
  (exists r w' a,
     extractHealthData env buffer mime
       {| forceMethod := Some "gemini"; preferGemini := prefer;
          includeInsights := insights |} w = (Return r, w') /\
     attempts (extractionLog r) = [a] /\ attemptProcessingTime a = None) /\
  (exists r w',
     extractHealthData env buffer mime
       {| forceMethod := None; preferGemini := prefer;
          includeInsights := insights |} w = (Return r, w') /\
     Forall (fun a => attemptMethod a = "gemini" -> attemptSuccess a = false ->
                      attemptProcessingTime a = None)
            (attempts (extractionLog r))).
Proof.
  split; [| split].
  - destruct (extractHealthData_finalized env buffer mime
                {| forceMethod := Some "ocr"; preferGemini := prefer;
                   includeInsights := insights |} w)
      as [r [w' [Hrun Hfin]]].
    exists r, w'. inversion Hfin; subst; try discriminate.
    eexists. split; [exact Hrun |]. split; reflexivity.
  - destruct (extractHealthData_finalized env buffer mime
                {| forceMethod := Some "gemini"; preferGemini := prefer;
                   includeInsights := insights |} w)
      as [r [w' [Hrun Hfin]]].
    exists r, w'. inversion Hfin; subst; try discriminate;
      (eexists; split; [exact Hrun |]; split; reflexivity).
  - destruct (extractHealthData_finalized env buffer mime
                {| forceMethod := None; preferGemini := prefer;
                   includeInsights := insights |} w)
      as [r [w' [Hrun Hfin]]].
    exists r, w'. split; [exact Hrun |]. clear Hrun.
    assert (forall g, geminiShaped g ->
              attemptSuccess (autoAttempt "gemini" g) = false ->
              attemptProcessingTime (autoAttempt "gemini" g) = None) as Hgem.
    { intros g [_ [_ Hshape]] Hfalse. simpl in *. rewrite Hfalse in Hshape.
      destruct Hshape as [_ [-> _]]. reflexivity. }
    inversion Hfin; subst; try discriminate; cbn [extractionLog].
    + repeat constructor. intros _. apply Hgem. assumption.
    + match goal with H : beforeOCR _ _ _ _ _ _ |- _ =>
        destruct H as [[_ ->] | [_ [g [w1' [_ [_ [_ [Hshape [_ ->]]]]]]]]]
      end; simpl; repeat constructor;
        try (intros _; apply Hgem; assumption); discriminate.
    + match goal with H : beforeOCR _ _ _ _ _ _ |- _ =>
        destruct H as [[_ ->] | [_ [g [w1' [_ [_ [_ [Hshape [_ ->]]]]]]]]]
      end; simpl; repeat constructor;
        try (intros _; apply Hgem; assumption); discriminate.
Qed.

(** C2: a forced AI extraction that succeeds with no parameter returns a
    result without [requiresManualEntry], which the validation of the
    service itself reports. *)
Theorem forced_gemini_without_parameters :
  exists r w',
    extractHealthData
      (Demo.environment (Some "key") (Demo.reply []) (Throw "not a PDF")
                        Demo.noOCR Demo.noParameters)
      Demo.image "image/png" (Demo.force "gemini") Demo.world
    = (Return r, w') /\
    success (result r) = true /\
    method (result r) = "gemini" /\
    healthParameters (result r) = Some [] /\
    requiresManualEntry (result r) = None /\
    issues (validateExtractionResults r) =
      ["No parameters extracted but manual entry not flagged"].
Proof.
  eexists _, _. split; [vm_compute; reflexivity |].
  repeat split.
Qed.

(** C3.  In the auto mode, with the AI preferred and its key configured,
    the AI is called first, and the final result is the AI's result exactly
    when that call succeeded with at least one health parameter; the run then
    ends with the single AI attempt and no other collaborator call.  In any
    other case (a failed call, or a successful one with no parameter) the
    OCR method is run next, its attempt is logged second, and the final
    result is the OCR result (with the basic insights) if OCR succeeded and
    the failure result otherwise. *)
Theorem auto_mode_uses_sufficient_ai env buffer mime options w :
  forced options "ocr" = false ->
  forced options "gemini" = false ->
  triesGemini env options = true ->
  exists g w1 r w',
    extractWithGemini env buffer mime (start w) = (Return g, w1) /\
    extractHealthData env buffer mime options w = (Return r, w') /\
    (result r = g <-> sufficient g = true) /\
    if sufficient g then
      attempts (extractionLog r) = [autoAttempt "gemini" g] /\
      finalMethod (extractionLog r) = Some "gemini" /\
      trace w' = trace w ++ [CallGemini buffer mime]
    else
      exists pre o w2,
        extractWithOCR env buffer mime pre = (Return o, w2) /\
        attempts (extractionLog r) =
          [autoAttempt "gemini" g; autoAttempt "ocr" o] /\
        if success o then
          exists ps,
            healthParameters o = Some ps /\
            result r =
              withInsights o
                (if wantsInsights options
                 then Some (generateBasicInsights ps) else None)
        else result r = failureResult "Both Gemini and OCR extraction failed".
Proof.
  intros Hf Hg Ht.
  destruct (extractHealthData_finalized env buffer mime options w)
    as [r [w' [Hrun Hfin]]].
  destruct Hfin as
    [ text o w1 Hf' Hocr l
    | g w1 _ Hg' Hgem Hlog Htrace Hshape Hs l
    | g w1 _ Hg' Hgem Hlog Htrace Hshape Hs message l
    | g w1 ps _ _ _ Hgem Hlog Htrace Hshape Hs Hps Hlen l
    | pre text o w2 ps _ _ Hpre Hocr Hs Hps l
    | pre text o w2 _ _ Hpre Hocr Hs message l ];
    try congruence.
  - (* the AI result is used *)
    exists g, w1. eexists _, _. split; [exact Hgem |]. split; [exact Hrun |].
    assert (sufficient g = true) as Hsuff.
    { unfold sufficient. rewrite Hs, Hps.
      destruct ps; [simpl in Hlen; lia | reflexivity]. }
    rewrite Hsuff. cbn [result extractionLog].
    split; [split; reflexivity |].
    split; [reflexivity |]. split; [reflexivity | exact Htrace].
  - (* OCR succeeded after the AI *)
    destruct Hpre as [[Hno _] | [_ [g [w1 [Hgem [_ [_ [Hshape [Hins ->]]]]]]]]];
      [congruence |].
    exists g, w1. eexists _, _. split; [exact Hgem |]. split; [exact Hrun |].
    assert (sufficient g = false) as Hsuff.
    { unfold sufficient. destruct Hins as [-> | ->]; [reflexivity |].
      apply andb_false_r. }
    rewrite Hsuff. cbn [result extractionLog].
    split.
    + split; [| discriminate]. intros Heq.
      pose proof (ocrRun_method _ _ _ _ _ _ _ Hocr) as Hm.
      destruct Hshape as [Hmg _]. rewrite <- Heq in Hmg. simpl in Hmg.
      rewrite Hm in Hmg. discriminate.
    + eexists _, o, w2. split; [apply Hocr |]. split; [reflexivity |].
      rewrite Hs. exists ps. split; [exact Hps | reflexivity].
  - (* OCR failed after the AI *)
    destruct Hpre as [[Hno _] | [_ [g [w1 [Hgem [_ [_ [Hshape [Hins ->]]]]]]]]];
      [congruence |].
    exists g, w1. eexists _, _. split; [exact Hgem |]. split; [exact Hrun |].
    assert (sufficient g = false) as Hsuff.
    { unfold sufficient. destruct Hins as [-> | ->]; [reflexivity |].
      apply andb_false_r. }
    rewrite Hsuff. cbn [result extractionLog].
    split.
    + split; [| discriminate]. intros Heq.
      destruct Hshape as [Hmg _]. rewrite <- Heq in Hmg. discriminate.
    + eexists _, o, w2. split; [apply Hocr |]. split; [reflexivity |].
      rewrite Hs. reflexivity.
Qed.

(** An AI reply with one parameter is used; an AI reply with none sends the
    scanned page to OCR. *)
Lemma auto_mode_uses_sufficient_ai_witness :
  (exists r w',
     extractHealthData
       (Demo.environment (Some "key") (Demo.reply [Demo.rawGlucose])
                         (Throw "not a PDF") Demo.noOCR Demo.noParameters)
       Demo.image "image/png" Demo.auto Demo.world = (Return r, w') /\
     method (result r) = "gemini" /\
     List.length (attempts (extractionLog r)) = 1) /\
  (exists r w',
     extractHealthData
       (Demo.environment (Some "key") (Demo.reply [])
                         (Throw "not a PDF") Demo.noOCR Demo.noParameters)
       Demo.image "image/png" Demo.auto Demo.world = (Return r, w') /\
     method (result r) = "ocr" /\
     List.length (attempts (extractionLog r)) = 2).
Proof.
  split.
  - destruct (auto_mode_uses_sufficient_ai
                (Demo.environment (Some "key") (Demo.reply [Demo.rawGlucose])
                   (Throw "not a PDF") Demo.noOCR Demo.noParameters)
                Demo.image "image/png" Demo.auto Demo.world
                eq_refl eq_refl eq_refl)
      as [g [w1 [r [w' [Hgem [Hrun [Hiff Hcase]]]]]]].
    exists r, w'. split; [exact Hrun |].
    vm_compute in Hgem. injection Hgem as <- <-.
    destruct Hiff as [_ Hres]. rewrite (Hres eq_refl).
    cbn in Hcase. destruct Hcase as [-> _]. split; reflexivity.
  - destruct (auto_mode_uses_sufficient_ai
                (Demo.environment (Some "key") (Demo.reply [])
                   (Throw "not a PDF") Demo.noOCR Demo.noParameters)
                Demo.image "image/png" Demo.auto Demo.world
                eq_refl eq_refl eq_refl)
      as [g [w1 [r [w' [Hgem [Hrun [Hiff Hcase]]]]]]].
    exists r, w'. split; [exact Hrun |].
    vm_compute in Hrun. injection Hrun as <- <-. split; reflexivity.
Defined.

(* ------------------------------------------------------------------ *)
(** ** The document text extractor *)

(** A handler that is never reached can be dropped. *)
Lemma tryCatch_total {A} (m : M A) (h : string -> M A) (w : World) :
  total m -> tryCatch m h w = m w.
Proof.
  intros Hm. unfold tryCatch. destruct (Hm w) as [a Ha].
  destruct (m w) as [[x | e] w1]; simpl in Ha; [reflexivity | discriminate].
Qed.

(** C7 (amended).  A failure of the PDF text-layer parser is not
    propagated: the extractor returns the single-space text after the one
    call to the parser, without running the OCR pipeline.  The OCR pipeline
    runs on the original buffer when the parser returns a text layer of at
    most 100 characters once trimmed; a longer text layer is returned as it
    is. *)
Theorem pdf_parse_failure_yields_blank env buffer w :
  (forall message,
     pdfParse env buffer = Throw message ->
     extractTextFromPDFBuffer env buffer w
     = (Return " ", record (CallPdfParse buffer) w)) /\
  (forall layer,
     pdfParse env buffer = Return layer ->
     String.length (Text.trim layer) <= 100 ->
     extractTextFromPDFBuffer env buffer w
     = extractTextFromImageBuffer env buffer (record (CallPdfParse buffer) w)) /\
  (forall layer,
     pdfParse env buffer = Return layer ->
     100 < String.length (Text.trim layer) ->
     extractTextFromPDFBuffer env buffer w
     = (Return layer, record (CallPdfParse buffer) w)).
Proof.
  split; [| split].
  - intros message H. unfold extractTextFromPDFBuffer, tryCatch, bind, call.
    rewrite H. reflexivity.
  - intros layer H Hlen. unfold extractTextFromPDFBuffer, tryCatch, bind, call.
    rewrite H. apply Nat.ltb_ge in Hlen. rewrite Hlen.
    apply (tryCatch_total (extractTextFromImageBuffer env buffer) (fun _ => ret " ")).
    apply total_extractTextFromImageBuffer.
  - intros layer H Hlen. unfold extractTextFromPDFBuffer, tryCatch, bind, call.
    rewrite H. apply Nat.ltb_lt in Hlen. rewrite Hlen. reflexivity.
Qed.

(** The three cases of C7 on test doubles: a parser that throws, a scanned
    PDF, and a PDF with a text layer. *)
Lemma pdf_parse_failure_yields_blank_witness :
  fst (extractTextFromPDFBuffer
         (Demo.environment None (Demo.reply []) (Throw "Invalid PDF structure")
                           Demo.noOCR Demo.noParameters)
         Demo.image Demo.world) = Return " " /\
  extractTextFromPDFBuffer
    (Demo.environment None (Demo.reply []) (Return "")
                      Demo.noOCR Demo.noParameters)
    Demo.image Demo.world
  = extractTextFromImageBuffer
      (Demo.environment None (Demo.reply []) (Return "")
                        Demo.noOCR Demo.noParameters)
      Demo.image (record (CallPdfParse Demo.image) Demo.world) /\
  fst (extractTextFromPDFBuffer
         (Demo.environment None (Demo.reply []) (Return Demo.prose)
                           Demo.noOCR Demo.noParameters)
         Demo.image Demo.world) = Return Demo.prose.
Proof.
  split; [| split].
  - rewrite (proj1 (pdf_parse_failure_yields_blank
                      (Demo.environment None (Demo.reply [])
                         (Throw "Invalid PDF structure")
                         Demo.noOCR Demo.noParameters)
                      Demo.image Demo.world)
                   "Invalid PDF structure" eq_refl).
    reflexivity.
  - apply (proj1 (proj2 (pdf_parse_failure_yields_blank
                           (Demo.environment None (Demo.reply []) (Return "")
                              Demo.noOCR Demo.noParameters)
                           Demo.image Demo.world))
                 "" eq_refl).
    vm_compute. lia.
  - rewrite (proj2 (proj2 (pdf_parse_failure_yields_blank
                      (Demo.environment None (Demo.reply [])
                         (Return Demo.prose) Demo.noOCR Demo.noParameters)
                      Demo.image Demo.world))
                   Demo.prose eq_refl).
    + reflexivity.
    + vm_compute. lia.
Defined.

(** C7, as stated, fails: when the parser throws, the OCR engine is never
    called; the only collaborator call of the run is the parser's. *)
Lemma pdf_parse_failure_runs_no_ocr :
  extractTextFromPDFBuffer
    (Demo.environment None (Demo.reply []) (Throw "Invalid PDF structure")
       (fun _ => Return ("Glucose: 100 mg/dL  Hemoglobin: 13.5 g/dL  Creatinine: 1.0 mg/dL", 90%Q))
       Demo.noParameters)
    Demo.image Demo.world
  = (Return " ",
     {| ticks := 0; trace := [CallPdfParse Demo.image]; log := emptyLog |}).
Proof. vm_compute. reflexivity. Qed.

(* ------------------------------------------------------------------ *)
(** ** Deskew detection *)


Section Deskew.

Variables (env : Env) (buffer : Buffer).



Variables (text : string) (conf : Q) (b90 b180 b270 : Buffer)
          (r90 r180 r270 : string * Q).

Hypothesis first_pass :
  recognize env buffer "eng" firstPassOptions = Return (text, conf).
Hypothesis short : String.length text < 50.
Hypothesis rotate90 : toBuffer env buffer [Sharp.rotate 90] = Return b90.
Hypothesis rotate180 : toBuffer env buffer [Sharp.rotate 180] = Return b180.
Hypothesis rotate270 : toBuffer env buffer [Sharp.rotate 270] = Return b270.
Hypothesis read90 : recognize env b90 "eng" scanOptions = Return r90.
Hypothesis read180 : recognize env b180 "eng" scanOptions = Return r180.
Hypothesis read270 : recognize env b270 "eng" scanOptions = Return r270.






End Deskew.

(* ------------------------------------------------------------------ *)
(** ** The image pipeline after the deskew step *)

Section Pipeline.

Variable env : Env.

(** A preprocessing variant never throws: it returns what the engine read
    on the transformed buffer, or the empty candidate of score 0. *)
Lemma runMethod_run d m w :
  exists c evs,
    runMethod env d m w = (Return c, extend w (CallSharp d (process m) :: evs)) /\
    (forall b ops, In (CallSharp b ops) evs -> b = d) /\
    (forall pb r,
       toBuffer env d (process m) = Return pb ->
       recognize env pb "eng" variantOptions = Return r ->
       c = {| text := fst r;
              score := Quality.calculateQualityScore (fst r) (snd r);
              candidateMethod := methodName m |}) /\
    ((forall pb, toBuffer env d (process m) = Return pb ->
                 exists e, recognize env pb "eng" variantOptions = Throw e) ->
     text c = "" /\ Quality.total (score c) = 0%Q).
Proof.
  unfold runMethod, tryCatch, bind, sharp, Tesseract_recognize, call, ret,
    record, extend.
  destruct (toBuffer env d (process m)) as [pb | e] eqn:Hpb.
  - destruct (recognize env pb "eng" variantOptions) as [r | e] eqn:Hr;
      cbn [ticks trace log].
    + eexists _, [_]. rewrite <- app_assoc. split; [reflexivity |].
      split; [| split].
      * intros b ops [H | []]. discriminate.
      * intros pb' r' H1 H2. injection H1 as <-. rewrite Hr in H2.
        injection H2 as <-. reflexivity.
      * intros H. destruct (H pb eq_refl) as [e He]. congruence.
    + eexists _, [_]. rewrite <- app_assoc. split; [reflexivity |].
      split; [| split].
      * intros b ops [H | []]. discriminate.
      * intros pb' r' H1 H2. injection H1 as <-. congruence.
      * intros _. split; reflexivity.
  - eexists _, []. split; [reflexivity |]. split; [| split].
    + intros b ops [].
    + intros pb r H. discriminate.
    + intros _. split; reflexivity.
Qed.

Variables (buffer d : Buffer) (w w1 : World).

Hypothesis deskew_run : deskewImage env buffer (tick w) = (Return d, w1).



End Pipeline.

(* ------------------------------------------------------------------ *)
(** ** C5 and C6: rotation and variant selection *)








(* ------------------------------------------------------------------ *)
(** ** C10: when the OCR method succeeds *)






(* ------------------------------------------------------------------ *)
(** ** Further properties of the services *)

(** [requiresManualEntry] is set exactly when the list of health
    parameters is there and empty, in every result but that of a forced AI
    extraction. *)
Theorem manual_entry_iff_no_parameters env buffer mime options w :
  exists r w',
    extractHealthData env buffer mime options w = (Return r, w') /\
    (forced options "gemini" = false ->
     (requiresManualEntry (result r) = Some true <->
      healthParameters (result r) = Some [])).
Proof.
  destruct (extractHealthData_finalized env buffer mime options w)
    as [r [w' [Hrun Hfin]]].
  exists r, w'. split; [exact Hrun |]. intros Hnot.
  assert (forall text o,
            ocrShaped env text o ->
            (requiresManualEntry o = Some true <-> healthParameters o = Some []))
    as Hocr.
  { intros text o [_ Hshape].
    destruct (parsedParameters env text) as [ps | e].
    - destruct Hshape as [_ [-> [-> _]]].
      destruct ps; simpl; split; intros H; congruence.
    - destruct Hshape as [_ [-> [-> _]]]. split; discriminate. }
  destruct Hfin as
    [ text o w1 Hf [_ [_ [_ Hshape]]] l
    | g w1 Hf Hg Hgem Hlog Htrace Hshape Hs l
    | g w1 Hf Hg Hgem Hlog Htrace Hshape Hs message l
    | g w1 ps Hf Hg Ht Hgem Hlog Htrace Hshape Hs Hps Hlen l
    | pre text o w1 ps Hf Hg Hpre [_ [_ [_ Hshape]]] Hs Hps l
    | pre text o w1 Hf Hg Hpre Hocr' Hs message l ];
    try congruence; cbn [result].
  - exact (Hocr text o Hshape).
  - destruct Hshape as [_ [-> _]]. rewrite Hps.
    split; [discriminate |]. intros H. injection H as ->. simpl in Hlen. lia.
  - exact (Hocr text o Hshape).
  - split; reflexivity.
Qed.

(** A preprocessing variant never throws: it yields what the engine read on
    the transformed buffer with its quality score, or, when the transform or
    the engine fails, the empty text with the score 0. *)
Theorem variant_failure_is_contained env d m w :
  exists c w',
    runMethod env d m w = (Return c, w') /\
    candidateMethod c = methodName m /\
    ((exists pb r,
        toBuffer env d (process m) = Return pb /\
        recognize env pb "eng" variantOptions = Return r /\
        text c = fst r /\
        score c = Quality.calculateQualityScore (fst r) (snd r))
     \/
     ((forall pb, toBuffer env d (process m) = Return pb ->
                  exists e, recognize env pb "eng" variantOptions = Throw e) /\
      text c = "" /\
      Quality.total (score c) = 0%Q /\
      Quality.metrics (score c) = None)).
Proof.
  unfold runMethod, tryCatch, bind, sharp, Tesseract_recognize, call, ret.
  destruct (toBuffer env d (process m)) as [pb | e] eqn:Hpb.
  - destruct (recognize env pb "eng" variantOptions) as [r | e] eqn:Hr.
    + eexists _, _. split; [reflexivity |]. split; [reflexivity |].
      left. exists pb, r. repeat split; assumption.
    + eexists _, _. split; [reflexivity |]. split; [reflexivity |].
      right. split; [| repeat split].
      intros pb' H. injection H as <-. exists e. exact Hr.
  - eexists _, _. split; [reflexivity |]. split; [reflexivity |].
    right. split; [| repeat split]. intros pb H. discriminate.
Qed.

(** When the quick scan is accepted its text is returned at once: after the
    quick-scan transform and its reading no other collaborator is called. *)
Theorem quick_scan_short_circuit env buffer w d w1 qb quick :
  deskewImage env buffer (tick w) = (Return d, w1) ->
  toBuffer env d quickScan = Return qb ->
  recognize env qb "eng" scanOptions = Return quick ->
  quickScanAccepted (Quality.calculateQualityScore (fst quick) (snd quick)) = true ->
  extractTextFromImageBuffer env buffer w
  = (Return (fst quick),
     tick (extend w1 [CallSharp d quickScan; CallRecognize qb "eng" scanOptions])).
Proof.
  intros Hdeskew Hqb Hquick Hacc.
  unfold extractTextFromImageBuffer.
  unfold bind at 1. unfold now at 1. fold (tick w). unfold tryCatch.
  rewrite (bind_Return _ _ _ _ _ Hdeskew).
  unfold bind at 1. unfold sharp, call. rewrite Hqb.
  unfold bind at 1. unfold Tesseract_recognize, call. rewrite Hquick.
  cbv zeta. rewrite Hacc.
  unfold bind, now, ret, record, tick, extend. cbn [ticks trace log].
  rewrite <- app_assoc. reflexivity.
Qed.

(** A report that names every keyword with its unit is accepted by the
    quick scan. *)
Lemma quick_scan_short_circuit_witness :
  fst (extractTextFromImageBuffer
         (Demo.environment None (Demo.reply []) (Throw "not a PDF")
                           (Demo.reads Demo.fullReport 90) Demo.noParameters)
         Demo.image Demo.world)
  = Return Demo.fullReport.
Proof.
  rewrite (quick_scan_short_circuit
             (Demo.environment None (Demo.reply []) (Throw "not a PDF")
                               (Demo.reads Demo.fullReport 90) Demo.noParameters)
             Demo.image Demo.world Demo.image
             (extend (tick Demo.world)
                     [CallRecognize Demo.image "eng" firstPassOptions])
             (Byte.x10 :: Demo.image) (Demo.fullReport, 90%Q)
             eq_refl eq_refl eq_refl eq_refl).
  reflexivity.
Defined.

(** When the first OCR pass of the deskew detection throws, the buffer is
    kept and nothing else is tried. *)
Theorem deskew_failure_keeps_buffer env buffer w message :
  recognize env buffer "eng" firstPassOptions = Throw message ->
  deskewImage env buffer w
  = (Return buffer, extend w [CallRecognize buffer "eng" firstPassOptions]).
Proof.
  intros Hfirst.
  unfold deskewImage, detectRotation, tryCatch, bind, Tesseract_recognize, call.
  rewrite Hfirst. reflexivity.
Qed.

Lemma deskew_failure_keeps_buffer_witness :
  fst (deskewImage
         (Demo.environment None (Demo.reply []) (Throw "not a PDF")
                           (fun _ => Throw "Error attempting to read image")
                           Demo.noParameters)
         Demo.image Demo.world)
  = Return Demo.image.
Proof.
  rewrite (deskew_failure_keeps_buffer
             (Demo.environment None (Demo.reply []) (Throw "not a PDF")
                               (fun _ => Throw "Error attempting to read image")
                               Demo.noParameters)
             Demo.image Demo.world "Error attempting to read image" eq_refl).
  reflexivity.
Defined.

(* ------------------------------------------------------------------ *)
(** ** The sanitizers of the AI reply and the report schema *)

Section Sanitizers.

Import Text.

Lemma startsWith_includes (s p : string) :
  startsWith s p = true -> includes s p = true.
Proof. intros H. destruct s; cbn [includes]; rewrite H; reflexivity. Qed.

(** A text that contains [c p] contains [p]. *)
Lemma includes_tail (s : string) (c : ascii) (p : string) :
  includes s (String c p) = true -> includes s p = true.
Proof.
  induction s as [| a s IH]; simpl.
  - discriminate.
  - intros H. apply orb_true_iff in H. destruct H as [H | H].
    + apply andb_true_iff in H. destruct H as [_ H].
      apply startsWith_includes in H. rewrite H. apply orb_true_r.
    + rewrite (IH H). apply orb_true_r.
Qed.

Lemma includes_length (s p : string) :
  includes s p = true -> String.length p <= String.length s.
Proof.
  assert (forall p s, startsWith s p = true -> String.length p <= String.length s)
    as Hstart.
  { clear. induction p as [| a p IH]; intros [| b s]; simpl; intros H;
      try lia; try discriminate.
    apply andb_true_iff in H. destruct H as [_ H]. apply IH in H. lia. }
  induction s as [| a s IH]; cbn [includes]; intros H.
  - rewrite orb_false_r in H. exact (Hstart _ _ H).
  - apply orb_true_iff in H. destruct H as [H | H].
    + exact (Hstart _ (String a s) H).
    + apply IH in H. cbn [String.length]. lia.
Qed.

Lemma sanitizeStatus_allowed (s : option string) :
  Schema.allows Schema.status (sanitizeStatus s) = true.
Proof.
  unfold sanitizeStatus. cbv zeta.
  repeat match goal with
         | |- context [if ?b then _ else _] => destruct b
         end; reflexivity.
Qed.

Lemma sanitizeSeverity_allowed (s : option string) :
  Schema.allows Schema.severity (sanitizeSeverity s) = true.
Proof.
  unfold sanitizeSeverity. cbv zeta.
  repeat match goal with
         | |- context [if ?b then _ else _] => destruct b
         end; reflexivity.
Qed.

Lemma sanitizeRiskLevel_allowed (s : option string) :
  Schema.allows Schema.riskLevel (sanitizeRiskLevel s) = true.
Proof.
  unfold sanitizeRiskLevel. cbv zeta.
  repeat match goal with
         | |- context [if ?b then _ else _] => destruct b
         end; reflexivity.
Qed.

End Sanitizers.

(** Whatever the AI wrote, the sanitized status, severity and risk level
    pass the [enum] validators of the report schema. *)
Theorem sanitized_values_fit_schema (status severity riskLevel : option string) :
  Schema.allows Schema.status (sanitizeStatus status) = true /\
  Schema.allows Schema.severity (sanitizeSeverity severity) = true /\
  Schema.allows Schema.riskLevel (sanitizeRiskLevel riskLevel) = true.
Proof.
  split; [apply sanitizeStatus_allowed |].
  split; [apply sanitizeSeverity_allowed | apply sanitizeRiskLevel_allowed].
Qed.

(** The test for "normal" comes first and "abnormal" contains "normal": a
    status that mentions "abnormal" is stored as "Normal", and "Abnormal" is
    only ever returned for a status that mentions "diagnosed". *)
Theorem abnormal_status_is_read_as_normal (s : string) :
  let normalized := Text.trim (Text.toLowerCase s) in
  (Text.includes normalized "abnormal" = true ->
   sanitizeStatus (Some s) = "Normal") /\
  (sanitizeStatus (Some s) = "Abnormal" ->
   Text.includes normalized "diagnosed" = true /\
   Text.includes normalized "abnormal" = false).
Proof.
  intros normalized.
  assert (Text.includes normalized "abnormal" = true ->
          Text.includes normalized "normal" = true) as Hsub.
  { intros H. apply includes_tail in H. apply includes_tail in H. exact H. }
  assert (sanitizeStatus (Some s) =
          if negb (Text.truthy (Some s)) then "Unknown"
          else if Text.includes normalized "normal"
                  || String.eqb normalized "within range" then "Normal"
          else if Text.includes normalized "high"
                  || Text.includes normalized "elevated" then "High"
          else if Text.includes normalized "low"
                  || Text.includes normalized "decreased" then "Low"
          else if Text.includes normalized "abnormal"
                  || Text.includes normalized "diagnosed" then "Abnormal"
          else if Text.includes normalized "present" then "Present"
          else if Text.includes normalized "absent"
                  || Text.includes normalized "none" then "Absent"
          else "Unknown") as ->.
  { destruct s; reflexivity. }
  split.
  - intros H. rewrite (Hsub H).
    destruct s as [| c s]; [discriminate H | reflexivity].
  - destruct (Text.includes normalized "abnormal") eqn:Habn.
    + rewrite (Hsub eq_refl). cbn [orb].
      destruct (negb (Text.truthy (Some s))); discriminate.
    + cbn [orb].
      repeat match goal with
             | |- context [if ?b then _ else _] => destruct b eqn:?
             end; try discriminate.
      intros _. split; reflexivity.
Qed.

Lemma abnormal_status_is_read_as_normal_witness :
  sanitizeStatus (Some "Abnormal") = "Normal".
Proof.
  exact (proj1 (abnormal_status_is_read_as_normal "Abnormal") eq_refl).
Defined.

(* ------------------------------------------------------------------ *)
(** ** Basic insights, validation and statistics *)

(** An outlier and a positive finding never come from the same parameter. *)
Lemma outliers_and_findings (ps : list HealthParameter) :
  List.length (filter isOutlier ps)
  + List.length (filter (fun p => String.eqb (status p) "Normal") ps)
  <= List.length ps.
Proof.
  induction ps as [| p ps IH]; [reflexivity |].
  cbn [filter]. unfold isOutlier at 1.
  destruct (String.eqb_spec (status p) "Normal") as [-> | _];
    cbn [String.eqb Ascii.eqb Bool.eqb orb andb List.length].
  - lia.
  - destruct (_ || _); cbn [List.length]; lia.
Qed.

(** The insights computed without the AI: the risk level is "Moderate"
    with more than two parameters out of range and "Low" otherwise, never
    "High"; every outlier names a parameter of status "High" or "Low" and
    has the severity "Unknown"; outliers and positive findings together are
    no more than the parameters; there is no recommendation exactly when
    there is no parameter. *)
Theorem basic_insights_bounds (ps : list HealthParameter) :
  let basic := generateBasicInsights ps in
  (riskLevel basic = "Moderate" <-> 2 < List.length (outliers basic)) /\
  (riskLevel basic = "Low" <-> List.length (outliers basic) <= 2) /\
  Forall (fun o => severity o = "Unknown" /\
                   exists p, In p ps /\ outlierParameter o = name p /\
                             (status p = "High" \/ status p = "Low"))
         (outliers basic) /\
  List.length (outliers basic) + List.length (positiveFindings basic)
  <= List.length ps /\
  (recommendations basic = [] <-> ps = []).
Proof.
  intros basic. subst basic. unfold generateBasicInsights.
  cbn [riskLevel outliers positiveFindings recommendations].
  rewrite !length_map.
  split; [| split; [| split; [| split]]].
  - destruct (Nat.ltb_spec 2 (List.length (filter isOutlier ps))) as [H | H].
    + split; [intros _; exact H | reflexivity].
    + split; [| lia]. destruct (0 <? _); discriminate.
  - destruct (Nat.ltb_spec 2 (List.length (filter isOutlier ps))) as [H | H].
    + split; [discriminate | lia].
    + split; [intros _; exact H |]. destruct (0 <? _); reflexivity.
  - apply Forall_forall. intros o Ho. apply in_map_iff in Ho.
    destruct Ho as [p [<- Hp]]. apply filter_In in Hp. destruct Hp as [Hin Hout].
    cbn [severity outlierParameter]. split; [reflexivity |].
    exists p. split; [exact Hin |]. split; [reflexivity |].
    unfold isOutlier in Hout. apply orb_true_iff in Hout.
    destruct Hout as [H | H]; apply String.eqb_eq in H; [left | right]; exact H.
  - apply outliers_and_findings.
  - destruct ps as [| p ps]; [split; reflexivity |].
    split; [| discriminate].
    destruct (0 <? List.length (filter isOutlier (p :: ps))); discriminate.
Qed.



(** The statistics of a run of the orchestrator: the attempted methods
    are the OCR alone, the AI alone, or the AI and then the OCR; unless the
    extraction failed, the method reported is the last one attempted; and
    insights are reported only for the AI, or for an OCR result of the
    automatic mode when insights were asked for. *)
Theorem stats_of_a_run env buffer mime options w :
  exists r w',
    extractHealthData env buffer mime options w = (Return r, w') /\
    let stats := getExtractionStats r in
    (Stats.attemptedMethods stats = ["ocr"] \/
     Stats.attemptedMethods stats = ["gemini"] \/
     Stats.attemptedMethods stats = ["gemini"; "ocr"]) /\
    (Stats.method stats = "failed" \/
     Stats.method stats = last (Stats.attemptedMethods stats) "") /\
    (Stats.hasInsights stats = true ->
     Stats.method stats = "gemini" \/
     Stats.method stats = "ocr" /\ forced options "ocr" = false /\
     wantsInsights options = true).
Proof.
  destruct (extractHealthData_finalized env buffer mime options w)
    as [r [w' [Hrun Hfin]]].
  exists r, w'. split; [exact Hrun |].
  destruct Hfin as
    [ text o w1 Hf Hocr l
    | g w1 Hf Hg Hgem Hlog Htrace Hshape Hs l
    | g w1 Hf Hg Hgem Hlog Htrace Hshape Hs message l
    | g w1 ps Hf Hg Ht Hgem Hlog Htrace Hshape Hs Hps Hlen l
    | pre text o w1 ps Hf Hg Hpre' Hocr Hs Hps l
    | pre text o w1 Hf Hg Hpre' Hocr Hs message l ];
    unfold getExtractionStats; cbv zeta;
    cbn [Stats.attemptedMethods Stats.method Stats.hasInsights result
         extractionLog].
  - subst l. cbn. rewrite (ocrRun_method _ _ _ _ _ _ _ Hocr).
    split; [left; reflexivity |]. split; [right; reflexivity |].
    destruct Hocr as [_ [_ [_ [_ Hshape]]]].
    destruct (parsedParameters env text);
      [destruct Hshape as [_ [_ [_ [_ [_ [_ [_ ->]]]]]]]
      | destruct Hshape as [_ [_ [_ [_ [_ ->]]]]]]; discriminate.
  - subst l. cbn. destruct Hshape as [-> _].
    split; [right; left; reflexivity |]. split; [right; reflexivity |].
    intros _. left. reflexivity.
  - subst l. cbn.
    split; [right; left; reflexivity |]. split; [left; reflexivity |].
    discriminate.
  - subst l. cbn. destruct Hshape as [-> _].
    split; [right; left; reflexivity |]. split; [right; reflexivity |].
    intros _. left. reflexivity.
  - subst l. pose proof (ocrRun_method _ _ _ _ _ _ _ Hocr) as Hm.
    apply beforeOCR_log in Hpre'. destruct Hpre' as [[Ha | [g Ha]] _];
      cbn [attempts finished pushed]; rewrite Ha; cbn; rewrite Hm.
    + split; [left; reflexivity |]. split; [right; reflexivity |].
      destruct (wantsInsights options); [| discriminate].
      intros _. right. repeat split. exact Hf.
    + split; [right; right; reflexivity |]. split; [right; reflexivity |].
      destruct (wantsInsights options); [| discriminate].
      intros _. right. repeat split. exact Hf.
  - subst l.
    apply beforeOCR_log in Hpre'. destruct Hpre' as [[Ha | [g Ha]] _];
      cbn [attempts aborted pushed]; rewrite Ha; cbn.
    + split; [left; reflexivity |]. split; [left; reflexivity |]. discriminate.
    + split; [right; right; reflexivity |]. split; [left; reflexivity |].
      discriminate.
Qed.

(** The log returned with a result agrees with it: [finalMethod] is the
    method of the result unless the extraction failed; on failure
    [finalMethod] is not set and the error of the log is the error of the
    result.  The log left in the world is the log returned. *)
Theorem log_agrees_with_result env buffer mime options w :
  exists r w',
    extractHealthData env buffer mime options w = (Return r, w') /\
    log w' = extractionLog r /\
    (method (result r) <> "failed" /\
     finalMethod (extractionLog r) = Some (method (result r)) /\
     logError (extractionLog r) = None
     \/
     method (result r) = "failed" /\
     finalMethod (extractionLog r) = None /\
     (exists message, error (result r) = Some message /\
                      logError (extractionLog r) = Some message)).
Proof.
  destruct (extractHealthData_finalized env buffer mime options w)
    as [r [w' [Hrun Hfin]]].
  exists r, w'. split; [exact Hrun |].
  destruct Hfin as
    [ text o w1 Hf Hocr l
    | g w1 Hf Hg Hgem Hlog Htrace Hshape Hs l
    | g w1 Hf Hg Hgem Hlog Htrace Hshape Hs message l
    | g w1 ps Hf Hg Ht Hgem Hlog Htrace Hshape Hs Hps Hlen l
    | pre text o w1 ps Hf Hg Hpre Hocr Hs Hps l
    | pre text o w1 Hf Hg Hpre Hocr Hs message l ];
    (split; [reflexivity |]); subst l; cbn [result extractionLog].
  - left. rewrite (ocrRun_method _ _ _ _ _ _ _ Hocr).
    split; [discriminate |]. split; reflexivity.
  - left. destruct Hshape as [-> _].
    split; [discriminate |]. split; reflexivity.
  - right. split; [reflexivity |]. split; [reflexivity |].
    exists message. split; reflexivity.
  - left. destruct Hshape as [-> _].
    split; [discriminate |]. split; reflexivity.
  - left. cbn [withInsights method finished finalMethod logError pushed].
    rewrite (ocrRun_method _ _ _ _ _ _ _ Hocr).
    apply beforeOCR_log in Hpre. destruct Hpre as [_ [-> _]].
    split; [discriminate |]. split; reflexivity.
  - right. cbn [failureResult method aborted finalMethod logError pushed error].
    split; [reflexivity |].
    split; [| exists message; split; reflexivity].
    destruct Hpre as [[_ ->] | [_ [g [w2 [_ [_ [_ [_ [_ ->]]]]]]]]]; reflexivity.
Qed.



(* ------------------------------------------------------------------ *)
(** ** What the text extractors hand over *)

Section RecognizedText.

Import Text.

Lemma toLowerCase_length (s : string) :
  String.length (toLowerCase s) = String.length s.
Proof. induction s as [| c s IH]; simpl; [reflexivity | rewrite IH; reflexivity]. Qed.

Lemma dropSpaces_length (s : string) :
  String.length (dropSpaces s) <= String.length s.
Proof.
  induction s as [| c s IH]; simpl; [lia |].
  destruct (isSpace c); simpl; lia.
Qed.

Lemma dropSpacesEnd_length (s : string) :
  String.length (dropSpacesEnd s) <= String.length s.
Proof.
  induction s as [| c s IH]; simpl; [lia |].
  destruct (dropSpacesEnd s); [destruct (isSpace c) |]; simpl in *; lia.
Qed.

Lemma trim_length (s : string) :
  String.length (trim s) <= String.length s.
Proof.
  unfold trim. pose proof (dropSpacesEnd_length (dropSpaces s)).
  pose proof (dropSpaces_length s). lia.
Qed.

(** Four of the five keywords cannot be found without "cholesterol" or
    "triglyceride", so a text that the quick scan accepts has more than 10
    code units. *)
Lemma accepted_is_long (text : string) (conf : Q) :
  quickScanAccepted (Quality.calculateQualityScore text conf) = true ->
  10 < String.length text.
Proof.
  unfold quickScanAccepted, Quality.calculateQualityScore.
  cbn [Quality.metrics Quality.total]. intros H.
  apply andb_true_iff in H. destruct H as [_ H].
  unfold Quality.measure in H. cbn [Quality.medicalTermCount] in H.
  unfold Quality.medicalTerms in H. cbn [filter] in H.
  rewrite <- (toLowerCase_length text).
  destruct (includes (toLowerCase text) "cholesterol") eqn:Hc.
  - apply includes_length in Hc. simpl in Hc. lia.
  - destruct (includes (toLowerCase text) "triglyceride") eqn:Ht.
    + apply includes_length in Ht. simpl in Ht. lia.
    + destruct (includes (toLowerCase text) "glucose"),
               (includes (toLowerCase text) "hemoglobin"),
               (includes (toLowerCase text) "creatinine");
        discriminate H.
Qed.

Variable env : Env.

Lemma image_text_blank_or_long buffer w :
  exists t w',
    extractTextFromImageBuffer env buffer w = (Return t, w') /\
    (t = " " \/ 10 < String.length t).
Proof.
  unfold extractTextFromImageBuffer.
  unfold bind at 1. unfold now at 1. fold (tick w). unfold tryCatch.
  destruct (deskewImage env buffer (tick w)) as [[d | e] w1] eqn:Hd.
  - rewrite (bind_Return _ _ _ _ _ Hd).
    unfold bind at 1. unfold sharp, call.
    destruct (toBuffer env d quickScan) as [qb | e].
    + unfold bind at 1. unfold Tesseract_recognize, call.
      destruct (recognize env qb "eng" scanOptions) as [quick | e].
      * cbv zeta.
        destruct (quickScanAccepted _) eqn:Hacc.
        -- eexists _, _. split; [reflexivity |]. right.
           exact (accepted_is_long _ _ Hacc).
        -- unfold PREPROCESSING_METHODS, firstn, mapAll.
           match goal with
           | |- context [record (CallRecognize qb "eng" scanOptions) ?W0] =>
               set (W := record (CallRecognize qb "eng" scanOptions) W0)
           end.
           destruct (runMethod_run env d highQualityMedical W)
             as [c1 [evs1 [Hrun1 _]]].
           destruct (runMethod_run env d adaptiveCLAHE
                       (extend W (CallSharp d (process highQualityMedical) :: evs1)))
             as [c2 [evs2 [Hrun2 _]]].
           unfold bind at 1. unfold bind at 1. rewrite Hrun1.
           unfold bind at 1. unfold bind at 1. rewrite Hrun2.
           eexists _, _. split; [reflexivity |].
           destruct (Nat.ltb_spec 10 (String.length (text (fold_left better [c2] c1))));
             [right; assumption | left; reflexivity].
      * eexists _, _. split; [reflexivity | left; reflexivity].
    + eexists _, _. split; [reflexivity | left; reflexivity].
  - rewrite (bind_Throw _ _ _ _ _ Hd).
    eexists _, _. split; [reflexivity | left; reflexivity].
Qed.

Lemma pdf_text_blank_or_long buffer w :
  exists t w',
    extractTextFromPDFBuffer env buffer w = (Return t, w') /\
    (t = " " \/ 10 < String.length t).
Proof.
  unfold extractTextFromPDFBuffer, tryCatch.
  unfold bind at 1. unfold call.
  destruct (pdfParse env buffer) as [dataText | e].
  - destruct (Nat.ltb_spec 100 (String.length (trim dataText))) as [Hlong | _].
    + eexists _, _. split; [reflexivity |]. right.
      pose proof (trim_length dataText). lia.
    + destruct (image_text_blank_or_long buffer (record (CallPdfParse buffer) w))
        as [t [w' [-> Ht]]].
      exists t, w'. split; [reflexivity | exact Ht].
  - eexists _, _. split; [reflexivity | left; reflexivity].
Qed.

End RecognizedText.

(** The text extractors always return, and what they return is the single
    space that stands for "no text" or a text of more than 10 code units:
    the quick scan is only accepted on a text that names four of the five
    keywords, the variants on a text longer than 10, the text layer of a
    PDF on more than 100 code units once trimmed. *)
Theorem recognized_text_blank_or_long env buffer w :
  (exists t w',
     extractTextFromImageBuffer env buffer w = (Return t, w') /\
     (t = " " \/ 10 < String.length t)) /\
  (exists t w',
     extractTextFromPDFBuffer env buffer w = (Return t, w') /\
     (t = " " \/ 10 < String.length t)).
Proof.
  split; [apply image_text_blank_or_long | apply pdf_text_blank_or_long].
Qed.

(* ------------------------------------------------------------------ *)
(** ** What a successful AI extraction returns *)

Lemma orElse_nonempty (a : option string) (b : string) :
  b <> "" -> Text.orElse a b <> "".
Proof. intros Hb. destruct a as [[| c s] |]; simpl; [exact Hb | discriminate | exact Hb]. Qed.

Lemma sanitizeParameter_sanitized env (p : RawParameter) :
  sanitized (sanitizeParameter env p).
Proof.
  unfold sanitized, sanitizeParameter.
  cbn [name status textValue parameterType value].
  split; [apply orElse_nonempty; discriminate |].
  split; [apply sanitizeStatus_allowed |].
  split.
  - destruct (isTextual (rawParameterType p)).
    + intros H. injection H as H. revert H. apply orElse_nonempty.
      apply (orElse_nonempty (Some (stringOf env (rawValue p))) "N/A").
      discriminate.
    + destruct (rawTextValue p) as [[| c s] |]; simpl; discriminate.
  - intros Htype.
    assert (isTextual (rawParameterType p) = true) as ->.
    { destruct (rawParameterType p) as [[| c s] |]; simpl in Htype.
      - destruct Htype as [H | [H | H]]; discriminate H.
      - unfold isTextual.
        destruct Htype as [-> | [-> | ->]]; reflexivity.
      - destruct Htype as [H | [H | H]]; discriminate H. }
    split; [reflexivity | eexists; reflexivity].
Qed.

(** On success, [extractWithGemini] returns the sanitized parameters, their
    number in the metadata, and insights whose risk level and severities
    pass the schema. *)
Theorem gemini_success_invariants env buffer mime w r w' :
  extractWithGemini env buffer mime w = (Return r, w') ->
  success r = true ->
  exists ps md i,
    healthParameters r = Some ps /\
    metadata r = Some md /\
    aiInsights r = Some (Some i) /\
    parameterCount md = List.length ps /\
    Forall sanitized ps /\
    Schema.allows Schema.riskLevel (riskLevel i) = true /\
    Forall (fun o => Schema.allows Schema.severity (severity o) = true)
           (outliers i).
Proof.
  unfold extractWithGemini, bind, tryCatch, now, call, lift, ret, throw, record.
  cbn [fst snd ticks trace log].
  destruct (generateContent env buffer mime) as [reply | e];
    [destruct (JSON_parse env _) as [parsed | e];
     [destruct (parameters parsed) as [raw |] |] |];
    intros Hrun Hs; injection Hrun as <- _; try discriminate Hs.
  eexists _, _, _. cbn [healthParameters metadata aiInsights parameterCount].
  split; [reflexivity |]. split; [reflexivity |]. split; [reflexivity |].
  split; [reflexivity |]. split; [| split].
  - apply Forall_forall. intros p Hp. apply in_map_iff in Hp.
    destruct Hp as [raw0 [<- _]]. apply sanitizeParameter_sanitized.
  - apply sanitizeRiskLevel_allowed.
  - apply Forall_forall. intros o Ho. unfold sanitizeInsights in Ho.
    cbn [outliers] in Ho. apply in_map_iff in Ho.
    destruct Ho as [raw0 [<- _]]. apply sanitizeSeverity_allowed.
Qed.

(** A reply with a blood group, a parameter of a categorical type. *)
Lemma gemini_success_invariants_witness :
  exists r w' ps,
    extractWithGemini (Fixtures.aiOnly [Fixtures.rawBloodGroup]) Demo.image
                      "image/png" Demo.world = (Return r, w') /\
    healthParameters r = Some ps /\ Forall sanitized ps.
Proof.
  eexists _, _.
  destruct (gemini_success_invariants
              (Fixtures.aiOnly [Fixtures.rawBloodGroup]) Demo.image "image/png"
              Demo.world _ _ eq_refl eq_refl)
    as [ps [md [i [Hps [_ [_ [_ [Hall _]]]]]]]].
  exists ps. split; [reflexivity |]. split; [exact Hps | exact Hall].
Defined.

Lemma append_empty (s : string) : (s ++ "")%string = s.
Proof. induction s as [| c s IH]; simpl; [reflexivity | rewrite IH; reflexivity]. Qed.

(** A text without a backquote is copied as it is. *)
Lemma removeFence_plain (fence body rest : string) :
  Text.includes body "`" = false ->
  Text.startsWith fence "`" = true ->
  removeFence fence (body ++ rest) 0 = (body ++ removeFence fence rest 0)%string.
Proof.
  intros Hbody Hfence.
  induction body as [| c body IH]; [reflexivity |].
  cbn [Text.includes] in Hbody. apply orb_false_iff in Hbody.
  destruct Hbody as [Hc Hbody].
  cbn [String.append removeFence].
  assert (Text.startsWith (String c (body ++ rest)) fence = false) as ->.
  { destruct fence as [| f fence]; [discriminate Hfence |].
    assert (forall t, Text.startsWith t "" = true) as Hempty
        by (intros [| a t]; reflexivity).
    cbn [Text.startsWith] in *. rewrite Hempty in Hfence, Hc.
    rewrite andb_true_r in Hfence, Hc. apply Ascii.eqb_eq in Hfence. subst f.
    rewrite Hc. reflexivity. }
  rewrite (IH Hbody). reflexivity.
Qed.

(** A reply wrapped in a markdown fence, with or without the "json" tag, is
    unwrapped to what stands between the line of the opening fence and the
    closing fence, as long as that holds no backquote. *)
Theorem fenced_reply_is_unwrapped (body : string) :
  Text.includes body "`" = false ->
  stripFences ("```json" ++ Fixtures.newline ++ body ++ "```") = body /\
  stripFences ("```" ++ Fixtures.newline ++ body ++ "```") = body.
Proof.
  intros Hbody. unfold stripFences, Fixtures.newline. split.
  - cbn [String.append Text.startsWith Ascii.eqb Bool.eqb andb].
    cbn [removeFence Text.startsWith Ascii.eqb Bool.eqb andb String.length
         String.get Nat.sub].
    rewrite (removeFence_plain "```json" body "```" Hbody eq_refl).
    cbn [removeFence Text.startsWith Ascii.eqb Bool.eqb andb String.length].
    rewrite (removeFence_plain "```" body "```" Hbody eq_refl).
    cbn. apply append_empty.
  - cbn [String.append Text.startsWith Ascii.eqb Bool.eqb andb].
    cbn [removeFence Text.startsWith Ascii.eqb Bool.eqb andb String.length
         String.get Nat.sub].
    rewrite (removeFence_plain "```" body "```" Hbody eq_refl).
    cbn. apply append_empty.
Qed.

Lemma fenced_reply_is_unwrapped_witness :
  stripFences ("```json" ++ Fixtures.newline ++ "{}" ++ "```") = "{}".
Proof.
  exact (proj1 (fenced_reply_is_unwrapped "{}" eq_refl)).
Defined.

(* ------------------------------------------------------------------ *)
(** ** The report model *)

Module ReportFacts.

Import Report.

(** Case analysis on the tests of a conditional, innermost first. *)
Ltac tests :=
  repeat match goal with
         | |- context [if ?b then _ else _] =>
             lazymatch b with
             | context [if _ then _ else _] => fail
             | _ => destruct b eqn:?
             end
         end.

(** The quality grade of a stored report.  The score never exceeds 100.
    The grade is "Excellent" exactly for a report with parameters that
    comes from the AI and has insights or complete parameters, or comes
    from the OCR and has both; a report of the AI is never "Poor"; and a
    report without parameters counts as having complete parameters. *)
Theorem extraction_grade_rules (this : t) :
  let quality := getExtractionQuality this in
  score quality <= 100 /\
  (grade quality = "Excellent" <->
   hasParameters quality = true /\
   (method quality = "gemini" /\
    (hasInsights quality = true \/ parametersComplete quality = true)
    \/
    method quality = "ocr" /\
    hasInsights quality = true /\ parametersComplete quality = true)) /\
  (method quality = "gemini" -> grade quality <> "Poor") /\
  (hasParameters quality = false -> parametersComplete quality = true).
Proof.
  unfold getExtractionQuality. cbv zeta.
  cbn [score grade hasParameters method hasInsights parametersComplete].
  assert (hasParameters_complete :
            (0 <? List.length (healthParameters this)) = false ->
            forallb (fun p => negb (String.eqb (name p) "")) (healthParameters this)
            = true).
  { destruct (healthParameters this); [reflexivity | discriminate]. }
  revert hasParameters_complete.
  generalize (forallb (fun p => negb (String.eqb (name p) ""))
                      (healthParameters this)).
  generalize (hasAiInsights this).
  generalize (0 <? List.length (healthParameters this)).
  intros found insights complete Hcomplete.
  destruct (String.eqb_spec (extractionMethod this) "gemini") as [Hg | Hg];
    [| destruct (String.eqb_spec (extractionMethod this) "ocr") as [Ho | Ho]];
    destruct found, insights, complete; cbn;
    repeat split; try lia; try discriminate; try reflexivity;
    try (intros; exact (Hcomplete eq_refl));
    intuition (try discriminate; try congruence).
Qed.

(** Insights generated at [generated] need an update exactly when more
    than 30 days, that is 2592000000 milliseconds, have passed. *)
Theorem insights_expire_after_30_days (this : t) (i : Insights)
        (generated now : Z) :
  aiInsights this = Some i ->
  generatedAt i = Some generated ->
  (needsInsightsUpdate this now = true <-> (2592000000 < now - generated)%Z).
Proof.
  intros Hi Hg. unfold needsInsightsUpdate. rewrite Hi, Hg.
  unfold Quality.gtb. rewrite negb_true_iff, <- not_true_iff_false, Qle_bool_iff.
  unfold Qle, Qdiv, Qmult, Qinv, inject_Z. cbn. lia.
Qed.

(** Insights of day 0, read on day 31. *)
Lemma insights_expire_after_30_days_witness :
  needsInsightsUpdate
    (Fixtures.stored "gemini" [Demo.glucose] (Some (Fixtures.insightsAt 0)))
    (31 * 86400000)
  = true.
Proof.
  apply (insights_expire_after_30_days
           (Fixtures.stored "gemini" [Demo.glucose] (Some (Fixtures.insightsAt 0)))
           (Fixtures.insightsAt 0) 0 (31 * 86400000) eq_refl eq_refl).
  reflexivity.
Defined.





End ReportFacts.

(* ------------------------------------------------------------------ *)
(** ** Re-analysis and trends *)

Ltac run_web :=
  unfold newDate;
  unfold Web.bind, Web.tryCatch, Web.call, Web.run, Web.lift, Web.ret, Web.throw;
  cbn [fst snd Web.world Web.calls].

Lemma nth_error_length_last {A} (a : A) (l : list A) (d : A) :
  nth_error (a :: l) (List.length l) = Some (last (a :: l) d).
Proof.
  revert a. induction l as [| b l IH]; intros a; [reflexivity |].
  cbn [List.length nth_error]. rewrite IH. reflexivity.
Qed.

Lemma last_cons_indep {A} (a : A) (l : list A) (d d' : A) :
  last (a :: l) d = last (a :: l) d'.
Proof.
  revert a. induction l as [| b l IH]; intros a; [reflexivity |].
  change (last (b :: l) d = last (b :: l) d'). apply IH.
Qed.

Lemma generateTrendAnalysis_run backend reports s :
  exists r s',
    generateTrendAnalysis backend reports s = (Return r, s') /\
    (List.length reports < 2 ->
     s' = s /\ r = trendFailure "Need at least 2 reports for trend analysis") /\
    (2 <= List.length reports ->
     Web.world s' = Web.world s /\
     Web.calls s'
     = Web.calls s
       ++ [Web.AskTrends
             (map (fun r => (Report.createdAt r, Report.healthParameters r))
                  reports)] /\
     (Trend.success r = true ->
      (exists analysis, Trend.analysis r = Some analysis) /\
      Trend.reportCount r = Some (List.length reports) /\
      forall d,
        Trend.dateRange r
        = Some (Report.createdAt (hd d reports),
                Report.createdAt (last reports d)))).
Proof.
  unfold generateTrendAnalysis.
  destruct (Nat.ltb_spec (List.length reports) 2) as [Hfew | Hmany].
  - run_web. eexists _, _. split; [reflexivity |].
    split; [intros _; split; reflexivity | lia].
  - destruct reports as [| first rest]; [simpl in Hmany; lia |].
    cbn [List.length] in Hmany.
    unfold createdAtIndex. cbn [List.length Nat.sub]. rewrite Nat.sub_0_r.
    rewrite (nth_error_length_last first rest first).
    cbn [nth_error]. run_web.
    destruct (askTrends backend _) as [reply | e];
      [destruct (parseAnalysis backend _) as [analysis | e] |];
      (eexists _, _; split; [reflexivity |]; split; [lia |];
       intros _; split; [reflexivity |]; split; [reflexivity |]);
      cbn [Trend.success Trend.reportCount Trend.dateRange Trend.analysis
           trendFailure];
      try (intros H; discriminate H).
    intros _. split; [eexists; reflexivity |].
    split; [reflexivity |]. intros d. cbn [hd].
    do 3 f_equal. apply last_cons_indep.
Qed.

(** [generateTrendAnalysis] never throws.  With fewer than two reports it
    fails at once, without a call to the model; otherwise the model is
    called once, with date and parameters of every report in the order
    given, and a successful result counts the reports and spans the dates
    of the first and of the last one. *)
Theorem trend_analysis_needs_two_reports backend reports s :
  exists r s',
    generateTrendAnalysis backend reports s = (Return r, s') /\
    (List.length reports < 2 ->
     s' = s /\ r = trendFailure "Need at least 2 reports for trend analysis") /\
    (2 <= List.length reports ->
     Web.world s' = Web.world s /\
     Web.calls s'
     = Web.calls s
       ++ [Web.AskTrends
             (map (fun r => (Report.createdAt r, Report.healthParameters r))
                  reports)] /\
     (Trend.success r = true ->
      Trend.reportCount r = Some (List.length reports) /\
      forall d,
        Trend.dateRange r
        = Some (Report.createdAt (hd d reports),
                Report.createdAt (last reports d)))).
Proof.
  destruct (generateTrendAnalysis_run backend reports s)
    as [r [s' [Hrun [Hfew Hmany]]]].
  exists r, s'. split; [exact Hrun |]. split; [exact Hfew |].
  intros H. destruct (Hmany H) as [Hw [Hc Hs]].
  split; [exact Hw |]. split; [exact Hc |].
  intros Hok. destruct (Hs Hok) as [_ Hrest]. exact Hrest.
Qed.

Lemma resanitizeInsights_fitsSchema (raw : RawInsights) :
  fitsSchema (resanitizeInsights raw).
Proof.
  split.
  - apply sanitizeRiskLevel_allowed.
  - apply Forall_forall. intros o Ho. unfold resanitizeInsights in Ho.
    cbn [Report.outliers] in Ho. apply in_map_iff in Ho.
    destruct Ho as [raw0 [<- _]]. apply sanitizeSeverity_allowed.
Qed.

Lemma reanalyzeReport_run env backend report s :
  exists r s',
    reanalyzeReport env backend report s = (Return r, s') /\
    Web.calls s' = Web.calls s ++ [insightsCall report] /\
    (if Reanalysis.success r
     then exists i, Reanalysis.insights r = Some i /\ fitsSchema i /\
                    Reanalysis.error r = None /\
                    ticks (Web.world s') = S (ticks (Web.world s))
     else Reanalysis.insights r = None /\
          (exists message, Reanalysis.error r = Some message) /\
          Web.world s' = Web.world s).
Proof.
  unfold reanalyzeReport, insightsCall. cbv zeta. run_web. unfold now.
  destruct (askInsights backend _ _ _) as [reply | e];
    [destruct (parseInsights backend _) as [raw | e] |];
    cbn [fst snd Web.world Web.calls];
    (eexists _, _; split; [reflexivity |]; split; [reflexivity |]);
    cbn [Reanalysis.success Reanalysis.insights Reanalysis.error Web.world ticks].
  - eexists. split; [reflexivity |].
    split; [apply resanitizeInsights_fitsSchema |]. split; reflexivity.
  - split; [reflexivity |]. split; [eexists; reflexivity | reflexivity].
  - split; [reflexivity |]. split; [eexists; reflexivity | reflexivity].
Qed.

(** [reanalyzeReport] never throws and calls the model exactly once, about
    the parameters and the date of the report.  On success the new
    insights pass the [enum] validators of the schema; on failure there are
    no insights and the error message is returned. *)
Theorem reanalysis_is_contained env backend report s :
  exists r s',
    reanalyzeReport env backend report s = (Return r, s') /\
    Web.calls s'
    = Web.calls s
      ++ [Web.AskInsights (Report.healthParameters report)
                          (match Report.previousReportCount report with
                           | Some n => n
                           | None => 0
                           end)
                          (Report.createdAt report)] /\
    (Reanalysis.success r = true ->
     exists i,
       Reanalysis.insights r = Some i /\
       Schema.allows Schema.riskLevel (Report.riskLevel i) = true /\
       Forall (fun o => Schema.allows Schema.severity (Report.severity o) = true)
              (Report.outliers i)) /\
    (Reanalysis.success r = false ->
     Reanalysis.insights r = None /\
     exists message, Reanalysis.error r = Some message).
Proof.
  destruct (reanalyzeReport_run env backend report s) as [r [s' [Hrun [Hcalls H]]]].
  exists r, s'. split; [exact Hrun |]. split; [exact Hcalls |].
  destruct (Reanalysis.success r).
  - split; [| intros H'; discriminate H']. intros _.
    destruct H as [i [Hi [[Hrisk Hsev] _]]]. exists i. repeat split; assumption.
  - split; [intros H'; discriminate H' |]. intros _.
    destruct H as [Hi [Hm _]]. split; assumption.
Qed.

(** The regenerate route always answers.  An unknown report is answered
    with 404 and a report without health parameters with 400, in both
    cases without a call to the model and without a save; so is a database
    error, with 500.  Otherwise the model is asked once; 200 is answered
    exactly when the report was then saved with the new insights, which
    pass the [enum] validators of the schema. *)
Theorem regenerate_route env backend reportId userId s :
  exists response s',
    regenerate env backend reportId userId s = (Return response, s') /\
    match findOne backend reportId userId with
    | Throw _ =>
        Http.status response = 500 /\
        Web.calls s' = Web.calls s ++ [Web.FindOne reportId userId]
    | Return None =>
        Http.status response = 404 /\
        Web.calls s' = Web.calls s ++ [Web.FindOne reportId userId]
    | Return (Some report) =>
        if List.length (Report.healthParameters report) =? 0 then
          Http.status response = 400 /\
          Web.calls s' = Web.calls s ++ [Web.FindOne reportId userId]
        else
          exists rest,
            Web.calls s'
            = Web.calls s
              ++ Web.FindOne reportId userId :: insightsCall report :: rest /\
            (Http.status response = 200 \/ Http.status response = 500) /\
            (Http.status response = 200 <->
             exists i date,
               fitsSchema i /\
               save backend (withNewInsights report (Some i) date) = Return tt /\
               rest = [Web.Save (withNewInsights report (Some i) date)] /\
               Http.body response
               = Regenerated (Report._id report) (Some i) date)
    end.
Proof.
  unfold regenerate.
  unfold Web.tryCatch at 1. unfold Web.bind at 1. unfold Web.call at 1.
  destruct (findOne backend reportId userId) as [[report |] | e].
  - destruct (List.length (Report.healthParameters report) =? 0).
    + run_web. eexists _, _. split; [reflexivity |]. split; reflexivity.
    + unfold Web.bind at 1.
      destruct (reanalyzeReport_run env backend report
                  {| Web.world := Web.world s;
                     Web.calls := Web.calls s ++ [Web.FindOne reportId userId] |})
        as [r [s1 [-> [Hcalls Hr]]]].
      cbn [Web.calls] in Hcalls.
      destruct (Reanalysis.success r); cbn [negb].
      * destruct Hr as [i [Hi [Hfits _]]]. rewrite Hi.
        run_web. unfold now. cbn [fst snd].
        destruct (save backend _) as [[] | e] eqn:Hsave.
        -- eexists _, _. split; [reflexivity |].
           exists [Web.Save (withNewInsights report (Some i)
                               (clock env (ticks (Web.world s1))))].
           cbn [Web.calls Http.status Http.body]. rewrite Hcalls, <- !app_assoc. cbn [app].
           split; [reflexivity |]. split; [left; reflexivity |].
           split; [intros _ | reflexivity].
           exists i, (clock env (ticks (Web.world s1))).
           repeat split; try assumption; try reflexivity; apply Hfits.
        -- eexists _, _. split; [reflexivity |].
           exists [Web.Save (withNewInsights report (Some i)
                               (clock env (ticks (Web.world s1))))].
           cbn [Web.calls Http.status Http.body]. rewrite Hcalls, <- !app_assoc. cbn [app].
           split; [reflexivity |]. split; [right; reflexivity |].
           split; [intros H; discriminate H |].
           intros [i' [date [_ [_ [_ H]]]]]. discriminate H.
      * run_web. eexists _, _. split; [reflexivity |].
        exists []. cbn [Web.calls Http.status Http.body].
        rewrite Hcalls, <- !app_assoc. cbn [app].
        split; [reflexivity |]. split; [right; reflexivity |].
        split; [intros H; discriminate H |].
        intros [i' [date [_ [_ [H _]]]]]. discriminate H.
  - run_web. eexists _, _. split; [reflexivity |]. split; reflexivity.
  - run_web. eexists _, _. split; [reflexivity |]. split; reflexivity.
Qed.

(** The trends route always answers.  With fewer than two reports found
    it answers 400 with their number and the model is not called;
    otherwise the model is called once, and 200 is answered with the number
    of reports and the dates of the first and of the last report found. *)
Theorem trends_route backend reportIds userId s :
  exists response s',
    trends backend reportIds userId s = (Return response, s') /\
    match find backend (chosenReports reportIds) userId with
    | Throw _ =>
        Http.status response = 500 /\
        Web.calls s' = Web.calls s ++ [Web.Find (chosenReports reportIds) userId]
    | Return reports =>
        if List.length reports <? 2 then
          response
          = {| Http.status := 400;
               Http.body := TrendsError "Need at least 2 reports for trend analysis"
                                        (Some (List.length reports)) None |} /\
          Web.calls s' = Web.calls s ++ [Web.Find (chosenReports reportIds) userId]
        else
          Web.calls s'
          = Web.calls s
            ++ [Web.Find (chosenReports reportIds) userId;
                Web.AskTrends
                  (map (fun r => (Report.createdAt r, Report.healthParameters r))
                       reports)] /\
          (Http.status response = 200 \/ Http.status response = 500) /\
          (Http.status response = 200 ->
           forall d, exists analysis,
             Http.body response
             = Trends (List.length reports)
                      (Some (Report.createdAt (hd d reports),
                             Report.createdAt (last reports d)))
                      (Some analysis))
    end.
Proof.
  unfold trends. cbv zeta.
  unfold Web.tryCatch at 1. unfold Web.bind at 1. unfold Web.call at 1.
  destruct (find backend (chosenReports reportIds) userId) as [reports | e].
  - destruct (Nat.ltb_spec (List.length reports) 2) as [Hfew | Hmany].
    + run_web. eexists _, _. split; [reflexivity |]. split; reflexivity.
    + unfold Web.bind at 1.
      destruct (generateTrendAnalysis_run backend reports
                  {| Web.world := Web.world s;
                     Web.calls :=
                       Web.calls s ++ [Web.Find (chosenReports reportIds) userId] |})
        as [r [s1 [-> [_ H]]]].
      destruct (H Hmany) as [_ [Hcalls Hok]]. cbn [Web.calls] in Hcalls.
      destruct (Trend.success r); cbn [negb]; run_web;
        (eexists _, _; split; [reflexivity |]);
        cbn [Http.status Http.body];
        (split; [rewrite Hcalls, <- app_assoc; reflexivity |]).
      * split; [left; reflexivity |]. intros _ d.
        destruct (Hok eq_refl) as [[analysis Ha] [_ Hrange]].
        exists analysis. rewrite Ha, (Hrange d). reflexivity.
      * split; [right; reflexivity |]. intros H'. discriminate H'.
  - run_web. eexists _, _. split; [reflexivity |]. split; reflexivity.
Qed.

(* ------------------------------------------------------------------ *)
(** ** The upload route *)

Section UploadRuns.

Variables (env : Env) (backend : Backend).

(** A run of the upload route, path by path. *)
Lemma upload_run req s :
  exists response s',
    upload env backend req s = (Return response, s') /\
    match Upload.file req with
    | None =>
        response = {| Http.status := 400;
                      Http.body := UploadError "No file uploaded" None |} /\
        s' = s
    | Some f =>
        exists r w1,
          extractHealthData env (Upload.buffer f) (Upload.mimetype f)
                            (optionsOf req) (Web.world s) = (Return r, w1) /\
          Finalized env (Upload.buffer f) (Upload.mimetype f) (optionsOf req)
                    (Web.world s) r w1 /\
          trace (Web.world s') = trace w1 /\
          let data := reportDataOf req f r (clock env (ticks w1)) in
          match create backend data with
          | Return reportId =>
              response
              = {| Http.status := 200;
                   Http.body :=
                     UploadDone (responseOf backend f r (getExtractionStats r)
                                            reportId) |} /\
              Web.calls s' = Web.calls s ++ [Web.Create data]
          | Throw message =>
              let failed :=
                failedReportData req f message (clock env (S (ticks w1))) in
              Web.calls s' = Web.calls s ++ [Web.Create data; Web.Create failed] /\
              match create backend failed with
              | Return reportId =>
                  response
                  = {| Http.status := 200;
                       Http.body :=
                         UploadDone (failedResponse backend f message reportId) |}
              | Throw _ =>
                  response
                  = {| Http.status := 500;
                       Http.body :=
                         UploadError "Failed to process uploaded file"
                                     (inDevelopment backend message) |}
              end
          end
    end.
Proof.
  unfold upload, trackFailure.
  destruct (Upload.file req) as [f |].
  - destruct (extractHealthData_finalized env (Upload.buffer f) (Upload.mimetype f)
                (optionsOf req) (Web.world s)) as [r [w1 [Hrun Hfin]]].
    run_web. rewrite Hrun. unfold now.
    cbn [fst snd ticks trace log Web.world Web.calls].
    destruct (create backend (reportDataOf req f r (clock env (ticks w1))))
      as [reportId | message] eqn:Hcreate.
    + eexists _, _. split; [reflexivity |]. exists r, w1.
      split; [reflexivity |]. split; [exact Hfin |]. split; [reflexivity |].
      cbv zeta. rewrite Hcreate. split; reflexivity.
    + cbn [fst snd ticks trace log Web.world Web.calls].
      destruct (create backend
                  (failedReportData req f message (clock env (S (ticks w1)))))
        as [reportId | e] eqn:Hfailed;
        (eexists _, _; split; [reflexivity |]; exists r, w1;
         split; [reflexivity |]; split; [exact Hfin |];
         split; [reflexivity |]; cbv zeta; rewrite Hcreate, Hfailed; cbn [Web.calls];
         rewrite <- app_assoc; split; reflexivity).
  - run_web. eexists _, _. split; [reflexivity |]. split; reflexivity.
Qed.

End UploadRuns.

(** Every upload is answered: with 400 exactly when there is no file, with
    200 only once a report was saved, whose id is in the answer, and with
    500 only when the report could not be saved and the failed report that
    is then tried could not be saved either. *)
Theorem upload_always_answers env backend req s :
  exists response s',
    upload env backend req s = (Return response, s') /\
    (Http.status response = 200 \/ Http.status response = 400 \/
     Http.status response = 500) /\
    (Http.status response = 400 <-> Upload.file req = None) /\
    (Http.status response = 200 ->
     exists before data answer,
       Web.calls s' = before ++ [Web.Create data] /\
       create backend data = Return (Uploaded.reportId answer) /\
       Http.body response = UploadDone answer) /\
    (Http.status response = 500 ->
     exists data failed,
       Web.calls s' = Web.calls s ++ [Web.Create data; Web.Create failed] /\
       (exists message, create backend data = Throw message) /\
       (exists message, create backend failed = Throw message) /\
       Upload.extractionMethod failed = "failed").
Proof.
  destruct (upload_run env backend req s) as [response [s' [Hrun H]]].
  exists response, s'. split; [exact Hrun |].
  destruct (Upload.file req) as [f |].
  - destruct H as [r [w1 [_ [_ [_ H]]]]]. cbv zeta in H.
    destruct (create backend (reportDataOf req f r (clock env (ticks w1))))
      as [reportId | message] eqn:Hcreate.
    + destruct H as [-> Hcalls]. cbn [Http.status Http.body].
      split; [left; reflexivity |].
      split; [split; intros H; discriminate H |].
      split; [| intros H; discriminate H]. intros _.
      eexists _, _, _. split; [exact Hcalls |].
      split; [| reflexivity]. exact Hcreate.
    + destruct H as [Hcalls H].
      destruct (create backend
                  (failedReportData req f message (clock env (S (ticks w1)))))
        as [reportId | e] eqn:Hfailed; subst response;
        cbn [Http.status Http.body].
      * split; [left; reflexivity |].
        split; [split; intros H; discriminate H |].
        split; [| intros H; discriminate H]. intros _.
        exists (Web.calls s
                ++ [Web.Create
                      (reportDataOf req f r (clock env (ticks w1)))]).
        eexists _, _. rewrite Hcalls, <- app_assoc.
        split; [reflexivity |]. split; [| reflexivity]. exact Hfailed.
      * split; [right; right; reflexivity |].
        split; [split; intros H; discriminate H |].
        split; [intros H; discriminate H |]. intros _.
        eexists _, _. split; [exact Hcalls |].
        split; [exists message; exact Hcreate |].
        split; [exists e; exact Hfailed | reflexivity].
  - destruct H as [-> ->]. cbn [Http.status Http.body].
    split; [right; left; reflexivity |].
    split; [split; reflexivity |].
    split; intros H; discriminate H.
Qed.

(** The result of a run is that of the AI, that of the OCR, or the failure
    result. *)
Lemma finalized_method_cases env buffer mime options w r w' :
  Finalized env buffer mime options w r w' ->
  method (result r) = "gemini" \/ method (result r) = "ocr" \/
  exists message, result r = failureResult message.
Proof.
  intros Hfin.
  destruct Hfin as
    [ text o w1 Hf Hocr l
    | g w1 Hf Hg Hgem Hlog Htrace Hshape Hs l
    | g w1 Hf Hg Hgem Hlog Htrace Hshape Hs message l
    | g w1 ps Hf Hg Ht Hgem Hlog Htrace Hshape Hs Hps Hlen l
    | pre text o w1 ps Hf Hg Hpre Hocr Hs Hps l
    | pre text o w1 Hf Hg Hpre Hocr Hs message l ];
    cbn [result withInsights method].
  - right; left. exact (ocrRun_method _ _ _ _ _ _ _ Hocr).
  - left. apply Hshape.
  - right; right. exists message. reflexivity.
  - left. apply Hshape.
  - right; left. exact (ocrRun_method _ _ _ _ _ _ _ Hocr).
  - right; right. exists message. reflexivity.
Qed.

Lemma reportDataOf_storable req f r createdAt :
  (method (result r) = "gemini" \/ method (result r) = "ocr" \/
   exists message, result r = failureResult message) ->
  storable (reportDataOf req f r createdAt).
Proof.
  intros Hcases. unfold storable, reportDataOf. cbv zeta.
  cbn [Upload.extractionMethod Upload.processingStatus Upload.extractedText
       Upload.requiresManualEntry Upload.healthParameters].
  split; [| split; [| split; [| split; [| split]]]].
  - destruct Hcases as [-> | [-> | [message ->]]]; reflexivity.
  - destruct (isTrue _); reflexivity.
  - apply orElse_nonempty. discriminate.
  - destruct (isTrue _); [reflexivity | intros H; discriminate H].
  - destruct (isTrue _); [intros H; discriminate H | reflexivity].
  - destruct Hcases as [-> | [-> | [message ->]]];
      [intros H; discriminate H | intros H; discriminate H |].
    intros _. split; reflexivity.
Qed.

(** Whatever the route hands to the model passes the [enum] validators of
    the schema on method and status, and its text is not empty;
    "manual_entry_needed" is only stored with the flag
    [requiresManualEntry], "completed" only without it, and a report of the
    method "failed" holds no parameter and asks for manual entry. *)
Theorem upload_stores_valid_reports env backend req s :
  exists response s' created,
    upload env backend req s = (Return response, s') /\
    Web.calls s' = Web.calls s ++ map Web.Create created /\
    Forall storable created.
Proof.
  destruct (upload_run env backend req s) as [response [s' [Hrun H]]].
  exists response, s'.
  destruct (Upload.file req) as [f |].
  - destruct H as [r [w1 [_ [Hfin [_ H]]]]]. cbv zeta in H.
    pose proof (reportDataOf_storable req f r (clock env (ticks w1))
                  (finalized_method_cases _ _ _ _ _ _ _ Hfin)) as Hdata.
    destruct (create backend (reportDataOf req f r (clock env (ticks w1))))
      as [reportId | message].
    + destruct H as [_ Hcalls].
      exists [reportDataOf req f r (clock env (ticks w1))].
      split; [exact Hrun |]. split; [exact Hcalls |].
      constructor; [exact Hdata | constructor].
    + destruct H as [Hcalls _].
      exists [reportDataOf req f r (clock env (ticks w1));
              failedReportData req f message (clock env (S (ticks w1)))].
      split; [exact Hrun |]. split; [exact Hcalls |].
      constructor; [exact Hdata |]. constructor; [| constructor].
      unfold storable, failedReportData.
      cbn [Upload.extractionMethod Upload.processingStatus Upload.extractedText
           Upload.requiresManualEntry Upload.healthParameters].
      repeat split; try reflexivity; try discriminate;
        intros H; discriminate H.
  - destruct H as [_ ->]. exists [].
    split; [exact Hrun |]. split; [| constructor].
    cbn [map]. rewrite app_nil_r. reflexivity.
Qed.

(** Without a forced method, a report is stored as "manual_entry_needed"
    exactly when it is stored without health parameters, and the answer
    asks for manual entry exactly when it counts no parameter. *)
Theorem upload_manual_entry_iff_nothing_found env backend req f s :
  Upload.file req = Some f ->
  forceMethod (optionsOf req) = None ->
  exists response s' data rest,
    upload env backend req s = (Return response, s') /\
    Web.calls s' = Web.calls s ++ Web.Create data :: rest /\
    (Upload.processingStatus data = "manual_entry_needed" <->
     Upload.healthParameters data = []) /\
    (forall reportId,
       create backend data = Return reportId ->
       exists answer,
         Http.body response = UploadDone answer /\
         (Uploaded.requiresManualEntry answer = Some true <->
          Uploaded.extractedParameterCount answer = 0)).
Proof.
  intros Hfile Hauto.
  destruct (upload_run env backend req s) as [response [s' [Hrun H]]].
  rewrite Hfile in H. destruct H as [r [w1 [_ [Hfin [_ H]]]]]. cbv zeta in H.
  assert (isTrue (requiresManualEntry (result r)) = true <->
          orEmpty (healthParameters (result r)) = []) as Hmanual.
  { assert (forall text o,
              ocrShaped env text o -> success o = true ->
              (isTrue (requiresManualEntry o) = true <->
               orEmpty (healthParameters o) = [])) as Hocr.
    { intros text o [_ Hshape] Hs.
      destruct (parsedParameters env text) as [ps | e].
      - destruct Hshape as [_ [-> [-> _]]].
        destruct ps; simpl; split; intros H'; congruence.
      - destruct Hshape as [Hf _]. congruence. }
    unfold forced in *.
    destruct Hfin as
      [ text o w1' Hf Hocr' l
      | g w1' Hf Hg Hgem Hlog Htrace Hshape Hs l
      | g w1' Hf Hg Hgem Hlog Htrace Hshape Hs message l
      | g w1' ps Hf Hg Ht Hgem Hlog Htrace Hshape Hs Hps Hlen l
      | pre text o w1' ps Hf Hg Hpre [_ [_ [_ Hshape]]] Hs Hps l
      | pre text o w1' Hf Hg Hpre Hocr' Hs message l ];
      try (unfold forced in *; rewrite Hauto in *; discriminate);
      cbn [result withInsights requiresManualEntry healthParameters].
    - destruct Hshape as [_ [-> _]]. rewrite Hps. cbn [isTrue orEmpty].
      split; [intros H'; discriminate H' |].
      intros ->. simpl in Hlen. lia.
    - exact (Hocr text o Hshape Hs).
    - split; reflexivity. }
  set (data := reportDataOf req f r (clock env (ticks w1))) in *.
  assert (Upload.processingStatus data = "manual_entry_needed" <->
          Upload.healthParameters data = []) as Hstatus.
  { unfold data, reportDataOf. cbv zeta.
    cbn [Upload.processingStatus Upload.healthParameters].
    rewrite <- Hmanual.
    destruct (isTrue _); split; intros H'; try reflexivity; discriminate H'. }
  assert (forall reportId,
            Uploaded.requiresManualEntry
              (responseOf backend f r (getExtractionStats r) reportId)
            = Some true <->
            Uploaded.extractedParameterCount
              (responseOf backend f r (getExtractionStats r) reportId) = 0)
    as Hanswer.
  { intros reportId. unfold responseOf. cbv zeta.
    cbn [Uploaded.requiresManualEntry Uploaded.extractedParameterCount].
    rewrite length_zero_iff_nil, <- Hmanual.
    destruct (isTrue _); split; intros H'; try reflexivity; discriminate H'. }
  destruct (create backend data) as [reportId | message] eqn:Hcreate.
  - destruct H as [-> Hcalls].
    eexists _, s', data, []. split; [exact Hrun |]. split; [exact Hcalls |].
    split; [exact Hstatus |]. intros reportId' _.
    eexists. split; [reflexivity |]. apply Hanswer.
  - destruct H as [Hcalls _].
    eexists response, s', data, [_]. split; [exact Hrun |].
    split; [exact Hcalls |]. split; [exact Hstatus |].
    intros reportId H'. rewrite Hcreate in H'. discriminate H'.
Qed.

Lemma upload_manual_entry_iff_nothing_found_witness :
  exists response s' data rest,
    upload (Fixtures.ocrOnlyEnv "" []) Fixtures.database (Fixtures.request None)
           Fixtures.site = (Return response, s') /\
    Web.calls s' = Web.calls Fixtures.site ++ Web.Create data :: rest /\
    (Upload.processingStatus data = "manual_entry_needed" <->
     Upload.healthParameters data = []) /\
    (forall reportId,
       create Fixtures.database data = Return reportId ->
       exists answer,
         Http.body response = UploadDone answer /\
         (Uploaded.requiresManualEntry answer = Some true <->
          Uploaded.extractedParameterCount answer = 0)).
Proof.
  exact (upload_manual_entry_iff_nothing_found
           (Fixtures.ocrOnlyEnv "" []) Fixtures.database (Fixtures.request None)
           Fixtures.png Fixtures.site eq_refl eq_refl).
Defined.

(** A forced OCR extraction in which the parameter parser throws is not
    told apart from a success: the report is stored with the method "ocr",
    no parameter, the status "completed" and no error in its log, and the
    answer neither asks for manual entry nor mentions a failure. *)
Theorem forced_ocr_failure_is_stored_as_completed
        env backend req f s w0 text e :
  Upload.file req = Some f ->
  forced (optionsOf req) "ocr" = true ->
  fst (documentText env (Upload.buffer f) (Upload.mimetype f) w0) = Return text ->
  parsedParameters env text = Throw e ->
  exists response s' data rest,
    upload env backend req s = (Return response, s') /\
    Web.calls s' = Web.calls s ++ Web.Create data :: rest /\
    Upload.extractionMethod data = "ocr" /\
    Upload.healthParameters data = [] /\
    Upload.requiresManualEntry data = false /\
    Upload.processingStatus data = "completed" /\
    Upload.error (Upload.extractionLog data) = None /\
    (forall reportId,
       create backend data = Return reportId ->
       exists answer,
         Http.body response = UploadDone answer /\
         Uploaded.requiresManualEntry answer = None /\
         Uploaded.message answer
         = "Successfully processed with OCR. Found 0 parameters.").
Proof.
  intros Hfile Hforced Htext Hparser.
  destruct (upload_run env backend req s) as [response [s' [Hrun H]]].
  rewrite Hfile in H. destruct H as [r [w1 [_ [Hfin [_ H]]]]]. cbv zeta in H.
  assert (exists o l,
            r = {| result := o; extractionLog := l |} /\
            logError l = None /\
            method o = "ocr" /\ healthParameters o = None /\
            requiresManualEntry o = None /\ isScannedDocument o = None /\
            aiInsights o = None) as [o [l [-> [Hlog [Hm [Hps [Hmanual [Hscan Hai]]]]]]]].
  { destruct Hfin as
      [ text' o w1' Hf [Hocr [Hdoc [_ Hshape]]] l
      | g w1' Hf Hg Hgem Hlog Htrace Hshape Hs l
      | g w1' Hf Hg Hgem Hlog Htrace Hshape Hs message l
      | g w1' ps Hf Hg Ht Hgem Hlog Htrace Hshape Hs Hps Hlen l
      | pre text' o w1' ps Hf Hg Hpre Hocr Hs Hps l
      | pre text' o w1' Hf Hg Hpre Hocr Hs message l ];
      try congruence.
    pose proof (stateless_documentText env (Upload.buffer f) (Upload.mimetype f)
                  w0 (tick (start (Web.world s)))) as Hsame.
    rewrite Htext, Hdoc in Hsame. injection Hsame as <-.
    destruct Hshape as [Hm Hshape]. rewrite Hparser in Hshape.
    destruct Hshape as [Hs [Hps [Hmanual [Hmeta [Herr Hai]]]]].
    exists o, l. split; [reflexivity |]. split; [reflexivity |].
    split; [exact Hm |]. split; [exact Hps |]. split; [exact Hmanual |].
    split; [| exact Hai].
    (* the failure object of the method holds no such flag *)
    revert Hocr. unfold extractWithOCR.
    unfold bind at 1. unfold now at 1. fold (tick (start (Web.world s))).
    unfold tryCatch. unfold bind at 1.
    fold (documentText env (Upload.buffer f) (Upload.mimetype f)).
    destruct (documentText env (Upload.buffer f) (Upload.mimetype f)
                (tick (start (Web.world s)))) as [d w2].
    simpl in Hdoc. subst d.
    fold (trimmedLength text). fold (workingText text).
    unfold parsedParameters in Hparser.
    destruct (50 <? String.length (workingText text)); [| discriminate Hparser].
    unfold bind, call, ret, now. rewrite Hparser.
    intros H'. injection H' as <- _. reflexivity. }
  set (data := reportDataOf req f {| result := o; extractionLog := l |}
                            (clock env (ticks w1))) in *.
  assert (Web.calls s'
          = Web.calls s
            ++ Web.Create data
               :: match create backend data with
                  | Return _ => []
                  | Throw message =>
                      [Web.Create (failedReportData req f message
                                                    (clock env (S (ticks w1))))]
                  end) as Hcalls.
  { destruct (create backend data); apply H. }
  assert (Upload.extractionMethod data = "ocr" /\
          Upload.healthParameters data = [] /\
          Upload.requiresManualEntry data = false /\
          Upload.processingStatus data = "completed" /\
          Upload.error (Upload.extractionLog data) = None) as Hdata.
  { unfold data, reportDataOf. cbv zeta.
    cbn [Upload.extractionMethod Upload.healthParameters
         Upload.requiresManualEntry Upload.processingStatus
         Upload.extractionLog Upload.error logData result extractionLog].
    rewrite Hm, Hps, Hmanual, Hlog. repeat split. }
  exists response, s', data. eexists. split; [exact Hrun |].
  split; [exact Hcalls |].
  destruct Hdata as [H1 [H2 [H3 [H4 H5]]]].
  split; [exact H1 |]. split; [exact H2 |]. split; [exact H3 |].
  split; [exact H4 |]. split; [exact H5 |].
  intros reportId Hcreate. rewrite Hcreate in H.
  destruct H as [-> _]. eexists. split; [reflexivity |].
  unfold responseOf, messageOf. cbv zeta.
  cbn [Uploaded.requiresManualEntry Uploaded.message result].
  rewrite Hm, Hps, Hmanual, Hscan. split; reflexivity.
Qed.

(** The engine reads a covering letter and the parser throws on it. *)
Lemma forced_ocr_failure_is_stored_as_completed_witness :
  exists response s' data rest,
    upload Fixtures.brokenParser Fixtures.database
           (Fixtures.request (Some "ocr")) Fixtures.site = (Return response, s') /\
    Web.calls s' = Web.calls Fixtures.site ++ Web.Create data :: rest /\
    Upload.extractionMethod data = "ocr" /\
    Upload.processingStatus data = "completed" /\
    exists answer,
      Http.body response = UploadDone answer /\
      Uploaded.message answer
      = "Successfully processed with OCR. Found 0 parameters.".
Proof.
  destruct (forced_ocr_failure_is_stored_as_completed
              Fixtures.brokenParser Fixtures.database
              (Fixtures.request (Some "ocr")) Fixtures.png Fixtures.site
              Demo.world Demo.prose "parser failed"
              eq_refl eq_refl eq_refl eq_refl)
    as [response [s' [data [rest [Hrun [Hcalls [Hm [_ [_ [Hst [_ Hanswer]]]]]]]]]]].
  exists response, s', data, rest.
  split; [exact Hrun |]. split; [exact Hcalls |]. split; [exact Hm |].
  split; [exact Hst |].
  destruct (Hanswer "r1" eq_refl) as [answer [Hbody [_ Hmessage]]].
  exists answer. split; [exact Hbody | exact Hmessage].
Defined.

(** When the AI is not to be tried, because the request says
    [preferGemini=false] or because there is no API key, and the AI is not
    forced either, the uploaded file is never handed to the AI. *)
Theorem upload_respects_ai_opt_out env backend req s :
  triesGemini env (optionsOf req) = false ->
  forced (optionsOf req) "gemini" = false ->
  exists response s' evs,
    upload env backend req s = (Return response, s') /\
    trace (Web.world s') = trace (Web.world s) ++ evs /\
    Forall (fun e => isGemini e = false) evs.
Proof.
  intros Hopt Hnot.
  destruct (upload_run env backend req s) as [response [s' [Hrun H]]].
  exists response, s'.
  destruct (Upload.file req) as [f |].
  - destruct H as [r [w1 [_ [Hfin [Htrace _]]]]]. rewrite Htrace.
    assert (forall pre,
              beforeOCR env (Upload.buffer f) (Upload.mimetype f) (optionsOf req)
                        (Web.world s) pre ->
              pre = start (Web.world s)) as Hpre.
    { intros pre [[_ H] | [H _]]; [exact H | congruence]. }
    destruct Hfin as
      [ text o w1' Hf Hocr l
      | g w1' Hf Hg Hgem Hlog Htr Hshape Hs l
      | g w1' Hf Hg Hgem Hlog Htr Hshape Hs message l
      | g w1' ps Hf Hg Ht Hgem Hlog Htr Hshape Hs Hps Hlen l
      | pre text o w1' ps Hf Hg Hpre' Hocr Hs Hps l
      | pre text o w1' Hf Hg Hpre' Hocr Hs message l ];
      try congruence;
      try (rewrite (Hpre pre Hpre') in Hocr);
      apply ocrRun_trace in Hocr; destruct Hocr as [evs [Hevs Hall]];
      exists evs; (split; [exact Hrun |]); split; assumption.
  - destruct H as [_ ->]. exists [].
    split; [exact Hrun |]. split; [| constructor].
    rewrite app_nil_r. reflexivity.
Qed.

(** An upload with [preferGemini=false], although an API key is set. *)
Lemma upload_respects_ai_opt_out_witness :
  exists response s' evs,
    upload (Fixtures.aiOnly [Demo.rawGlucose]) Fixtures.database
           {| Upload.file := Some Fixtures.png; Upload.user_id := "u1";
              Upload.query_method := None;
              Upload.query_preferGemini := Some "false";
              Upload.query_insights := None; Upload.body_method := None |}
           Fixtures.site = (Return response, s') /\
    trace (Web.world s') = trace (Web.world Fixtures.site) ++ evs /\
    Forall (fun e => isGemini e = false) evs.
Proof.
  exact (upload_respects_ai_opt_out
           (Fixtures.aiOnly [Demo.rawGlucose]) Fixtures.database
           {| Upload.file := Some Fixtures.png; Upload.user_id := "u1";
              Upload.query_method := None;
              Upload.query_preferGemini := Some "false";
              Upload.query_insights := None; Upload.body_method := None |}
           Fixtures.site eq_refl eq_refl).
Defined.

(* ------------------------------------------------------------------ *)
(** ** The web layer on small inputs *)

Module WebExamples.

(** A page on which the engine reads nothing: the report is stored for
    manual entry. *)
Example upload_of_a_blank_page :
  exists answer s',
    upload (Fixtures.ocrOnlyEnv "" []) Fixtures.database (Fixtures.request None)
           Fixtures.site
    = (Return {| Http.status := 200; Http.body := UploadDone answer |}, s') /\
    Uploaded.extractionMethod answer = Some "ocr" /\
    Uploaded.requiresManualEntry answer = Some true /\
    Uploaded.message answer
    = "Limited data extracted. You may need to verify and complete manually.".
Proof.
  eexists _, _. split; [vm_compute; reflexivity |]. repeat split.
Qed.

Example upload_without_a_file :
  fst (upload (Fixtures.ocrOnlyEnv "" []) Fixtures.database
              {| Upload.file := None; Upload.user_id := "u1";
                 Upload.query_method := None; Upload.query_preferGemini := None;
                 Upload.query_insights := None; Upload.body_method := None |}
              Fixtures.site)
  = Return {| Http.status := 400;
              Http.body := UploadError "No file uploaded" None |}.
Proof. reflexivity. Qed.

Example regenerate_unknown_report :
  Http.status
    match fst (regenerate (Fixtures.ocrOnlyEnv "" []) Fixtures.database
                          "r9" "u1" Fixtures.site) with
    | Return response => response
    | Throw _ => {| Http.status := 0;
                    Http.body := RegenerateError "" None None |}
    end
  = 404.
Proof. reflexivity. Qed.

Example quality_of_an_ai_report :
  Report.score
    (Report.getExtractionQuality
       (Fixtures.stored "gemini" [Demo.glucose] (Some (Fixtures.insightsAt 0))))
  = 100.
Proof. reflexivity. Qed.

Example quality_of_a_failed_report :
  Report.grade (Report.getExtractionQuality (Fixtures.stored "failed" [] None))
  = "Poor".
Proof. reflexivity. Qed.

Example analytics_of_two_reports :
  Report.totalReports
    (Report.analyticsOf [Fixtures.stored "gemini" [Demo.glucose] None;
                         Fixtures.stored "failed" [] None]) = 2 /\
  (Report.averageParameters
     (Report.analyticsOf [Fixtures.stored "gemini" [Demo.glucose] None;
                          Fixtures.stored "failed" [] None]) == 1 # 2)%Q.
Proof. split; reflexivity. Qed.

Example options_of_a_query :
  optionsOf {| Upload.file := None; Upload.user_id := "u1";
               Upload.query_method := Some "";
               Upload.query_preferGemini := Some "no";
               Upload.query_insights := Some "false";
               Upload.body_method := Some "ocr" |}
  = {| forceMethod := Some "ocr"; preferGemini := Some true;
       includeInsights := Some false |}.
Proof. reflexivity. Qed.

End WebExamples.

(* ------------------------------------------------------------------ *)
(** ** How much work an extraction can cause *)

Module BudgetFacts.

Import Budget.

Lemma leb_le (a b : t) :
  leb a b = true <->
  prompts a <= prompts b /\ passes a <= passes b /\
  transforms a <= transforms b /\ pdfParses a <= pdfParses b /\
  parses a <= parses b.
Proof.
  unfold leb. rewrite !andb_true_iff, !Nat.leb_le. tauto.
Qed.

Lemma spent_app (a b : list Event) : spent (a ++ b) = plus (spent a) (spent b).
Proof.
  induction a as [| e a IH]; simpl.
  - destruct (spent b); reflexivity.
  - rewrite IH. unfold plus. simpl. f_equal; lia.
Qed.

Lemma leb_plus (a a' b b' : t) :
  leb a a' = true -> leb b b' = true -> leb (plus a b) (plus a' b') = true.
Proof. rewrite !leb_le. unfold plus. simpl. lia. Qed.

Lemma leb_join_l (a a' b' : t) : leb a a' = true -> leb a (join a' b') = true.
Proof. rewrite !leb_le. unfold join. simpl. lia. Qed.

Lemma leb_join_r (b a' b' : t) : leb b b' = true -> leb b (join a' b') = true.
Proof. rewrite !leb_le. unfold join. simpl. lia. Qed.

Lemma leb_trans (a b c : t) : leb a b = true -> leb b c = true -> leb a c = true.
Proof. rewrite !leb_le. lia. Qed.

End BudgetFacts.

Section Budgets.

Context {A B : Type}.

Lemma within_weaken (b b' : Budget.t) (m : M A) :
  within b m -> Budget.leb b b' = true -> within b' m.
Proof.
  intros Hm Hle w. destruct (Hm w) as [evs [Htrace Hspent]].
  exists evs. split; [exact Htrace |].
  exact (BudgetFacts.leb_trans _ _ _ Hspent Hle).
Qed.

Lemma within_still (m : M A) :
  (forall w, trace (snd (m w)) = trace w) -> within Budget.zero m.
Proof.
  intros H w. exists []. rewrite app_nil_r. split; [apply H | reflexivity].
Qed.

Lemma within_ret (a : A) : within Budget.zero (ret a).
Proof. apply within_still. reflexivity. Qed.

Lemma within_throw (e : string) : within Budget.zero (@throw A e).
Proof. apply within_still. reflexivity. Qed.

Lemma within_call (b : Budget.t) (e : Event) (o : Outcome A) :
  Budget.cost e = b -> within b (call e o).
Proof.
  intros <- w. exists [e]. split; [reflexivity |]. destruct e; reflexivity.
Qed.

Lemma within_bind (b k : Budget.t) (m : M A) (f : A -> M B) :
  within b m -> (forall a, within k (f a)) -> within (Budget.plus b k) (bind m f).
Proof.
  intros Hm Hf w. destruct (Hm w) as [evs [Htrace Hspent]]. unfold bind.
  destruct (m w) as [[a | e] w1]; cbn [snd] in *.
  - destruct (Hf a w1) as [evs' [Htrace' Hspent']].
    exists (evs ++ evs'). rewrite Htrace', Htrace, app_assoc.
    split; [reflexivity |]. rewrite BudgetFacts.spent_app.
    apply BudgetFacts.leb_plus; assumption.
  - exists evs. split; [exact Htrace |].
    apply BudgetFacts.leb_le. apply BudgetFacts.leb_le in Hspent.
    unfold Budget.plus. simpl. lia.
Qed.

Lemma within_tryCatch (b k : Budget.t) (m : M A) (h : string -> M A) :
  within b m -> (forall e, within k (h e)) ->
  within (Budget.plus b k) (tryCatch m h).
Proof.
  intros Hm Hh w. destruct (Hm w) as [evs [Htrace Hspent]]. unfold tryCatch.
  destruct (m w) as [[a | e] w1]; cbn [snd] in *.
  - exists evs. split; [exact Htrace |].
    apply BudgetFacts.leb_le. apply BudgetFacts.leb_le in Hspent.
    unfold Budget.plus. simpl. lia.
  - destruct (Hh e w1) as [evs' [Htrace' Hspent']].
    exists (evs ++ evs'). rewrite Htrace', Htrace, app_assoc.
    split; [reflexivity |]. rewrite BudgetFacts.spent_app.
    apply BudgetFacts.leb_plus; assumption.
Qed.

Lemma within_if (b k : Budget.t) (c : bool) (m m' : M A) :
  within b m -> within k m' -> within (Budget.join b k) (if c then m else m').
Proof.
  intros Hm Hm'. destruct c.
  - eapply within_weaken; [exact Hm |]. intros. apply BudgetFacts.leb_join_l.
    apply BudgetFacts.leb_le. repeat split; lia.
  - eapply within_weaken; [exact Hm' |]. apply BudgetFacts.leb_join_r.
    apply BudgetFacts.leb_le. repeat split; lia.
Qed.

Lemma within_option {X} (b k : Budget.t) (o : option X) (f : X -> M A) (g : M A) :
  (forall x, within b (f x)) -> within k g ->
  within (Budget.join b k) (match o with Some x => f x | None => g end).
Proof.
  intros Hf Hg. destruct o as [x |].
  - eapply within_weaken; [apply Hf |]. apply BudgetFacts.leb_join_l.
    apply BudgetFacts.leb_le. repeat split; lia.
  - eapply within_weaken; [exact Hg |]. apply BudgetFacts.leb_join_r.
    apply BudgetFacts.leb_le. repeat split; lia.
Qed.

End Budgets.

Section ServiceBudgets.

Variable env : Env.

Lemma within_now : within Budget.zero (now env).
Proof. apply within_still. reflexivity. Qed.

Lemma within_getLog : within Budget.zero getLog.
Proof. apply within_still. reflexivity. Qed.

Lemma within_modifyLog f : within Budget.zero (modifyLog f).
Proof. apply within_still. reflexivity. Qed.

Lemma within_lift {A} (o : Outcome A) : within Budget.zero (lift o).
Proof. apply within_still. reflexivity. Qed.

(** Adds up the budget of a computation along its binds, handlers and
    branches. *)
Ltac spend :=
  repeat (intros; cbv zeta; cbn [forOf mapAll firstn];
          lazymatch goal with
          | |- within _ (bind _ _) => eapply within_bind
          | |- within _ (tryCatch _ _) => eapply within_tryCatch
          | |- within _ (if _ then _ else _) => eapply within_if
          | |- within _ (match _ with Some _ => _ | None => _ end) =>
              eapply within_option
          | |- within _ (ret _) => apply within_ret
          | |- within _ (throw _) => apply within_throw
          | |- within _ (call _ _) =>
              eapply within_call; cbn [Budget.cost]; reflexivity
          | |- within _ (now _) => apply within_now
          | |- within _ getLog => apply within_getLog
          | |- within _ (modifyLog _) => apply within_modifyLog
          | |- within _ (lift _) => apply within_lift
          end).

(** The budget derived along the code is compared with the one stated. *)
Ltac budget unfolding :=
  eapply within_weaken; [unfolding; spend | reflexivity].

Lemma within_tryRotation buffer best angle :
  within {| Budget.prompts := 0; Budget.passes := 1; Budget.transforms := 1;
            Budget.pdfParses := 0; Budget.parses := 0 |}
         (tryRotation env buffer best angle).
Proof. budget ltac:(unfold tryRotation, sharp, Tesseract_recognize). Qed.

Lemma within_deskewImage buffer :
  within {| Budget.prompts := 0; Budget.passes := 4; Budget.transforms := 4;
            Budget.pdfParses := 0; Budget.parses := 0 |}
         (deskewImage env buffer).
Proof.
  eapply within_weaken.
  - unfold deskewImage, detectRotation, rotations, Tesseract_recognize, sharp.
    spend; apply within_tryRotation.
  - reflexivity.
Qed.

Lemma within_runMethod buffer m :
  within {| Budget.prompts := 0; Budget.passes := 1; Budget.transforms := 1;
            Budget.pdfParses := 0; Budget.parses := 0 |}
         (runMethod env buffer m).
Proof. budget ltac:(unfold runMethod, sharp, Tesseract_recognize). Qed.

Lemma within_reduceBest results : within Budget.zero (reduceBest results).
Proof. destruct results; [apply within_throw | apply within_ret]. Qed.

Lemma within_extractTextFromImageBuffer buffer :
  within {| Budget.prompts := 0; Budget.passes := 7; Budget.transforms := 7;
            Budget.pdfParses := 0; Budget.parses := 0 |}
         (extractTextFromImageBuffer env buffer).
Proof.
  eapply within_weaken.
  - unfold extractTextFromImageBuffer, PREPROCESSING_METHODS,
      Tesseract_recognize, sharp.
    spend;
      first [ apply within_deskewImage | apply within_runMethod
            | apply within_reduceBest ].
  - reflexivity.
Qed.

Lemma within_extractTextFromPDFBuffer buffer :
  within {| Budget.prompts := 0; Budget.passes := 7; Budget.transforms := 7;
            Budget.pdfParses := 1; Budget.parses := 0 |}
         (extractTextFromPDFBuffer env buffer).
Proof.
  eapply within_weaken.
  - unfold extractTextFromPDFBuffer.
    spend; apply within_extractTextFromImageBuffer.
  - reflexivity.
Qed.

Lemma within_extractWithOCR buffer mime :
  within {| Budget.prompts := 0; Budget.passes := 7; Budget.transforms := 7;
            Budget.pdfParses := 1; Budget.parses := 1 |}
         (extractWithOCR env buffer mime).
Proof.
  eapply within_weaken.
  - unfold extractWithOCR.
    spend;
      first [ apply within_extractTextFromPDFBuffer
            | apply within_extractTextFromImageBuffer ].
  - reflexivity.
Qed.

Lemma within_extractWithGemini buffer mime :
  within {| Budget.prompts := 1; Budget.passes := 0; Budget.transforms := 0;
            Budget.pdfParses := 0; Budget.parses := 0 |}
         (extractWithGemini env buffer mime).
Proof. budget ltac:(unfold extractWithGemini). Qed.

Lemma within_extractHealthData buffer mime options :
  within extractionBudget (extractHealthData env buffer mime options).
Proof.
  eapply within_weaken.
  - unfold extractHealthData, attemptGemini, fallbackToOCR, pushAttempt,
      setFinalMethod, setTotalTime, setLogError, withLog, lengthOf.
    spend;
      first [ apply within_extractWithOCR | apply within_extractWithGemini ].
  - reflexivity.
Qed.

End ServiceBudgets.

(** Reading the text of an image costs at most seven OCR passes and seven
    image transforms, whatever the engine and sharp answer, and nothing
    else: no call of the AI, of pdf-parse or of the parameter parser. *)
Theorem image_text_work_is_bounded env buffer w :
  exists t w' evs,
    extractTextFromImageBuffer env buffer w = (Return t, w') /\
    trace w' = trace w ++ evs /\
    Budget.passes (Budget.spent evs) <= 7 /\
    Budget.transforms (Budget.spent evs) <= 7 /\
    Budget.prompts (Budget.spent evs) = 0 /\
    Budget.pdfParses (Budget.spent evs) = 0 /\
    Budget.parses (Budget.spent evs) = 0.
Proof.
  destruct (total_extractTextFromImageBuffer env buffer w) as [t Ht].
  destruct (within_extractTextFromImageBuffer env buffer w) as [evs [Htrace Hle]].
  destruct (extractTextFromImageBuffer env buffer w) as [o w'].
  cbn [fst snd] in *. subst o. exists t, w', evs.
  split; [reflexivity |]. split; [exact Htrace |].
  apply BudgetFacts.leb_le in Hle. cbn in Hle. lia.
Qed.

(** One extraction sends the document to the AI at most once and costs at
    most seven OCR passes, seven image transforms, one PDF parse and one
    call of the parameter parser; a result of the AI was obtained by the
    call of the AI alone. *)
Theorem extraction_work_is_bounded env buffer mime options w :
  exists r w' evs,
    extractHealthData env buffer mime options w = (Return r, w') /\
    trace w' = trace w ++ evs /\
    Budget.prompts (Budget.spent evs) <= 1 /\
    Budget.passes (Budget.spent evs) <= 7 /\
    Budget.transforms (Budget.spent evs) <= 7 /\
    Budget.pdfParses (Budget.spent evs) <= 1 /\
    Budget.parses (Budget.spent evs) <= 1 /\
    (method (result r) = "gemini" -> evs = [CallGemini buffer mime]).
Proof.
  destruct (extractHealthData_finalized env buffer mime options w)
    as [r [w' [Hrun Hfin]]].
  destruct (within_extractHealthData env buffer mime options w)
    as [evs [Htrace Hle]].
  rewrite Hrun in Htrace. cbn [snd] in Htrace.
  exists r, w', evs. split; [exact Hrun |]. split; [exact Htrace |].
  apply BudgetFacts.leb_le in Hle. cbn in Hle.
  repeat (split; [lia |]).
  destruct Hfin as
    [ text o w1 Hf Hocr l
    | g w1 Hf Hg Hgem Hlog Htr Hshape Hs l
    | g w1 Hf Hg Hgem Hlog Htr Hshape Hs message l
    | g w1 ps Hf Hg Ht Hgem Hlog Htr Hshape Hs Hps Hlen l
    | pre text o w1 ps Hf Hg Hpre Hocr Hs Hps l
    | pre text o w1 Hf Hg Hpre Hocr Hs message l ];
    cbn [result withInsights method];
    try rewrite (ocrRun_method _ _ _ _ _ _ _ Hocr);
    try (intros H; discriminate H);
    intros _; cbn [withTicksLog trace] in Htrace; rewrite Htr in Htrace;
    apply app_inv_head in Htrace; symmetry; exact Htrace.
Qed.

(** The insights of an OCR result are the basic insights of its own
    parameters: whatever the values, such a result is never rated "High". *)
Theorem ocr_insights_are_basic env buffer mime options w :
  exists r w',
    extractHealthData env buffer mime options w = (Return r, w') /\
    (method (result r) = "ocr" ->
     forall i,
       aiInsights (result r) = Some (Some i) ->
       (exists ps, healthParameters (result r) = Some ps /\
                   i = generateBasicInsights ps) /\
       riskLevel i <> "High").
Proof.
  destruct (extractHealthData_finalized env buffer mime options w)
    as [r [w' [Hrun Hfin]]].
  exists r, w'. split; [exact Hrun |].
  assert (forall ps, riskLevel (generateBasicInsights ps) <> "High") as Hrisk.
  { intros ps. unfold generateBasicInsights. cbn [riskLevel].
    destruct (2 <? _); [discriminate |]. destruct (0 <? _); discriminate. }
  assert (forall text o, ocrShaped env text o -> aiInsights o = None) as Hnone.
  { intros text o [_ Hshape].
    destruct (parsedParameters env text);
      [destruct Hshape as [_ [_ [_ [_ [_ [_ [_ H]]]]]]]
      | destruct Hshape as [_ [_ [_ [_ [_ H]]]]]]; exact H. }
  destruct Hfin as
    [ text o w1 Hf [_ [_ [_ Hshape]]] l
    | g w1 Hf Hg Hgem Hlog Htr Hshape Hs l
    | g w1 Hf Hg Hgem Hlog Htr Hshape Hs message l
    | g w1 ps Hf Hg Ht Hgem Hlog Htr Hshape Hs Hps Hlen l
    | pre text o w1 ps Hf Hg Hpre Hocr Hs Hps l
    | pre text o w1 Hf Hg Hpre Hocr Hs message l ];
    cbn [result withInsights method aiInsights healthParameters].
  - intros _ i Hi. rewrite (Hnone text o Hshape) in Hi. discriminate Hi.
  - destruct Hshape as [-> _]. intros H. discriminate H.
  - intros H. discriminate H.
  - destruct Hshape as [-> _]. intros H. discriminate H.
  - intros _ i Hi. destruct (wantsInsights options); [| discriminate Hi].
    injection Hi as <-. split; [| apply Hrisk].
    exists ps. split; [exact Hps | reflexivity].
  - intros H. discriminate H.
Qed.

(* ------------------------------------------------------------------ *)
(** ** Processing times *)

Section Clock.

Context {A B : Type}.

Lemma advancing_still (m : M A) :
  (forall w, ticks (snd (m w)) = ticks w) -> advancing m.
Proof. intros H w. rewrite H. apply le_n. Qed.

Lemma advancing_bind (m : M A) (f : A -> M B) :
  advancing m -> (forall a, advancing (f a)) -> advancing (bind m f).
Proof.
  intros Hm Hf w. specialize (Hm w). unfold bind.
  destruct (m w) as [[a | e] w1]; cbn [snd] in *.
  - specialize (Hf a w1). lia.
  - exact Hm.
Qed.

Lemma advancing_tryCatch (m : M A) (h : string -> M A) :
  advancing m -> (forall e, advancing (h e)) -> advancing (tryCatch m h).
Proof.
  intros Hm Hh w. specialize (Hm w). unfold tryCatch.
  destruct (m w) as [[a | e] w1]; cbn [snd] in *.
  - exact Hm.
  - specialize (Hh e w1). lia.
Qed.

End Clock.

Section ServiceClock.

Variable env : Env.

Lemma advancing_now : advancing (now env).
Proof. intros w. cbn. lia. Qed.

Ltac advance :=
  repeat (intros; cbv zeta; cbn [forOf mapAll firstn];
          lazymatch goal with
          | |- advancing (bind _ _) => apply advancing_bind
          | |- advancing (tryCatch _ _) => apply advancing_tryCatch
          | |- advancing (if ?c then _ else _) => destruct c
          | |- advancing (match ?o with Some _ => _ | None => _ end) =>
              destruct o
          | |- advancing (now _) => apply advancing_now
          | |- advancing _ => apply advancing_still; reflexivity
          end).

Lemma advancing_documentText buffer mime :
  advancing (documentText env buffer mime).
Proof.
  unfold documentText, extractTextFromPDFBuffer, extractTextFromImageBuffer,
    deskewImage, detectRotation, rotations, tryRotation, runMethod,
    PREPROCESSING_METHODS, sharp, Tesseract_recognize.
  advance.
  all: match goal with
       | |- advancing (reduceBest ?results) =>
           destruct results; apply advancing_still; reflexivity
       end.
Qed.

(** The time the AI method reports is the difference of two successive
    readings of the clock. *)
Lemma extractWithGemini_times buffer mime w g w1 :
  extractWithGemini env buffer mime w = (Return g, w1) ->
  ticks w1 = S (S (ticks w)) /\
  (forall md, metadata g = Some md ->
              metaProcessingTime md
              = (clock env (S (ticks w)) - clock env (ticks w))%Z).
Proof.
  unfold extractWithGemini, bind, tryCatch, now, call, lift, ret, throw, record.
  cbn [fst snd ticks trace log].
  destruct (generateContent env buffer mime) as [reply | e];
    [destruct (JSON_parse env _) as [parsed | e];
     [destruct (parameters parsed) as [ps |] |] |];
    intros H; injection H as <- <-; cbn [ticks metadata];
    (split; [reflexivity |]); intros md Hmd; try discriminate Hmd.
  injection Hmd as <-. reflexivity.
Qed.

(** The time the OCR method reports runs from its first reading of the
    clock to its last. *)
Lemma extractWithOCR_times buffer mime w o w1 :
  extractWithOCR env buffer mime w = (Return o, w1) ->
  exists last,
    S (ticks w) <= last /\ ticks w1 = S last /\
    (forall md, metadata o = Some md ->
                metaProcessingTime md
                = (clock env last - clock env (ticks w))%Z).
Proof.
  unfold extractWithOCR.
  unfold bind at 1. unfold now at 1. fold (tick w).
  unfold tryCatch. unfold bind at 1. fold (documentText env buffer mime).
  pose proof (advancing_documentText buffer mime (tick w)) as Hadv.
  destruct (documentText env buffer mime (tick w)) as [[text | e] w2];
    cbn [snd tick ticks] in Hadv.
  - cbv zeta.
    destruct (50 <? String.length _).
    + unfold bind, call, ret, now, record. cbn [fst snd ticks trace log].
      destruct (extractHealthParameters env _) as [ps | e];
        intros H; injection H as <- <-; exists (ticks w2);
        cbn [ticks metadata]; (split; [exact Hadv |]);
        (split; [reflexivity |]); intros md Hmd; try discriminate Hmd.
      injection Hmd as <-. reflexivity.
    + unfold bind, call, ret, now, record. cbn [fst snd ticks trace log].
      intros H; injection H as <- <-; exists (ticks w2);
        cbn [ticks metadata]; (split; [exact Hadv |]);
        (split; [reflexivity |]); intros md Hmd.
      injection Hmd as <-. reflexivity.
  - unfold bind, ret, now. cbn [fst snd ticks trace log].
    intros H; injection H as <- <-; exists (ticks w2);
      cbn [ticks metadata methodFailure]; (split; [exact Hadv |]);
      (split; [reflexivity |]); intros md Hmd; discriminate Hmd.
Qed.

End ServiceClock.

(** A time measured inside a window is at most the time of the window. *)
Lemma window_bound (clock : nat -> Z) (first a b last : nat) :
  monotone clock -> first <= a -> a <= b -> b <= last ->
  (0 <= clock b - clock a <= clock last - clock first)%Z.
Proof.
  intros Hmono H1 H2 H3.
  pose proof (Hmono _ _ H1). pose proof (Hmono _ _ H2).
  pose proof (Hmono _ _ H3). lia.
Qed.

Section Times.

Variables (env : Env) (buffer : Buffer) (mime : string).

Hypothesis steady : monotone (clock env).

Lemma gemini_fits first w0 g w1 :
  first <= ticks w0 ->
  extractWithGemini env buffer mime w0 = (Return g, w1) ->
  fits env first w1 g.
Proof.
  intros Hfirst Hrun.
  destruct (extractWithGemini_times env buffer mime w0 g w1 Hrun) as [Hticks Hmd].
  split; [lia |]. intros md H. rewrite (Hmd md H), Hticks.
  apply window_bound; [exact steady | lia | lia | lia].
Qed.

Lemma ocr_fits first w0 o w1 :
  first <= ticks w0 ->
  extractWithOCR env buffer mime w0 = (Return o, w1) ->
  fits env first w1 o.
Proof.
  intros Hfirst Hrun.
  destruct (extractWithOCR_times env buffer mime w0 o w1 Hrun)
    as [last [Hlast [Hticks Hmd]]].
  split; [lia |]. intros md H. rewrite (Hmd md H), Hticks.
  apply window_bound; [exact steady | lia | lia | lia].
Qed.

Lemma fits_later first w1 w2 r :
  fits env first w1 r -> ticks w1 <= ticks w2 -> fits env first w2 r.
Proof.
  intros [Hle Hmd] Hlater. split; [lia |]. intros md H.
  specialize (Hmd md H). pose proof (steady _ _ Hlater). lia.
Qed.

End Times.

Lemma attempt_fits env first w1 m r t :
  fits env first w1 r ->
  attemptProcessingTime (autoAttempt m r) = Some t ->
  (0 <= t <= clock env (ticks w1) - clock env first)%Z.
Proof.
  intros [_ Hmd] Ht. unfold autoAttempt in Ht. cbn [attemptProcessingTime] in Ht.
  destruct (metadata r) as [md |]; [| discriminate Ht].
  injection Ht as <-. apply Hmd. reflexivity.
Qed.

(** With a clock that never runs backwards, the total time of a run is not
    negative, and neither the time recorded for an attempt nor the time in
    the metadata of the result is negative or exceeds the total time. *)
Theorem times_are_consistent env buffer mime options w :
  monotone (clock env) ->
  exists r w',
    extractHealthData env buffer mime options w = (Return r, w') /\
    (0 <= totalTime (extractionLog r))%Z /\
    Forall (fun a => forall t,
                attemptProcessingTime a = Some t ->
                (0 <= t <= totalTime (extractionLog r))%Z)
           (attempts (extractionLog r)) /\
    (forall md,
       metadata (result r) = Some md ->
       (0 <= metaProcessingTime md <= totalTime (extractionLog r))%Z).
Proof.
  intros steady.
  destruct (extractHealthData_finalized env buffer mime options w)
    as [r [w' [Hrun Hfin]]].
  exists r, w'. split; [exact Hrun |].
  assert (forall r0 w1, fits env (ticks w) w1 r0 ->
            (0 <= clock env (ticks w1) - clock env (ticks w))%Z) as Htotal.
  { intros r0 w1 [Hle _]. pose proof (steady _ _ Hle). lia. }
  assert (forall pre,
            beforeOCR env buffer mime options w pre ->
            ticks w <= ticks pre /\
            forall w1, ticks pre <= ticks w1 ->
              Forall (fun a => forall t,
                          attemptProcessingTime a = Some t ->
                          (0 <= t <= clock env (ticks w1) - clock env (ticks w))%Z)
                     (attempts (log pre))) as Hbefore.
  { intros pre [[_ ->] | [_ [g [w1g [Hgem [_ [_ [_ [_ ->]]]]]]]]].
    - split; [cbn; lia |]. intros w1 _. constructor.
    - pose proof (gemini_fits env buffer mime steady (ticks w) (start w) g w1g
                    ltac:(cbn; lia) Hgem) as Hfits.
      split; [apply Hfits |]. intros w1 Hlater. cbn [withTicksLog ticks] in Hlater.
      cbn [withTicksLog log pushed attempts emptyLog app].
      constructor; [| constructor]. intros t Ht.
      exact (attempt_fits env _ _ _ _ _
               (fits_later env steady _ _ _ _ Hfits Hlater) Ht). }
  destruct Hfin as
    [ text o w1 Hf [Hocr _] l
    | g w1 Hf Hg Hgem Hlog Htr Hshape Hs l
    | g w1 Hf Hg Hgem Hlog Htr Hshape Hs message l
    | g w1 ps Hf Hg Ht Hgem Hlog Htr Hshape Hs Hps Hlen l
    | pre text o w1 ps Hf Hg Hpre [Hocr _] Hs Hps l
    | pre text o w1 Hf Hg Hpre [Hocr _] Hs message l ];
    subst l;
    cbn [result extractionLog finished aborted pushed totalTime attempts
         emptyLog app withInsights metadata failureResult].
  - pose proof (ocr_fits env buffer mime steady (ticks w) (start w) o w1
                  ltac:(cbn; lia) Hocr) as Hfits.
    split; [exact (Htotal _ _ Hfits) |].
    split; [constructor; [intros t Ht; discriminate Ht | constructor] |].
    apply Hfits.
  - pose proof (gemini_fits env buffer mime steady (ticks w) (start w) g w1
                  ltac:(cbn; lia) Hgem) as Hfits.
    split; [exact (Htotal _ _ Hfits) |].
    split; [constructor; [intros t Ht; discriminate Ht | constructor] |].
    apply Hfits.
  - pose proof (gemini_fits env buffer mime steady (ticks w) (start w) g w1
                  ltac:(cbn; lia) Hgem) as Hfits.
    split; [exact (Htotal _ _ Hfits) |].
    split; [constructor; [intros t Ht; discriminate Ht | constructor] |].
    intros md Hmd. discriminate Hmd.
  - pose proof (gemini_fits env buffer mime steady (ticks w) (start w) g w1
                  ltac:(cbn; lia) Hgem) as Hfits.
    split; [exact (Htotal _ _ Hfits) |].
    split; [| apply Hfits].
    constructor; [| constructor]. intros t H.
    exact (attempt_fits env _ _ _ _ _ Hfits H).
  - destruct (Hbefore pre Hpre) as [Hle Hattempts].
    pose proof (ocr_fits env buffer mime steady (ticks w) pre o w1 Hle Hocr)
      as Hfits.
    pose proof (ocr_fits env buffer mime steady (ticks pre) pre o w1
                  (le_n _) Hocr) as [Hlater _].
    split; [exact (Htotal _ _ Hfits) |].
    split; [| apply Hfits].
    apply Forall_app. split; [exact (Hattempts w1 Hlater) |].
    constructor; [| constructor]. intros t H.
    exact (attempt_fits env _ _ _ _ _ Hfits H).
  - destruct (Hbefore pre Hpre) as [Hle Hattempts].
    pose proof (ocr_fits env buffer mime steady (ticks w) pre o w1 Hle Hocr)
      as Hfits.
    pose proof (ocr_fits env buffer mime steady (ticks pre) pre o w1
                  (le_n _) Hocr) as [Hlater _].
    split; [exact (Htotal _ _ Hfits) |].
    split; [| intros md Hmd; discriminate Hmd].
    apply Forall_app. split; [exact (Hattempts w1 Hlater) |].
    constructor; [| constructor]. intros t H.
    exact (attempt_fits env _ _ _ _ _ Hfits H).
Qed.

(** A clock that advances by 10 ms with every reading. *)
Lemma times_are_consistent_witness :
  exists r w',
    extractHealthData (Fixtures.aiOnly [Demo.rawGlucose]) Demo.image "image/png"
                      Demo.auto Demo.world = (Return r, w') /\
    (0 <= totalTime (extractionLog r))%Z /\
    Forall (fun a => forall t,
                attemptProcessingTime a = Some t ->
                (0 <= t <= totalTime (extractionLog r))%Z)
           (attempts (extractionLog r)) /\
    (forall md,
       metadata (result r) = Some md ->
       (0 <= metaProcessingTime md <= totalTime (extractionLog r))%Z).
Proof.
  apply (times_are_consistent (Fixtures.aiOnly [Demo.rawGlucose]) Demo.image
                              "image/png" Demo.auto Demo.world).
  intros n m H. cbn. lia.
Defined.
